(** * The Langflow review bot (src/app.js): retry executor, workflow client
      and check-run orchestrators

    A shallow embedding of the JavaScript of [src/app.js].  Asynchronous
    functions become computations in a state-and-exception monad over a
    [World] that logs every call to an external collaborator (fetch, sleep,
    the GitHub REST client); what a collaborator answers is read from an
    [Env] of oracles, so every statement quantifies over all remote
    behaviours. *)

From Stdlib Require Import String Ascii DecimalString ZArith QArith Bool List Lia.
Import ListNotations.
Local Open Scope Z_scope.
Set Warnings "-register-all".

(** ** JavaScript strings

    A JavaScript string is a sequence of UTF-16 code units; [length],
    [substring] and [includes] all count code units. *)

Definition jsstring := list N.

(** An ASCII literal of the source, as code units. *)
Definition lit (s : string) : jsstring :=
  map N_of_ascii (list_ascii_of_string s).

Definition nl : jsstring := [10%N].
Definition dquote : jsstring := [34%N].

(** [s.startsWith(p)] *)
Fixpoint startsWith (s p : jsstring) {struct p} : bool :=
  match p, s with
  | [], _ => true
  | _ :: _, [] => false
  | c :: p', d :: s' => N.eqb c d && startsWith s' p'
  end.

(** [s.includes(sub)] *)
Fixpoint includes (s sub : jsstring) : bool :=
  startsWith s sub ||
  match s with
  | [] => false
  | _ :: s' => includes s' sub
  end.

(** [s.substring(0, n)] for a literal [n >= 0]. *)
Definition substring0 (n : Z) (s : jsstring) : jsstring :=
  firstn (Z.to_nat n) s.

(** [s.length] *)
Definition jslength (s : jsstring) : Z := Z.of_nat (length s).

(** [s.endsWith(p)] *)
Definition endsWith (s p : jsstring) : bool :=
  startsWith (rev s) (rev p).

Definition jsstring_eqb (a b : jsstring) : bool :=
  (length a =? length b)%nat && startsWith a b.

(** ** JavaScript values

    What [response.json()] can return, plus [undefined], which property
    reads produce.  A JSON number is a finite double, hence a rational; only
    its sign is ever observed by the code. *)

Inductive Value : Type :=
| VUndefined
| VNull
| VBool (b : bool)
| VNum (q : Q)
| VStr (s : jsstring)
| VArr (elems : list Value)
| VObj (fields : list (jsstring * Value)).

(** Thrown values are [Error] objects: a [name] and a [message]. *)
Record Error : Type := mkError { name : jsstring; message : jsstring }.

(** [new Error(msg)] *)
Definition newError (msg : jsstring) : Error := mkError (lit "Error") msg.
Definition typeError (msg : jsstring) : Error := mkError (lit "TypeError") msg.
Definition referenceError (msg : jsstring) : Error :=
  mkError (lit "ReferenceError") msg.

(** ** Completions and the monad

    A computation runs on a state and either completes normally or throws;
    the state reached at the throw is kept, as in JavaScript. *)

Inductive Completion (A : Type) : Type :=
| Normal (a : A)
| Throw (e : Error).
Arguments Normal {A} a.
Arguments Throw {A} e.

Definition M (S A : Type) : Type := S -> Completion A * S.

Definition ret {S A} (a : A) : M S A := fun s => (Normal a, s).

Definition bind {S A B} (m : M S A) (k : A -> M S B) : M S B :=
  fun s =>
    match m s with
    | (Normal a, s1) => k a s1
    | (Throw e, s1) => (Throw e, s1)
    end.

(** [throw e] *)
Definition throw {S A} (e : Error) : M S A := fun s => (Throw e, s).

(** [try { m } catch (e) { h e }] *)
Definition try_catch {S A} (m : M S A) (h : Error -> M S A) : M S A :=
  fun s =>
    match m s with
    | (Normal a, s1) => (Normal a, s1)
    | (Throw e, s1) => h e s1
    end.

(** A completion known in advance, lifted into the monad. *)
Definition liftC {S A} (c : Completion A) : M S A := fun s => (c, s).

Declare Scope js_scope.
Delimit Scope js_scope with js.
Notation "x <- m ;; k" := (bind m (fun x => k))
  (at level 100, m at next level, right associativity) : js_scope.
Notation "m ;;; k" := (bind m (fun _ => k))
  (at level 100, right associativity) : js_scope.
Local Open Scope js_scope.

(** ** Dynamic operations on values *)

(** ToBoolean *)
Definition truthy (v : Value) : bool :=
  match v with
  | VUndefined | VNull => false
  | VBool b => b
  | VNum q => negb (Qnum q =? 0)
  | VStr s => negb (jslength s =? 0)
  | VArr _ | VObj _ => true
  end.

Fixpoint lookupField (k : jsstring) (fields : list (jsstring * Value)) : Value :=
  match fields with
  | [] => VUndefined
  | (k', v) :: rest => if jsstring_eqb k k' then v else lookupField k rest
  end.

Definition numOfNat (n : nat) : Value := VNum (inject_Z (Z.of_nat n)).

Definition cannotRead (k : jsstring) (what : jsstring) : Error :=
  typeError (lit "Cannot read properties of " ++ what ++ lit " (reading '" ++ k ++ lit "')").

(** [v.k] for a property name [k] other than an index: own properties of an
    object; [length] of strings and arrays; [undefined] for every other name
    the code reads ([outputs], [results], [message], [data], [text],
    [result]); a TypeError on [undefined] and [null]. *)
Definition getProp (v : Value) (k : jsstring) : Completion Value :=
  match v with
  | VUndefined => Throw (cannotRead k (lit "undefined"))
  | VNull => Throw (cannotRead k (lit "null"))
  | VObj fields => Normal (lookupField k fields)
  | VStr s => if jsstring_eqb k (lit "length") then Normal (numOfNat (length s))
              else Normal VUndefined
  | VArr l => if jsstring_eqb k (lit "length") then Normal (numOfNat (length l))
              else Normal VUndefined
  | VBool _ | VNum _ => Normal VUndefined
  end.

(** [v[0]] *)
Definition getIndex0 (v : Value) : Completion Value :=
  match v with
  | VUndefined => Throw (cannotRead (lit "0") (lit "undefined"))
  | VNull => Throw (cannotRead (lit "0") (lit "null"))
  | VObj fields => Normal (lookupField (lit "0") fields)
  | VStr s => match s with [] => Normal VUndefined | c :: _ => Normal (VStr [c]) end
  | VArr l => match l with [] => Normal VUndefined | x :: _ => Normal x end
  | VBool _ | VNum _ => Normal VUndefined
  end.

(** [typeof v === 'string'] *)
Definition isString (v : Value) : bool :=
  match v with VStr _ => true | _ => false end.

(** [v === s] for a string literal [s] *)
Definition strictEqStr (v : Value) (s : jsstring) : bool :=
  match v with VStr t => jsstring_eqb t s | _ => false end.

(** ** Data exchanged with the collaborators *)

(** A node-fetch response.  [text] and [json] are what awaiting
    [response.text()] and [response.json()] gives on an unread body;
    [textAfterJson] is what [response.text()] gives once [json()] has
    consumed the body and failed. *)
Record Response : Type := mkResponse {
  status : Z;
  statusText : jsstring;
  text : Completion jsstring;
  json : Completion Value;
  textAfterJson : Completion jsstring
}.

(** [response.ok] *)
Definition ok (r : Response) : bool := (200 <=? status r) && (status r <? 300).

(** The fields of the [check_run.requested_action] webhook payload that the
    handlers read; [p_pull_requests] lists [pull_requests[i].number]. *)
Record Payload : Type := mkPayload {
  p_owner : jsstring;
  p_repo : jsstring;
  p_check_run_id : Z;
  p_head_sha : jsstring;
  p_pull_requests : list Z
}.

(** [pr.data] of [pulls.get] *)
Record PullData : Type := mkPullData {
  pd_title : jsstring;
  pd_body : option jsstring;
  pd_user_login : jsstring;
  pd_head_ref : jsstring;
  pd_base_ref : jsstring;
  pd_additions : Z;
  pd_deletions : Z;
  pd_html_url : jsstring;
  pd_created_at : jsstring;
  pd_updated_at : jsstring;
  pd_mergeable : Value;
  pd_mergeable_state : jsstring
}.

(** One entry of [files.data] of [pulls.listFiles] *)
Record FileData : Type := mkFileData {
  filename : jsstring;
  f_status : jsstring;
  f_additions : Z;
  f_deletions : Z;
  patch : option jsstring
}.

Record Tweak : Type := mkTweak {
  tw_component : jsstring;
  tw_repo_url : jsstring;
  tw_branch_name : jsstring;
  tw_github_token : option jsstring;
  tw_per_page : Z;
  tw_max_pages : Z;
  tw_pr_number : Z
}.

(** [prData] of [handleReviewRequest] *)
Record PrData : Type := mkPrData {
  pr_number : Z;
  repository : jsstring;
  repo_url : jsstring;
  pr_title : jsstring;
  pr_description : jsstring;
  pr_author : jsstring;
  pr_branch : jsstring;
  pr_base_branch : jsstring;
  pr_files : list FileData;
  pr_total_files : Z;
  pr_additions : Z;
  pr_deletions : Z;
  pr_url : jsstring;
  pr_created_at : jsstring;
  pr_updated_at : jsstring;
  pr_tweaks : Tweak
}.

(** [mergeData] of [handleMergeCheck] *)
Record MergeCheckData : Type := mkMergeCheckData {
  mc_pr_number : Z;
  mc_repository : jsstring;
  mc_repo_url : jsstring;
  mc_title : jsstring;
  mc_description : jsstring;
  mc_author : jsstring;
  mc_branch : jsstring;
  mc_mergeable : Value;
  mc_mergeable_state : jsstring;
  mc_previous_review : jsstring;
  mc_checks_status : jsstring;
  mc_tweaks : Tweak
}.

Inductive RequestData : Type :=
| ReviewData (d : PrData)
| MergeData (d : MergeCheckData).

(** [data.tweaks || {}]: both callers set [tweaks] to an object. *)
Definition tweaksOf (data : RequestData) : Tweak :=
  match data with
  | ReviewData d => pr_tweaks d
  | MergeData d => mc_tweaks d
  end.

(** [requestBody]; [rb_body] stands for [JSON.stringify(data)]. *)
Record RequestBody : Type := mkRequestBody {
  rb_body : RequestData;
  rb_session_id : jsstring;
  rb_tweaks : Tweak
}.

(** [requestOptions]; [ro_body] stands for [JSON.stringify(requestBody)]. *)
Record RequestOptions : Type := mkRequestOptions {
  ro_method : jsstring;
  ro_headers : list (jsstring * jsstring);
  ro_body : RequestBody
}.

(** A template literal before it is flattened to a string: literal text,
    interpolated values and interpolated numbers. *)
Inductive Piece : Type :=
| PLit (s : jsstring)
| PVal (v : Value)
| PNum (q : Q).
Definition Template := list Piece.

Record Action : Type := mkAction {
  label : jsstring;
  description : jsstring;
  identifier : jsstring
}.

Record Output : Type := mkOutput {
  title : jsstring;
  summary : Value;
  out_text : option Template
}.

(** The argument of [octokit.rest.checks.update]. *)
Record CheckParams : Type := mkCheckParams {
  owner : jsstring;
  repo : jsstring;
  check_run_id : Z;
  cp_status : jsstring;
  conclusion : option jsstring;
  output : Output;
  actions : list Action
}.

(** The result object of [triggerLangflow]:
    [{success: true, message, data}] or
    [{success: false, error, originalError}]. *)
Inductive LangflowResult : Type :=
| Success (message : Value) (data : Value)
| Failure (error : jsstring) (originalError : jsstring).

Definition success (r : LangflowResult) : bool :=
  match r with Success _ _ => true | Failure _ _ => false end.

(** The Octokit client returned by [getOctokit], which has already checked
    that [rest.checks] and [rest.pulls] are present. *)
Inductive Octokit : Type := InstallationOctokit.

(** ** The world: a log of the calls made to the collaborators *)

Inductive Event : Type :=
| EvGetOctokit
| EvChecksUpdate (p : CheckParams)
| EvPullsList (head : jsstring)
| EvPullsGet (pull_number : Z)
| EvListFiles (pull_number : Z)
| EvListComments (issue_number : Z)
| EvCreateComment (issue_number : Z) (body : Template)
| EvSleep (ms : Z)
| EvFetch (url : jsstring) (options : RequestOptions).

Definition World := list Event.

Definition isFetch (e : Event) : bool :=
  match e with EvFetch _ _ => true | _ => false end.
Definition isChecksUpdate (e : Event) : bool :=
  match e with EvChecksUpdate _ => true | _ => false end.

(** How many times [fetch] has been called so far. *)
Definition fetchCalls (w : World) : nat := length (filter isFetch w).
Definition updateCalls (w : World) : nat := length (filter isChecksUpdate w).

(** The delays requested from [sleep], in order. *)
Fixpoint sleeps (w : World) : list Z :=
  match w with
  | [] => []
  | EvSleep ms :: w' => ms :: sleeps w'
  | _ :: w' => sleeps w'
  end.

(** The arguments of the [checks.update] calls, in order. *)
Fixpoint checkUpdates (w : World) : list CheckParams :=
  match w with
  | [] => []
  | EvChecksUpdate p :: w' => p :: checkUpdates w'
  | _ :: w' => checkUpdates w'
  end.

(** ** The environment: configuration and remote behaviour

    [process.env], [CONFIG.langflow] and, for every collaborator, what it
    answers.  [fetch_outcome n] is the outcome of the [n]-th call of [fetch]
    (from 0): a response, or a thrown error (network failure, or the
    AbortError raised when the timer of [CONFIG.langflow.timeout] fires).
    [checks_update_outcome n] is the outcome of the [n]-th
    [checks.update]. *)
Record Env : Type := mkEnv {
  LANGFLOW_ENDPOINT : option jsstring;
  LANGFLOW_API_KEY : option jsstring;
  LANGFLOW_REVIEW_FLOW_ID : option jsstring;
  LANGFLOW_MERGE_CHECK_FLOW_ID : option jsstring;
  GITHUB_TOKEN : option jsstring;
  cfg_timeout : Z;
  cfg_retries : Z;
  cfg_retryDelay : Z;
  fetch_outcome : nat -> Completion Response;
  (** the value of [Math.random() * 3000 + 2000] as [setTimeout] takes it *)
  jitter : Z;
  (** [`${Date.now()}_${Math.random().toString(36).substr(2, 9)}`] *)
  session_suffix : jsstring;
  getOctokit_outcome : Completion Octokit;
  checks_update_outcome : nat -> Completion unit;
  pulls_list_outcome : Completion (list Z);
  pulls_get_outcome : Completion PullData;
  pulls_listFiles_outcome : Completion (list FileData);
  issues_listComments_outcome : Completion (list jsstring);
  issues_createComment_outcome : Completion unit;
  (** [v > n] when [v] is a string, an array or an object, which goes
      through ToPrimitive and ToNumber and may throw *)
  coerceGt : Value -> Z -> Completion bool;
  (** [String.prototype.toLowerCase] *)
  toLowerCase : jsstring -> jsstring
}.

(** The outcome of one pass through the body of a [for] loop: a [return]
    out of the function, or falling through (or [continue]) to the next
    iteration. *)
Inductive LoopStep (A : Type) : Type :=
| Return (a : A)
| Continue.
Arguments Return {A} a.
Arguments Continue {A}.

(** [process.env.X] is a string or [undefined]; it is truthy when set and
    not empty. *)
Definition envTruthy (o : option jsstring) : bool :=
  match o with Some (_ :: _) => true | _ => false end.

(** [`${process.env.X}`] *)
Definition envStr (o : option jsstring) : jsstring :=
  match o with Some s => s | None => lit "undefined" end.

(** ToString of an integer-valued number, as in [`${response.status}`]. *)
Definition decimal (z : Z) : jsstring :=
  lit (NilZero.string_of_int (Z.to_int z)).

Section Bot.

Variable env : Env.

Definition emit (e : Event) : M World unit := fun w => (Normal tt, w ++ [e]).

(** [sleep(ms)] (src/app.js:151) *)
Definition sleep (ms : Z) : M World unit := emit (EvSleep ms).

(** [await fetch(url, {...options, signal: controller.signal})] with the
    abort timer set just before it (src/app.js:162-170). *)
Definition fetch (url : jsstring) (options : RequestOptions) : M World Response :=
  fun w => (fetch_outcome env (fetchCalls w), w ++ [EvFetch url options]).

(** *** fetchWithRetry (src/app.js:156-200) *)

(** The body of the loop: the [try] block and its [catch]. *)
Definition fetchAttempt (url : jsstring) (options : RequestOptions)
    (retries attempt : Z) : M World (LoopStep Response) :=
  try_catch
    (response <- fetch url options ;;
     if ok response then ret (Return response)
     else if (status response >=? 500) && (attempt <? retries) then
       (sleep (cfg_retryDelay env) ;;; ret Continue)
     else ret (Return response))
    (fun error =>
       if attempt =? retries then throw error
       else (sleep (cfg_retryDelay env) ;;; ret Continue)).

(** [for (let attempt = 1; attempt <= retries; attempt++)]: [left] counts
    the iterations still allowed by the test, [retries + 1 - attempt];
    when none is left the function ends without a [return], which gives
    [undefined] ([None]). *)
Fixpoint fetchLoop (url : jsstring) (options : RequestOptions) (retries : Z)
    (left : nat) (attempt : Z) : M World (option Response) :=
  match left with
  | O => ret None
  | S left' =>
      step <- fetchAttempt url options retries attempt ;;
      match step with
      | Return response => ret (Some response)
      | Continue => fetchLoop url options retries left' (attempt + 1)
      end
  end.

Definition fetchWithRetry (url : jsstring) (options : RequestOptions)
    (retries : Z) : M World (option Response) :=
  fetchLoop url options retries (Z.to_nat retries) 1.

(** *** triggerLangflow (src/app.js:808-1028) *)

(** The [switch] on [response.status] with its default (src/app.js:884-914). *)
Definition statusMessage (st : Z) (stText : jsstring) (flowId : jsstring) : jsstring :=
  if st =? 400 then lit "Bad request to Langflow API. Please check the data format."
  else if st =? 401 then lit "Unauthorized. Please check your Langflow API key."
  else if st =? 403 then lit "Forbidden. Your API key may not have access to this flow."
  else if st =? 404 then
    lit "Flow not found. Please check if flow ID '" ++ flowId ++ lit "' exists."
  else if st =? 429 then lit "Too many requests. Langflow API rate limit exceeded."
  else if st =? 500 then lit "Internal server error in Langflow. Please try again later."
  else if st =? 502 then lit "Bad gateway. Langflow service may be temporarily unavailable."
  else if st =? 503 then lit "Service unavailable. Langflow is temporarily down."
  else if st =? 504 then lit "Gateway timeout. Langflow is taking too long to respond."
  else lit "Langflow API error: " ++ decimal st ++ lit " " ++ stText.

(** [errorMessage] as thrown at src/app.js:920. *)
Definition httpErrorMessage (st : Z) (stText flowId errorText : jsstring) : jsstring :=
  let errorMessage := statusMessage st stText flowId in
  match errorText with
  | [] => errorMessage
  | _ :: _ => errorMessage ++ lit " Details: " ++ substring0 200 errorText
  end.

(** [v > n] for a number literal [n]. *)
Definition jsGt (v : Value) (n : Z) : Completion bool :=
  match v with
  | VUndefined => Normal false
  | VNull => Normal (0 >? n)
  | VBool b => Normal ((if b then 1 else 0) >? n)
  | VNum q => Normal (negb (Qle_bool q (inject_Z n)))
  | VStr _ | VArr _ | VObj _ => coerceGt env v n
  end.

(** The local variable [message] is the state of the extraction block. *)
Definition getMessage : M Value Value := fun m => (Normal m, m).
Definition setMessage (v : Value) : M Value unit := fun _ => (Normal tt, v).
Definition prop (v : Value) (k : string) : M Value Value :=
  liftC (getProp v (lit k)).

(** [v && v.length > 0] *)
Definition hasElements (v : Value) : M Value bool :=
  if truthy v then (len <- prop v "length" ;; liftC (jsGt len 0))
  else ret false.

Definition defaultMessage : jsstring := lit "Analysis completed successfully".

(** The nested outputs shape (src/app.js:938-946). *)
Definition extractOutputs (result : Value) : M Value unit :=
  outputs <- prop result "outputs" ;;
  nonEmpty <- hasElements outputs ;;
  if nonEmpty then
    (output <- liftC (getIndex0 outputs) ;;
     inner <- prop output "outputs" ;;
     nonEmpty' <- hasElements inner ;;
     if nonEmpty' then
       (innerOutput <- liftC (getIndex0 inner) ;;
        results <- prop innerOutput "results" ;;
        if truthy results then
          (msg <- prop results "message" ;;
           if truthy msg then
             (d <- prop msg "data" ;;
              if truthy d then
                (t <- prop d "text" ;;
                 setMessage (if truthy t then t else VStr (lit "Analysis completed")))
              else ret tt)
           else ret tt)
        else ret tt)
     else ret tt)
  else ret tt.

(** The flat [result] shape (src/app.js:949-957). *)
Definition extractResult (result : Value) : M Value unit :=
  message <- getMessage ;;
  if strictEqStr message defaultMessage then
    (r <- prop result "result" ;;
     if truthy r then
       if isString r then setMessage r
       else
         (t <- prop r "text" ;;
          if truthy t then setMessage t
          else
            (m <- prop r "message" ;;
             if truthy m then setMessage m else ret tt))
     else ret tt)
  else ret tt.

(** The flat [data.text] shape (src/app.js:960-962). *)
Definition extractDataText (result : Value) : M Value unit :=
  message <- getMessage ;;
  if strictEqStr message defaultMessage then
    (d <- prop result "data" ;;
     if truthy d then
       (t <- prop d "text" ;;
        if truthy t then setMessage t else ret tt)
     else ret tt)
  else ret tt.

(** [let message = '...'; try { ... } catch (extractError) { }]
    (src/app.js:935-967): the value of [message] afterwards. *)
Definition extractMessage (result : Value) : Value :=
  snd (try_catch
         (extractOutputs result ;;; extractResult result ;;; extractDataText result)
         (fun extractError => ret tt)
         (VStr defaultMessage)).

(** [message.includes(s)]: a substring test on a string, a membership test
    on an array, and a TypeError on anything else, which has no callable
    [includes]. *)
Definition valueIncludes (message : Value) (s : jsstring) : Completion bool :=
  match message with
  | VStr m => Normal (includes m s)
  | VArr l => Normal (existsb (fun x => strictEqStr x s) l)
  | VUndefined => Throw (cannotRead (lit "includes") (lit "undefined"))
  | VNull => Throw (cannotRead (lit "includes") (lit "null"))
  | VBool _ | VNum _ | VObj _ =>
      Throw (typeError (lit "message.includes is not a function"))
  end.

Definition robot : jsstring := [55358%N; 56598%N].      (* U+1F916 *)
Definition checkMark : jsstring := [9989%N].            (* U+2705 *)
Definition rocket : jsstring := [55357%N; 56960%N].     (* U+1F680 *)
Definition crossMark : jsstring := [10060%N].           (* U+274C *)
Definition warningSign : jsstring := [9888%N; 65039%N]. (* U+26A0 U+FE0F *)
Definition arrows : jsstring := [55357%N; 56580%N].     (* U+1F504 *)
Definition stopwatch : jsstring := [9201%N; 65039%N].   (* U+23F1 U+FE0F *)
Definition bullet : jsstring := [8226%N].               (* U+2022 *)

(** The fixed summary substituted at src/app.js:971-982. *)
Definition genericSummary : jsstring :=
  lit "## " ++ robot ++ lit " AI Analysis Results" ++ nl ++ nl ++
  lit "**PR Review Completed**" ++ nl ++ nl ++
  lit "The AI analysis has been processed successfully. The review covers:" ++ nl ++ nl ++
  checkMark ++ lit " **Code Quality Assessment**" ++ nl ++
  checkMark ++ lit " **Security Review** " ++ nl ++
  checkMark ++ lit " **Best Practices Check**" ++ nl ++
  checkMark ++ lit " **Performance Analysis**" ++ nl ++ nl ++
  lit "*Detailed analysis results have been processed by the AI system.*".

(** src/app.js:970-983 *)
Definition cleanMessage (message : Value) : Completion Value :=
  match valueIncludes message (lit "PR #") with
  | Throw e => Throw e
  | Normal false => Normal message
  | Normal true =>
      match valueIncludes message (lit "not found") with
      | Throw e => Throw e
      | Normal false => Normal message
      | Normal true => Normal (VStr genericSummary)
      end
  end.

Definition truncationMarker : jsstring :=
  nl ++ nl ++ lit "*[Message truncated due to length]*".

(** [message.substring(0, 65000) + marker]; only a string has
    [substring]. *)
Definition truncated (message : Value) : Completion Value :=
  match message with
  | VStr m => Normal (VStr (substring0 65000 m ++ truncationMarker))
  | VUndefined => Throw (cannotRead (lit "substring") (lit "undefined"))
  | VNull => Throw (cannotRead (lit "substring") (lit "null"))
  | _ => Throw (typeError (lit "message.substring is not a function"))
  end.

(** src/app.js:986-988 *)
Definition truncateMessage (message : Value) : Completion Value :=
  match getProp message (lit "length") with
  | Throw e => Throw e
  | Normal len =>
      match jsGt len 65000 with
      | Throw e => Throw e
      | Normal true => truncated message
      | Normal false => Normal message
      end
  end.

(** The classification of the [catch] block (src/app.js:1008-1020). *)
Definition userFriendlyMessage (error : Error) : jsstring :=
  if jsstring_eqb (name error) (lit "AbortError")
     || includes (message error) (lit "timeout") then
    lit "The AI analysis timed out. This usually happens when the service is overloaded. Please try again in a few minutes."
  else if includes (message error) (lit "ENOTFOUND")
          || includes (message error) (lit "ECONNREFUSED") then
    lit "Cannot connect to the AI service. Please check if the Langflow endpoint is correct and accessible."
  else if includes (message error) (lit "ECONNRESET")
          || includes (message error) (lit "socket hang up") then
    lit "Connection to the AI service was interrupted. Please try again."
  else if includes (message error) (lit "401") then
    lit "Authentication failed. Please check the API key configuration."
  else if includes (message error) (lit "404") then
    lit "The specified AI flow was not found. Please check the flow configuration."
  else message error.

Definition requestHeaders : list (jsstring * jsstring) :=
  [ (lit "Content-Type", lit "application/json");
    (lit "Authorization", lit "Bearer " ++ envStr (LANGFLOW_API_KEY env));
    (lit "User-Agent", lit "Mozilla/5.0 (X11; Linux x86_64) AppleWebKit/537.36 (KHTML, like Gecko) Chrome/91.0.4472.124 Safari/537.36");
    (lit "Accept", lit "application/json, text/plain, */*");
    (lit "Accept-Language", lit "en-US,en;q=0.9");
    (lit "Cache-Control", lit "no-cache");
    (lit "Pragma", lit "no-cache") ].

(** What follows [fetchWithRetry] inside the [try] (src/app.js:871-997). *)
Definition interpretResponse (flowId : option jsstring)
    (response : option Response) : M World LangflowResult :=
  match response with
  | None => throw (cannotRead (lit "status") (lit "undefined"))
  | Some response =>
      if negb (ok response) then
        (errorText <- try_catch (liftC (text response)) (fun textError => ret []) ;;
         throw (newError (httpErrorMessage (status response) (statusText response)
                            (envStr flowId) errorText)))
      else
        (result <- try_catch (liftC (json response))
                     (fun jsonError =>
                        responseText <- liftC (textAfterJson response) ;;
                        throw (newError (lit "Invalid JSON response from Langflow API"))) ;;
         message <- liftC (cleanMessage (extractMessage result)) ;;
         message <- liftC (truncateMessage message) ;;
         ret (Success message result))
  end.

(** [apiUrl] (src/app.js:827) *)
Definition apiUrl (flowId : option jsstring) : jsstring :=
  envStr (LANGFLOW_ENDPOINT env) ++ lit "/run/" ++ envStr flowId.

(** [requestOptions] with its [requestBody] (src/app.js:831-863) *)
Definition requestOptions (data : RequestData) : RequestOptions :=
  mkRequestOptions (lit "POST") requestHeaders
    (mkRequestBody data (lit "github_" ++ session_suffix env) (tweaksOf data)).

(** The [catch] block (src/app.js:999-1027). *)
Definition langflowCatch (error : Error) : M World LangflowResult :=
  ret (Failure (userFriendlyMessage error) (message error)).

Definition triggerLangflow (data : RequestData) (flowId : option jsstring)
    : M World LangflowResult :=
  try_catch
    (if negb (envTruthy (LANGFLOW_ENDPOINT env)) then
       throw (newError (lit "LANGFLOW_ENDPOINT environment variable is not set"))
     else if negb (envTruthy (LANGFLOW_API_KEY env)) then
       throw (newError (lit "LANGFLOW_API_KEY environment variable is not set"))
     else if negb (envTruthy flowId) then
       throw (newError (lit "Flow ID is required but not provided"))
     else
       (sleep (jitter env) ;;;
        response <- fetchWithRetry (apiUrl flowId) (requestOptions data)
                      (cfg_retries env) ;;
        interpretResponse flowId response))
    langflowCatch.

(** *** The GitHub client: every call is logged, its outcome comes from
    the environment *)

(** [getOctokit()] (src/app.js:203-334), the credential provider. *)
Definition getOctokit : M World Octokit :=
  fun w => (getOctokit_outcome env, w ++ [EvGetOctokit]).

Definition checks_update (octokit : Octokit) (p : CheckParams) : M World unit :=
  fun w => (checks_update_outcome env (updateCalls w), w ++ [EvChecksUpdate p]).

Definition pulls_list (octokit : Octokit) (head : jsstring) : M World (list Z) :=
  fun w => (pulls_list_outcome env, w ++ [EvPullsList head]).

Definition pulls_get (octokit : Octokit) (n : Z) : M World PullData :=
  fun w => (pulls_get_outcome env, w ++ [EvPullsGet n]).

Definition pulls_listFiles (octokit : Octokit) (n : Z) : M World (list FileData) :=
  fun w => (pulls_listFiles_outcome env, w ++ [EvListFiles n]).

Definition issues_listComments (octokit : Octokit) (n : Z) : M World (list jsstring) :=
  fun w => (issues_listComments_outcome env, w ++ [EvListComments n]).

Definition issues_createComment (octokit : Octokit) (n : Z) (body : Template)
    : M World unit :=
  fun w => (issues_createComment_outcome env, w ++ [EvCreateComment n body]).

(** [s || dflt] for a string [s] *)
Definition strOr (s dflt : jsstring) : jsstring :=
  match s with [] => dflt | _ :: _ => s end.

(** [v || dflt] for a value [v] *)
Definition valOr (v : Value) (dflt : jsstring) : Value :=
  if truthy v then v else VStr dflt.

Definition repoUrl (payload : Payload) : jsstring :=
  lit "https://github.com/" ++ p_owner payload ++ lit "/" ++ p_repo payload.

(** [(pr.data.body || 'No description provided').substring(0, 500)] *)
Definition describe (pr : PullData) : jsstring :=
  substring0 500
    (match pd_body pr with
     | Some (c :: b) => c :: b
     | _ => lit "No description provided"
     end).

Definition mkTweakFor (component : string) (payload : Payload) (pr : PullData)
    (prNumber : Z) : Tweak :=
  mkTweak (lit component) (repoUrl payload) (pd_head_ref pr) (GITHUB_TOKEN env)
          30 5 prNumber.

(** *** handleReviewRequest (src/app.js:381-658) *)

(** src/app.js:405-415 *)
Definition inProgressParams (payload : Payload) : CheckParams :=
  mkCheckParams (p_owner payload) (p_repo payload) (p_check_run_id payload)
    (lit "in_progress") None
    (mkOutput (arrows ++ lit " AI Review in Progress")
       (VStr (lit "Analyzing your code with Langflow agents..."))
       (Some [PLit (stopwatch ++ lit " This may take up to ");
              PNum (cfg_timeout env # 1000);
              PLit (lit " seconds. Please wait...")]))
    [].

(** src/app.js:427-456 *)
Definition findPrNumber (octokit : Octokit) (payload : Payload) : M World Z :=
  match p_pull_requests payload with
  | n :: _ => ret n
  | [] =>
      try_catch
        (pulls <- pulls_list octokit (p_owner payload ++ lit ":" ++ p_head_sha payload) ;;
         match pulls with
         | [] => throw (newError (lit "No open pull request found for this check run"))
         | n :: _ => ret n
         end)
        (fun pullError =>
           throw (newError (lit "Cannot find PR for this check run: " ++ message pullError)))
  end.

(** src/app.js:490-526 *)
Definition buildPrData (payload : Payload) (prNumber : Z) (pr : PullData)
    (files : list FileData) : PrData :=
  mkPrData prNumber
    (p_owner payload ++ lit "/" ++ p_repo payload)
    (repoUrl payload)
    (pd_title pr)
    (describe pr)
    (pd_user_login pr)
    (pd_head_ref pr)
    (pd_base_ref pr)
    (map (fun file =>
            mkFileData (filename file) (f_status file) (f_additions file)
              (f_deletions file)
              (match patch file with
               | Some (c :: p) => Some (substring0 1000 (c :: p))
               | _ => None
               end))
         (firstn 10 files))
    (Z.of_nat (length files))
    (pd_additions pr)
    (pd_deletions pr)
    (pd_html_url pr)
    (pd_created_at pr)
    (pd_updated_at pr)
    (mkTweakFor "GitHubBranchPRsFetcher-2MPWZ" payload pr prNumber).

(** src/app.js:539-557 *)
Definition successUpdateParams (payload : Payload) (msg : Value) : CheckParams :=
  mkCheckParams (p_owner payload) (p_repo payload) (p_check_run_id payload)
    (lit "completed") (Some (lit "neutral"))
    (mkOutput (checkMark ++ lit " AI Review Complete")
       (VStr (lit "Code review completed successfully"))
       (Some [PVal (valOr msg (lit "Review analysis completed"))]))
    [mkAction (rocket ++ lit " Check Merge Readiness")
       (lit "Analyze if PR is ready to merge") (lit "check_merge")].

(** src/app.js:574-579 *)
Definition reviewCommentBody (msg : Value) : Template :=
  [PLit (lit "## " ++ robot ++ lit " AI Code Review Results" ++ nl ++ nl);
   PVal (valOr msg (lit "Review completed successfully"));
   PLit (nl ++ nl ++ lit "---" ++ nl ++ lit "*Analysis powered by Langflow AI " ++
         bullet ++ lit " Click " ++ dquote ++ lit "Check Merge Readiness" ++ dquote ++
         lit " above for final assessment*")].

(** The rewriting of the failure message (src/app.js:593-602). *)
Definition friendlyError (error : jsstring) : jsstring :=
  let errorMessage := strOr error (lit "Langflow request failed") in
  if includes errorMessage (lit "504") || includes errorMessage (lit "GATEWAY_TIMEOUT") then
    lit "The AI service is currently experiencing high load. Please try again in a few minutes."
  else if includes errorMessage (lit "timeout") || includes errorMessage (lit "ETIMEDOUT") then
    lit "The AI analysis is taking longer than expected. The service may be busy."
  else if includes errorMessage (lit "500") || includes errorMessage (lit "503") then
    lit "The AI service is temporarily unavailable. Please try again later."
  else errorMessage.

(** The test of src/app.js:620-621. *)
Definition isUnavailable (msg : jsstring) : bool :=
  includes msg (lit "timeout") || includes msg (lit "504") ||
  includes msg (lit "temporarily unavailable") || includes msg (lit "high load").

(** src/app.js:615-645 *)
Definition errorUpdateParams (payload : Payload) (error : Error) : CheckParams :=
  let unavailable := isUnavailable (message error) in
  mkCheckParams (p_owner payload) (p_repo payload) (p_check_run_id payload)
    (lit "completed")
    (Some (if unavailable then lit "neutral" else lit "failure"))
    (mkOutput
       (if unavailable then warningSign ++ lit " AI Review Unavailable"
        else crossMark ++ lit " AI Review Failed")
       (VStr (if unavailable then lit "The AI service is currently unavailable"
              else lit "There was an error during the review process"))
       (Some [PLit (message error ++ nl ++ nl ++
                    lit "*You can try running the review again by clicking the " ++
                    dquote ++ lit "Review PR" ++ dquote ++ lit " button.*")]))
    [mkAction (arrows ++ lit " Retry Review") (lit "Try the AI review again")
       (lit "review_pr")].

(** The outer [catch] (src/app.js:607-657); [octokit] is [None] when the
    variable is still [undefined]. *)
Definition reviewCatch (payload : Payload) (octokit : option Octokit)
    (error : Error) : M World unit :=
  match octokit with
  | Some octokit =>
      try_catch (checks_update octokit (errorUpdateParams payload error))
        (fun errorUpdateError => ret tt)
  | None => ret tt
  end.

(** The [try] block once [octokit] is assigned (src/app.js:403-605). *)
Definition reviewBody (payload : Payload) (octokit : Octokit) : M World unit :=
  try_catch (checks_update octokit (inProgressParams payload))
    (fun checkError => ret tt) ;;;
  prNumber <- findPrNumber octokit payload ;;
  prFiles <- try_catch
    (pr <- pulls_get octokit prNumber ;;
     files <- pulls_listFiles octokit prNumber ;;
     ret (pr, files))
    (fun prError =>
       throw (newError (lit "Failed to retrieve PR data: " ++ message prError))) ;;
  let prData := buildPrData payload prNumber (fst prFiles) (snd prFiles) in
  reviewResult <- triggerLangflow (ReviewData prData) (LANGFLOW_REVIEW_FLOW_ID env) ;;
  match reviewResult with
  | Success msg _ =>
      try_catch (checks_update octokit (successUpdateParams payload msg))
        (fun updateError => ret tt) ;;;
      try_catch (issues_createComment octokit prNumber (reviewCommentBody msg))
        (fun commentError => ret tt)
  | Failure error _ => throw (newError (friendlyError error))
  end.

Definition handleReviewRequest (payload : Payload) : M World unit :=
  fun w =>
    match try_catch getOctokit
            (fun octokitError =>
               throw (newError (lit "Authentication failed: " ++ message octokitError)))
            w with
    | (Throw error, w1) => reviewCatch payload None error w1
    | (Normal octokit, w1) =>
        try_catch (reviewBody payload octokit)
          (reviewCatch payload (Some octokit)) w1
    end.

(** *** handleMergeCheck (src/app.js:661-805) *)

(** src/app.js:669-688: here [pulls.list] is not wrapped. *)
Definition findPrNumberMerge (octokit : Octokit) (payload : Payload) : M World Z :=
  match p_pull_requests payload with
  | n :: _ => ret n
  | [] =>
      pulls <- pulls_list octokit (p_owner payload ++ lit ":" ++ p_head_sha payload) ;;
      match pulls with
      | [] => throw (newError (lit "No open pull request found for this check run"))
      | n :: _ => ret n
      end
  end.

(** src/app.js:693-702 *)
Definition mergeInProgressParams (payload : Payload) : CheckParams :=
  mkCheckParams (p_owner payload) (p_repo payload) (p_check_run_id payload)
    (lit "in_progress") None
    (mkOutput (arrows ++ lit " Checking Merge Readiness")
       (VStr (lit "Analyzing PR for merge readiness...")) None)
    [].

(** src/app.js:718-744 *)
Definition buildMergeData (payload : Payload) (prNumber : Z) (pr : PullData)
    (comments : list jsstring) : MergeCheckData :=
  let reviewComment :=
    find (fun body => includes body (lit "AI Code Review Results")) comments in
  mkMergeCheckData prNumber
    (p_owner payload ++ lit "/" ++ p_repo payload)
    (repoUrl payload)
    (pd_title pr)
    (describe pr)
    (pd_user_login pr)
    (pd_head_ref pr)
    (pd_mergeable pr)
    (pd_mergeable_state pr)
    (match reviewComment with
     | Some body => substring0 1000 body
     | None => lit "No previous review found"
     end)
    (lit "pending")
    (mkTweakFor "GitHubOpenPRsFetcher-yZc4z" payload pr prNumber).

(** [mergeResult.message.toLowerCase()] *)
Definition lowerOf (msg : Value) : Completion jsstring :=
  match msg with
  | VStr m => Normal (toLowerCase env m)
  | VUndefined => Throw (cannotRead (lit "toLowerCase") (lit "undefined"))
  | VNull => Throw (cannotRead (lit "toLowerCase") (lit "null"))
  | _ => Throw (typeError (lit "mergeResult.message.toLowerCase is not a function"))
  end.

(** src/app.js:752-762 *)
Definition mergeCompletedParams (payload : Payload) (msg : Value) (isReady : bool)
    : CheckParams :=
  mkCheckParams (p_owner payload) (p_repo payload) (p_check_run_id payload)
    (lit "completed")
    (Some (if isReady then lit "success" else lit "neutral"))
    (mkOutput
       (if isReady then rocket ++ lit " Ready to Merge!"
        else warningSign ++ lit " Not Ready to Merge")
       (valOr msg (lit "Merge readiness analysis completed"))
       None)
    [].

(** src/app.js:769-774 *)
Definition mergeCommentBody (msg : Value) : Template :=
  [PLit (lit "## " ++ rocket ++ lit " Merge Readiness Analysis" ++ nl ++ nl);
   PVal (valOr msg (lit "Analysis completed"));
   PLit (nl ++ nl ++ lit "---" ++ nl ++ lit "*Final assessment by Langflow AI*")].

(** What the handler does with [mergeResult] (src/app.js:749-780). *)
Definition mergeCheckFinish (payload : Payload) (octokit : Octokit) (prNumber : Z)
    (mergeResult : LangflowResult) : M World unit :=
  match mergeResult with
  | Success msg _ =>
      lower <- liftC (lowerOf msg) ;;
      let isReady := includes lower (lit "ready") in
      checks_update octokit (mergeCompletedParams payload msg isReady) ;;;
      issues_createComment octokit prNumber (mergeCommentBody msg)
  | Failure error _ => throw (newError (strOr error (lit "Merge check failed")))
  end.

(** The [try] block (src/app.js:662-780). *)
Definition mergeBody (payload : Payload) : M World unit :=
  octokit <- getOctokit ;;
  prNumber <- findPrNumberMerge octokit payload ;;
  checks_update octokit (mergeInProgressParams payload) ;;;
  pr <- pulls_get octokit prNumber ;;
  comments <- issues_listComments octokit prNumber ;;
  let mergeData := buildMergeData payload prNumber pr comments in
  mergeResult <- triggerLangflow (MergeData mergeData) (LANGFLOW_MERGE_CHECK_FLOW_ID env) ;;
  mergeCheckFinish payload octokit prNumber mergeResult.

(** [octokit] is a [const] of the [try] block, so the [catch] block
    (src/app.js:782-804), which starts by reading [octokit], is outside its
    scope: the read throws a ReferenceError. *)
Definition handleMergeCheck (payload : Payload) : M World unit :=
  try_catch (mergeBody payload)
    (fun error => throw (referenceError (lit "octokit is not defined"))).

End Bot.

(** * The other entry points of src/app.js *)

Section EntryPoints.

Variable env : Env.

(** ** The handler of button clicks (src/app.js:124-148)

    [identifier] is [payload.requested_action.identifier]. *)
Definition onRequestedAction (identifier : jsstring) (payload : Payload)
    : M World unit :=
  if jsstring_eqb identifier (lit "review_pr") then handleReviewRequest env payload
  else if jsstring_eqb identifier (lit "check_merge") then handleMergeCheck env payload
  else ret tt.

(** ** addReviewButton (src/app.js:337-378), called for the
    [pull_request.opened] and [pull_request.synchronize] events *)

(** The fields of a [pull_request] webhook payload that the function
    reads. *)
Record PullRequestPayload : Type := mkPullRequestPayload {
  prp_owner : jsstring;
  prp_repo : jsstring;
  prp_title : jsstring;
  prp_user_login : jsstring;
  prp_changed_files : Z;
  prp_additions : Z;
  prp_deletions : Z;
  prp_head_sha : jsstring
}.

(** The argument of [octokit.rest.checks.create]. *)
Record CreateParams : Type := mkCreateParams {
  cr_owner : jsstring;
  cr_repo : jsstring;
  cr_name : jsstring;
  cr_head_sha : jsstring;
  cr_status : jsstring;
  cr_conclusion : jsstring;
  cr_output : Output;
  cr_actions : list Action
}.

(** The calls that [addReviewButton] makes. *)
Inductive ButtonEvent : Type :=
| BtnGetOctokit
| BtnChecksCreate (p : CreateParams).

(** [checkParams] (src/app.js:341-367) *)
Definition checkParams (payload : PullRequestPayload) : CreateParams :=
  mkCreateParams (prp_owner payload) (prp_repo payload) (lit "AI Code Review")
    (prp_head_sha payload) (lit "completed") (lit "neutral")
    (mkOutput (robot ++ lit " AI Review Available")
       (VStr (lit "Click the button below to start AI-powered code review"))
       (Some [PLit (nl ++ lit "**PR Details:**" ++ nl ++
                    lit "- Title: " ++ prp_title payload ++ nl ++
                    lit "- Author: " ++ prp_user_login payload ++ nl ++
                    lit "- Files changed: ");
              PNum (inject_Z (prp_changed_files payload));
              PLit (nl ++ lit "- Additions: +");
              PNum (inject_Z (prp_additions payload));
              PLit (nl ++ lit "- Deletions: -");
              PNum (inject_Z (prp_deletions payload));
              PLit (nl ++ lit "        ")]))
    [mkAction ([55357%N; 56589%N] ++ lit " Review PR")
       (lit "Trigger AI code review with Langflow") (lit "review_pr")].

(** [create] is the outcome of [octokit.rest.checks.create]. *)
Definition addReviewButton (create : Completion unit) (payload : PullRequestPayload)
    : M (list ButtonEvent) unit :=
  try_catch
    (octokit <- (fun w => (getOctokit_outcome env, w ++ [BtnGetOctokit])) ;;
     (fun w => (create, w ++ [BtnChecksCreate (checkParams payload)])))
    (fun error => ret tt).

(** ** The health check endpoint (src/app.js:67-94) *)

(** The object sent by [res.json(health)]. *)
Record Health : Type := mkHealth {
  h_status : jsstring;
  h_timestamp : jsstring;
  h_endpoint : jsstring;
  h_connectivity : jsstring
}.

(** The probe [fetch(url, {method: 'GET', timeout, headers: {Authorization}})]. *)
Inductive HealthEvent : Type :=
| HvFetch (url : jsstring) (timeout : Z) (authorization : jsstring).

(** [healthCheckTimeout] is [CONFIG.langflow.healthCheckTimeout], [now] is
    [new Date().toISOString()] and [probe] is the outcome of the [fetch]. *)
Definition healthCheck (healthCheckTimeout : Z) (now : jsstring)
    (probe : Completion Response) : M (list HealthEvent) Health :=
  let health connectivity :=
    mkHealth (lit "AI PR Review Bot is running!") now
      (if envTruthy (LANGFLOW_ENDPOINT env) then lit "configured"
       else lit "not configured")
      connectivity in
  if envTruthy (LANGFLOW_ENDPOINT env) then
    try_catch
      (testResponse <-
         (fun w => (probe,
                    w ++ [HvFetch (envStr (LANGFLOW_ENDPOINT env) ++ lit "/health")
                            healthCheckTimeout
                            (lit "Bearer " ++ envStr (LANGFLOW_API_KEY env))])) ;;
       ret (health (if ok testResponse then lit "healthy"
                    else lit "error: " ++ decimal (status testResponse))))
      (fun error => ret (health (lit "error: " ++ message error)))
  else ret (health (lit "unknown")).

End EntryPoints.

(** * Vocabulary of the statements *)

(** An attempt is retried when it threw, or answered with a status of 500
    or more, and it is not the last one. *)
Definition retriable (c : Completion Response) : Prop :=
  match c with
  | Normal r => 500 <= status r
  | Throw _ => True
  end.

(** The events of [j] attempts that were each followed by a retry. *)
Fixpoint retryEvents (url : jsstring) (options : RequestOptions) (delay : Z)
    (j : nat) : World :=
  match j with
  | O => []
  | S j' => EvFetch url options :: EvSleep delay :: retryEvents url options delay j'
  end.

(** The three validations of src/app.js:814-824 pass. *)
Definition configured (env : Env) (flowId : option jsstring) : bool :=
  envTruthy (LANGFLOW_ENDPOINT env) && envTruthy (LANGFLOW_API_KEY env) &&
  envTruthy flowId.

(** [errorText] after the inner [try] of src/app.js:875-881. *)
Definition errorTextOf (r : Response) : jsstring :=
  match text r with Normal t => t | Throw _ => [] end.

(** The [message] returned after the two clamps, or the error they throw. *)
Definition clamp (env : Env) (extracted : Value) : Completion Value :=
  match cleanMessage extracted with
  | Throw e => Throw e
  | Normal m => truncateMessage env m
  end.

(** The call of [fetchWithRetry] made by [triggerLangflow] from world [w]:
    it starts once the jitter delay has been requested. *)
Definition remoteCall (env : Env) (data : RequestData) (flowId : option jsstring)
    (w : World) : Completion (option Response) * World :=
  fetchWithRetry env (apiUrl env flowId) (requestOptions env data)
    (cfg_retries env) (w ++ [EvSleep (jitter env)]).

(** How the pull request number is found (src/app.js:427-456): from the
    payload, or else from a non-empty answer of [pulls.list]; with the
    events this logs. *)
Definition resolvedPr (env : Env) (payload : Payload) : option (Z * World) :=
  match p_pull_requests payload with
  | n :: _ => Some (n, [])
  | [] =>
      match pulls_list_outcome env with
      | Normal (n :: _) =>
          Some (n, [EvPullsList (p_owner payload ++ lit ":" ++ p_head_sha payload)])
      | _ => None
      end
  end.

(** The events logged before the workflow is invoked. *)
Definition contextEvents (env : Env) (payload : Payload) (n : Z) (evs : World)
    : World :=
  [EvGetOctokit; EvChecksUpdate (inProgressParams env payload)] ++ evs ++
  [EvPullsGet n; EvListFiles n].

(** The result is a Failure object. *)
Definition isFailure (result : LangflowResult) : Prop :=
  exists error originalError, result = Failure error originalError.

(** The message of an Error that is not an AbortError falls in one of the
    categories of the [catch] block of [triggerLangflow]. *)
Definition categorized (msg : jsstring) : bool :=
  includes msg (lit "timeout") || includes msg (lit "ENOTFOUND") ||
  includes msg (lit "ECONNREFUSED") || includes msg (lit "ECONNRESET") ||
  includes msg (lit "socket hang up") || includes msg (lit "401") ||
  includes msg (lit "404").

(** The message of the timeout category (src/app.js:1011). *)
Definition timedOutMessage : jsstring :=
  lit "The AI analysis timed out. This usually happens when the service is overloaded. Please try again in a few minutes.".

(** What [fetchWithRetry] hands to its caller is the outcome of call
    number [n] of [fetch]. *)
Definition outcomeOfCall (env : Env) (n : nat) (c : Completion (option Response))
    : Prop :=
  match c with
  | Normal (Some r) => fetch_outcome env n = Normal r
  | Normal None => False
  | Throw e => fetch_outcome env n = Throw e
  end.

(** ** A sample deployment, on which the statements are exercised *)

Module Sample.

(** [toLowerCase] on strings of ASCII characters. *)
Definition asciiLower (s : jsstring) : jsstring :=
  map (fun c => if (65 <=? c)%N && (c <=? 90)%N then (c + 32)%N else c) s.

Definition bodyUsed : Error := typeError (lit "body used already for: https://langflow.example/run/review-flow").

Definition response (st : Z) (stText body : string) (parsed : Completion Value)
    : Response :=
  mkResponse st (lit stText) (Normal (lit body)) parsed (Throw bodyUsed).

Definition notJson : Completion Value :=
  Throw (mkError (lit "FetchError") (lit "invalid json response body")).

Definition allGood : Value := VObj [(lit "result", VStr (lit "All good"))].

Definition ok200 : Response := response 200 "OK" "" (Normal allGood).
Definition badRequest400 : Response := response 400 "Bad Request" "missing field" notJson.
Definition unavailable503 : Response :=
  response 503 "Service Unavailable" "try later" notJson.
Definition gatewayTimeout504 : Response :=
  response 504 "Gateway Timeout" "upstream did not answer" notJson.

(** A response whose body is an object with a 70000-character [result]. *)
Definition longText : jsstring := repeat 97%N (Z.to_nat 70000).
Definition long200 : Response :=
  response 200 "OK" "" (Normal (VObj [(lit "result", VStr longText)])).

Definition connectionReset : Error :=
  mkError (lit "FetchError") (lit "request failed, reason: read ECONNRESET").

(** The outcomes of the successive calls of [fetch]: those listed, then
    [rest] forever. *)
Definition script (first : list (Completion Response)) (rest : Completion Response)
    : nat -> Completion Response :=
  fun n => nth n first rest.

Definition pull : PullData :=
  mkPullData (lit "Add retry") (Some (lit "Adds a retry loop")) (lit "octocat")
    (lit "feature") (lit "main") 12 3 (lit "https://github.com/acme/bot/pull/7")
    (lit "2025-01-01T00:00:00Z") (lit "2025-01-02T00:00:00Z") (VBool true)
    (lit "clean").

Definition env (remote : nat -> Completion Response) : Env :=
  mkEnv (Some (lit "https://langflow.example")) (Some (lit "secret"))
    (Some (lit "review-flow")) (Some (lit "merge-flow")) None
    120000 3 5000 remote 2500 (lit "1700000000000_k3j9x2m1q")
    (Normal InstallationOctokit) (fun _ => Normal tt)
    (Normal [7]) (Normal pull) (Normal []) (Normal []) (Normal tt)
    (fun _ _ => Normal false) asciiLower.

Definition payload : Payload :=
  mkPayload (lit "acme") (lit "bot") 4242 (lit "0a1b2c3") [7].

Definition url : jsstring := lit "https://langflow.example/run/review-flow".
Definition data : RequestData := ReviewData (buildPrData (env (script [] (Normal ok200))) payload 7 pull []).
Definition options : RequestOptions := requestOptions (env (script [] (Normal ok200))) data.

End Sample.

(** The failure messages of the client for which [handleReviewRequest]
    concludes [neutral]: those that mention "504" or "GATEWAY_TIMEOUT", and,
    among those that mention neither a timeout nor "ETIMEDOUT", those that
    mention "500", "503", "temporarily unavailable" or "high load". *)
Definition concludedNeutral (error : jsstring) : bool :=
  let m := strOr error (lit "Langflow request failed") in
  includes m (lit "504") || includes m (lit "GATEWAY_TIMEOUT") ||
  negb (includes m (lit "timeout") || includes m (lit "ETIMEDOUT")) &&
  (includes m (lit "500") || includes m (lit "503") ||
   includes m (lit "temporarily unavailable") || includes m (lit "high load")).

(** A template literal as the string it evaluates to, given the ToString
    conversions of values and of numbers. *)
Definition flatten (toStr : Value -> jsstring) (numStr : Q -> jsstring)
    (t : Template) : jsstring :=
  concat (map (fun piece =>
                 match piece with
                 | PLit s => s
                 | PVal v => toStr v
                 | PNum q => numStr q
                 end) t).

(** The events that [handleMergeCheck] logs before it invokes the
    workflow. *)
Definition mergeContextEvents (payload : Payload) (n : Z) (evs : World) : World :=
  [EvGetOctokit] ++ evs ++
  [EvChecksUpdate (mergeInProgressParams payload); EvPullsGet n; EvListComments n].

(** ** Further deployments *)

Module Cases.

(** A deployment like the sample one, with the configuration, the number
    of attempts and the GitHub answers left open. *)
Definition deployment (endpoint key reviewFlow : option jsstring) (retries : Z)
    (remote : nat -> Completion Response) (octokit : Completion Octokit)
    (updates : nat -> Completion unit) (pulls : Completion (list Z))
    (comments : Completion (list jsstring)) : Env :=
  mkEnv endpoint key reviewFlow (Some (lit "merge-flow")) None
    120000 retries 5000 remote 2500 (lit "1700000000000_k3j9x2m1q")
    octokit updates pulls (Normal Sample.pull) (Normal []) comments (Normal tt)
    (fun _ _ => Normal false) Sample.asciiLower.

(** The sample deployment with [retries] attempts. *)
Definition withRetries (retries : Z) (remote : nat -> Completion Response) : Env :=
  deployment (Some (lit "https://langflow.example")) (Some (lit "secret"))
    (Some (lit "review-flow")) retries remote (Normal InstallationOctokit)
    (fun _ => Normal tt) (Normal [7]) (Normal []).

(** A payload without pull request reference. *)
Definition orphanPayload : Payload :=
  mkPayload (lit "acme") (lit "bot") 4242 (lit "0a1b2c3") [].

Definition answer (body : Value) : Response :=
  Sample.response 200 "OK" "" (Normal body).

(** A body in the nested outputs shape. *)
Definition nested (t : Value) : Value :=
  VObj [(lit "session_id", VStr (lit "s1"));
        (lit "outputs",
         VArr [VObj [(lit "outputs",
                      VArr [VObj [(lit "results",
                                   VObj [(lit "message",
                                          VObj [(lit "data",
                                                 VObj [(lit "text", t)])])])]])]])].

Definition abortError : Error :=
  mkError (lit "AbortError") (lit "The user aborted a request.").

(** A body whose message reports a pull request that was not found. *)
Definition notFoundBody : Value :=
  VObj [(lit "result", VStr (lit "Error: PR #7 was not found"))].

(** An ok response whose body is not JSON. *)
Definition html200 : Response := Sample.response 200 "OK" "<html>" Sample.notJson.

End Cases.

(** * Properties *)

(** ** Strings *)

Lemma startsWith_app (p s : jsstring) : startsWith (p ++ s) p = true.
Proof.
  induction p as [|c p IH]; simpl; [reflexivity|].
  now rewrite N.eqb_refl, IH.
Qed.

Lemma startsWith_split (s p : jsstring) :
  startsWith s p = true -> exists post, s = p ++ post.
Proof.
  revert s; induction p as [|c p IH]; intros s H.
  - now exists s.
  - destruct s as [|d s]; simpl in H; [discriminate|].
    apply andb_prop in H as [Hc Hs].
    apply N.eqb_eq in Hc; subst d.
    destruct (IH _ Hs) as [post ->].
    now exists post.
Qed.

(** [jsstring_eqb] decides equality of strings. *)
Lemma jsstring_eqb_eq (a b : jsstring) : jsstring_eqb a b = true <-> a = b.
Proof.
  unfold jsstring_eqb. split.
  - intros H. apply andb_prop in H as [Hl Hs].
    apply Nat.eqb_eq in Hl. apply startsWith_split in Hs as [post ->].
    rewrite length_app in Hl.
    destruct post; [now rewrite app_nil_r|simpl in Hl; lia].
  - intros ->. rewrite Nat.eqb_refl.
    rewrite <- (app_nil_r b) at 1. apply startsWith_app.
Qed.

Lemma includes_intro (pre sub post : jsstring) :
  includes (pre ++ sub ++ post) sub = true.
Proof.
  induction pre as [|c pre IH]; simpl.
  - destruct sub as [|d sub]; simpl.
    + now destruct post.
    + rewrite N.eqb_refl, startsWith_app. reflexivity.
  - rewrite IH. apply orb_true_r.
Qed.

Lemma includes_split (s sub : jsstring) :
  includes s sub = true -> exists pre post, s = pre ++ sub ++ post.
Proof.
  induction s as [|c s IH]; simpl; intros H.
  - rewrite orb_false_r in H. apply startsWith_split in H as [post Hp].
    now exists [], post.
  - apply orb_prop in H as [H|H].
    + apply startsWith_split in H as [post Hp]. now exists [], post.
    + destruct (IH H) as (pre & post & ->). now exists (c :: pre), post.
Qed.


Lemma endsWith_app (s p : jsstring) : endsWith (s ++ p) p = true.
Proof. unfold endsWith. rewrite rev_app_distr. apply startsWith_app. Qed.

Lemma includes_app_l (s t sub : jsstring) :
  includes s sub = true -> includes (s ++ t) sub = true.
Proof.
  intros H. apply includes_split in H as (pre & post & ->).
  rewrite <- !app_assoc. apply includes_intro.
Qed.

Lemma substring0_prefix (n : Z) (s : jsstring) :
  startsWith s (substring0 n s) = true.
Proof.
  unfold substring0. rewrite <- (firstn_skipn (Z.to_nat n) s) at 1.
  apply startsWith_app.
Qed.

Lemma substring0_length (n : Z) (s : jsstring) :
  0 <= n -> jslength (substring0 n s) <= n.
Proof.
  intros Hn. unfold jslength, substring0.
  pose proof (firstn_le_length (Z.to_nat n) s). lia.
Qed.

(** ** The log *)

Lemma fetchCalls_app (w v : World) :
  fetchCalls (w ++ v) = (fetchCalls w + fetchCalls v)%nat.
Proof. unfold fetchCalls. now rewrite filter_app, length_app. Qed.

Lemma sleeps_app (w v : World) : sleeps (w ++ v) = sleeps w ++ sleeps v.
Proof.
  induction w as [|e w IH]; simpl; [reflexivity|].
  destruct e; simpl; now rewrite ?IH.
Qed.

Lemma checkUpdates_app (w v : World) :
  checkUpdates (w ++ v) = checkUpdates w ++ checkUpdates v.
Proof.
  induction w as [|e w IH]; simpl; [reflexivity|].
  destruct e; simpl; now rewrite ?IH.
Qed.

(** ** fetchWithRetry *)

Lemma fetchCalls_retryEvents url options delay j :
  fetchCalls (retryEvents url options delay j) = j.
Proof.
  induction j as [|j IH]; [reflexivity|].
  change (S (fetchCalls (retryEvents url options delay j)) = S j). now rewrite IH.
Qed.

Lemma sleeps_retryEvents url options delay j :
  sleeps (retryEvents url options delay j) = repeat delay j.
Proof. induction j as [|j IH]; simpl; [reflexivity|]. now rewrite IH. Qed.

Lemma checkUpdates_retryEvents url options delay j :
  checkUpdates (retryEvents url options delay j) = [].
Proof. induction j as [|j IH]; [reflexivity|exact IH]. Qed.

Lemma sum_repeat (d : Z) (j : nat) :
  fold_right Z.add 0 (repeat d j) = Z.of_nat j * d.
Proof. induction j as [|j IH]; simpl fold_right; [lia|]. rewrite IH. lia. Qed.

Section Retry.

Variable env : Env.
Variable url : jsstring.
Variable options : RequestOptions.
Variable retries : Z.

Lemma fetchAttempt_ok w attempt r :
  fetch_outcome env (fetchCalls w) = Normal r -> ok r = true ->
  fetchAttempt env url options retries attempt w = (Normal (Return r), w ++ [EvFetch url options]).
Proof.
  intros Hf Hok. unfold fetchAttempt, try_catch, bind, fetch.
  now rewrite Hf, Hok.
Qed.

Lemma fetchAttempt_retry w attempt :
  retriable (fetch_outcome env (fetchCalls w)) -> attempt < retries ->
  fetchAttempt env url options retries attempt w
  = (Normal Continue, w ++ [EvFetch url options; EvSleep (cfg_retryDelay env)]).
Proof.
  intros Hr Hlt. unfold fetchAttempt, try_catch, bind, fetch, sleep, emit, ret.
  destruct (fetch_outcome env (fetchCalls w)) as [r|e]; simpl in Hr.
  - assert (Hok : ok r = false) by (unfold ok; lia).
    rewrite Hok.
    replace (status r >=? 500) with true by lia.
    replace (attempt <? retries) with true by lia.
    simpl. now rewrite <- app_assoc.
  - replace (attempt =? retries) with false by lia.
    simpl. now rewrite <- app_assoc.
Qed.

Lemma fetchAttempt_return w attempt r :
  fetch_outcome env (fetchCalls w) = Normal r -> ok r = false ->
  status r < 500 \/ attempt >= retries ->
  fetchAttempt env url options retries attempt w = (Normal (Return r), w ++ [EvFetch url options]).
Proof.
  intros Hf Hok Hc. unfold fetchAttempt, try_catch, bind, fetch.
  rewrite Hf, Hok.
  replace ((status r >=? 500) && (attempt <? retries)) with false by lia.
  reflexivity.
Qed.

Lemma fetchAttempt_throw w e :
  fetch_outcome env (fetchCalls w) = Throw e ->
  fetchAttempt env url options retries retries w = (Throw e, w ++ [EvFetch url options]).
Proof.
  intros Hf. unfold fetchAttempt, try_catch, bind, fetch, throw.
  now rewrite Hf, Z.eqb_refl.
Qed.

(** The counter of [fetchLoop] is the number of values of [attempt] that
    still pass the test [attempt <= retries]: it starts at that number for
    [attempt = 1], is zero exactly when the test fails, and goes down by
    one when [attempt] goes up by one. *)
Lemma iterations_left attempt :
  let left a := Z.to_nat (retries + 1 - a) in
  left 1 = Z.to_nat retries /\
  (left attempt = O <-> ~ attempt <= retries) /\
  (attempt <= retries -> left attempt = S (left (attempt + 1))).
Proof.
  cbv zeta beta. split; [f_equal; lia|]. split; [split|]; lia.
Qed.

(** [j] retried attempts in a row leave the loop [j] iterations further,
    with their events logged. *)
Lemma fetchLoop_retries j : forall left attempt w,
  (forall i, (i < j)%nat -> retriable (fetch_outcome env (fetchCalls w + i))) ->
  attempt + Z.of_nat j <= retries ->
  fetchLoop env url options retries (j + left) attempt w
  = fetchLoop env url options retries left (attempt + Z.of_nat j)
      (w ++ retryEvents url options (cfg_retryDelay env) j).
Proof.
  induction j as [|j IH]; intros left attempt w Hall Hle.
  - simpl. now rewrite Z.add_0_r, app_nil_r.
  - change (S j + left)%nat with (S (j + left)).
    cbn [fetchLoop]. unfold bind at 1.
    rewrite fetchAttempt_retry; [|rewrite <- (Nat.add_0_r (fetchCalls w)); apply Hall; lia|lia].
    rewrite IH.
    + f_equal; [lia|]. cbn [retryEvents]. now rewrite <- app_assoc.
    + intros i Hi. rewrite fetchCalls_app. cbn.
      replace (fetchCalls w + 1 + i)%nat with (fetchCalls w + S i)%nat by lia.
      apply Hall. lia.
    + lia.
Qed.

(** After [j] retried attempts the next attempt is number [j + 1]. *)
Lemma fetchWithRetry_unfold j w :
  (forall i, (i < j)%nat -> retriable (fetch_outcome env (fetchCalls w + i))) ->
  Z.of_nat j < retries ->
  fetchWithRetry env url options retries w
  = bind (fetchAttempt env url options retries (1 + Z.of_nat j))
      (fun step =>
         match step with
         | Return response => ret (Some response)
         | Continue =>
             fetchLoop env url options retries (Z.to_nat retries - S j)
               (1 + Z.of_nat j + 1)
         end)
      (w ++ retryEvents url options (cfg_retryDelay env) j).
Proof.
  intros Hall Hlt. unfold fetchWithRetry.
  replace (Z.to_nat retries) with (j + S (Z.to_nat retries - S j))%nat at 1 by lia.
  rewrite fetchLoop_retries by (assumption || lia).
  reflexivity.
Qed.

Lemma fetchCalls_after_retries j w :
  fetchCalls (w ++ retryEvents url options (cfg_retryDelay env) j) = (fetchCalls w + j)%nat.
Proof. now rewrite fetchCalls_app, fetchCalls_retryEvents. Qed.

(** The attempt after [j] retried ones returns its response when that
    response is ok, or has a status below 500, or the attempt is the last. *)
Lemma fetchWithRetry_returns_at j w r :
  (forall i, (i < j)%nat -> retriable (fetch_outcome env (fetchCalls w + i))) ->
  Z.of_nat j < retries ->
  fetch_outcome env (fetchCalls w + j) = Normal r ->
  ok r = true \/ status r < 500 \/ retries <= Z.of_nat j + 1 ->
  fetchWithRetry env url options retries w
  = (Normal (Some r), w ++ retryEvents url options (cfg_retryDelay env) j ++ [EvFetch url options]).
Proof.
  intros Hall Hlt Hf Hc. rewrite (fetchWithRetry_unfold j w Hall Hlt).
  unfold bind. rewrite <- fetchCalls_after_retries in Hf.
  destruct (ok r) eqn:Hok.
  - rewrite (fetchAttempt_ok _ (1 + Z.of_nat j) r Hf Hok). unfold ret. now rewrite <- app_assoc.
  - rewrite (fetchAttempt_return _ (1 + Z.of_nat j) r Hf Hok).
    + unfold ret. now rewrite <- app_assoc.
    + destruct Hc as [Hc|[Hc|Hc]]; [discriminate|lia|lia].
Qed.

(** When every attempt is retried and the last one throws, its error is
    propagated. *)
Lemma fetchWithRetry_throws_at w e :
  1 <= retries ->
  (forall i, (i < Z.to_nat retries - 1)%nat ->
     retriable (fetch_outcome env (fetchCalls w + i))) ->
  fetch_outcome env (fetchCalls w + (Z.to_nat retries - 1)) = Throw e ->
  fetchWithRetry env url options retries w
  = (Throw e, w ++ retryEvents url options (cfg_retryDelay env) (Z.to_nat retries - 1) ++ [EvFetch url options]).
Proof.
  intros Hge Hall Hf.
  rewrite (fetchWithRetry_unfold (Z.to_nat retries - 1)%nat w Hall) by lia.
  unfold bind. rewrite <- fetchCalls_after_retries in Hf.
  replace (1 + Z.of_nat (Z.to_nat retries - 1)) with retries by lia.
  rewrite (fetchAttempt_throw _ e Hf). now rewrite <- app_assoc.
Qed.

(** With no attempt allowed the loop body never runs and the function
    returns [undefined]. *)
Lemma fetchWithRetry_no_attempt w :
  retries <= 0 -> fetchWithRetry env url options retries w = (Normal None, w).
Proof.
  intros H. unfold fetchWithRetry.
  replace (Z.to_nat retries) with O by lia. reflexivity.
Qed.

End Retry.

(** ** triggerLangflow *)

Section Trigger.

Variable env : Env.
Variable data : RequestData.
Variable flowId : option jsstring.

Lemma triggerLangflow_unconfigured w :
  configured env flowId = false ->
  exists error, triggerLangflow env data flowId w
                = (Normal (Failure (userFriendlyMessage error) (message error)), w).
Proof.
  unfold configured, triggerLangflow, try_catch, throw, langflowCatch, ret.
  intros H.
  destruct (envTruthy (LANGFLOW_ENDPOINT env)); cbn [negb andb] in *;
    [|eexists; reflexivity].
  destruct (envTruthy (LANGFLOW_API_KEY env)); cbn [negb andb] in *;
    [|eexists; reflexivity].
  destruct (envTruthy flowId); cbn [negb andb] in *;
    [discriminate|eexists; reflexivity].
Qed.

Lemma triggerLangflow_run w :
  configured env flowId = true ->
  triggerLangflow env data flowId w
  = match remoteCall env data flowId w with
    | (Throw e, w1) => langflowCatch e w1
    | (Normal response, w1) =>
        try_catch (interpretResponse env flowId response) langflowCatch w1
    end.
Proof.
  unfold configured, triggerLangflow, remoteCall. intros H.
  apply andb_prop in H as [H H3]. apply andb_prop in H as [H1 H2].
  rewrite H1, H2, H3. simpl.
  unfold try_catch, bind, sleep, emit.
  destruct (fetchWithRetry _ _ _ _ _) as [[response|e] w1]; reflexivity.
Qed.

Lemma interpretResponse_not_ok r w :
  ok r = false ->
  interpretResponse env flowId (Some r) w
  = (Throw (newError (httpErrorMessage (status r) (statusText r) (envStr flowId)
                        (errorTextOf r))), w).
Proof.
  intros Hok. unfold interpretResponse, errorTextOf. rewrite Hok. simpl.
  unfold bind, try_catch, liftC, ret, throw.
  destruct (text r); reflexivity.
Qed.

Lemma interpretResponse_json_throws r w e :
  ok r = true -> json r = Throw e ->
  exists e', interpretResponse env flowId (Some r) w = (Throw e', w).
Proof.
  intros Hok Hj. unfold interpretResponse. rewrite Hok. simpl.
  unfold bind, try_catch, liftC, throw. rewrite Hj.
  destruct (textAfterJson r); eauto.
Qed.

Lemma interpretResponse_json r w v :
  ok r = true -> json r = Normal v ->
  interpretResponse env flowId (Some r) w
  = (match clamp env (extractMessage env v) with
     | Throw e => Throw e
     | Normal m => Normal (Success m v)
     end, w).
Proof.
  intros Hok Hj. unfold interpretResponse, clamp. rewrite Hok. simpl.
  unfold bind, try_catch, liftC, ret. rewrite Hj.
  destruct (cleanMessage _); [|reflexivity].
  destruct (truncateMessage _ _); reflexivity.
Qed.

(** Whatever happens inside, the client returns a result object. *)
Lemma triggerLangflow_returns w :
  exists result w', triggerLangflow env data flowId w = (Normal result, w').
Proof.
  unfold triggerLangflow, try_catch.
  match goal with |- context [match ?m w with _ => _ end] =>
    destruct (m w) as [[result|e] w1] end.
  - eauto.
  - unfold langflowCatch, ret. eauto.
Qed.

(** A non-ok final response gives a Failure whose [originalError] is the
    status message with the details, and whose [error] is its
    classification. *)
Lemma triggerLangflow_http_error w r w1 :
  configured env flowId = true ->
  remoteCall env data flowId w = (Normal (Some r), w1) ->
  ok r = false ->
  let raw := httpErrorMessage (status r) (statusText r) (envStr flowId)
               (errorTextOf r) in
  triggerLangflow env data flowId w
  = (Normal (Failure (userFriendlyMessage (newError raw)) raw), w1).
Proof.
  intros Hc Hr Hok raw. rewrite (triggerLangflow_run w Hc), Hr.
  unfold try_catch. now rewrite (interpretResponse_not_ok r w1 Hok).
Qed.

Lemma triggerLangflow_parsed w r w1 v :
  configured env flowId = true ->
  remoteCall env data flowId w = (Normal (Some r), w1) ->
  ok r = true -> json r = Normal v ->
  triggerLangflow env data flowId w
  = (match clamp env (extractMessage env v) with
     | Throw e => Normal (Failure (userFriendlyMessage e) (message e))
     | Normal m => Normal (Success m v)
     end, w1).
Proof.
  intros Hc Hr Hok Hj. rewrite (triggerLangflow_run w Hc), Hr.
  unfold try_catch. rewrite (interpretResponse_json r w1 v Hok Hj).
  destruct (clamp _ _); reflexivity.
Qed.

End Trigger.

(** The truncation of a string message. *)
Lemma truncateMessage_string env (m : jsstring) :
  truncateMessage env (VStr m)
  = Normal (VStr (if jslength m >? 65000
                  then substring0 65000 m ++ truncationMarker else m)).
Proof.
  unfold truncateMessage.
  replace (getProp (VStr m) (lit "length")) with (Normal (numOfNat (length m)))
    by reflexivity.
  unfold jsGt, numOfNat, Qle_bool, inject_Z, jslength. cbn [Qnum Qden].
  rewrite !Z.mul_1_r.
  destruct (Z.of_nat (length m) >? 65000) eqn:H.
  - replace (Z.of_nat (length m) <=? 65000) with false by lia. reflexivity.
  - replace (Z.of_nat (length m) <=? 65000) with true by lia. reflexivity.
Qed.

Lemma cleanMessage_string (m : jsstring) :
  cleanMessage (VStr m)
  = Normal (VStr (if includes m (lit "PR #") && includes m (lit "not found")
                  then genericSummary else m)).
Proof.
  unfold cleanMessage, valueIncludes.
  destruct (includes m (lit "PR #")); [|reflexivity].
  destruct (includes m (lit "not found")); reflexivity.
Qed.

(** The [catch] block leaves a message alone when no category matches. *)
Lemma userFriendlyMessage_uncategorized (msg : jsstring) :
  categorized msg = false -> userFriendlyMessage (newError msg) = msg.
Proof.
  unfold categorized, userFriendlyMessage. cbn [name message newError].
  replace (jsstring_eqb (lit "Error") (lit "AbortError")) with false by reflexivity.
  intros H. repeat (apply orb_false_elim in H as [H ?]).
  repeat match goal with Hi : includes msg _ = false |- _ => rewrite Hi; clear Hi end.
  reflexivity.
Qed.

(** A thrown Error whose message mentions a timeout is reported with the
    message of the timeout category. *)
Lemma userFriendlyMessage_timeout (msg : jsstring) :
  includes msg (lit "timeout") = true ->
  userFriendlyMessage (newError msg) = timedOutMessage.
Proof.
  intros H. unfold userFriendlyMessage. cbn [name message newError].
  rewrite H, orb_true_r. reflexivity.
Qed.

Lemma httpErrorMessage_504_timeout (stText flowId body : jsstring) :
  includes (httpErrorMessage 504 stText flowId body) (lit "timeout") = true.
Proof.
  unfold httpErrorMessage.
  change (statusMessage 504 stText flowId)
    with (lit "Gateway timeout. Langflow is taking too long to respond.").
  destruct body as [|c body]; [reflexivity|].
  apply includes_app_l. reflexivity.
Qed.

(** When the client returns a Success, the configuration was complete, the
    retry executor returned an ok response, its body parsed, and the clamps
    did not throw. *)
Lemma triggerLangflow_success_inv env data flowId w m v w' :
  triggerLangflow env data flowId w = (Normal (Success m v), w') ->
  configured env flowId = true /\
  exists r, remoteCall env data flowId w = (Normal (Some r), w') /\
            ok r = true /\ json r = Normal v /\
            clamp env (extractMessage env v) = Normal m.
Proof.
  intros H. destruct (configured env flowId) eqn:Hc.
  - split; [reflexivity|].
    rewrite (triggerLangflow_run env data flowId w Hc) in H.
    destruct (remoteCall env data flowId w) as [[[r|]|e] w1].
    + destruct (ok r) eqn:Hok.
      * destruct (json r) as [v0|e] eqn:Hj.
        -- unfold try_catch in H.
           rewrite (interpretResponse_json env flowId r w1 v0 Hok Hj) in H.
           destruct (clamp env (extractMessage env v0)) as [m0|e] eqn:Hm.
           ++ injection H as <- <- <-. exists r. now rewrite Hm.
           ++ unfold langflowCatch, ret in H. discriminate.
        -- unfold try_catch in H.
           destruct (interpretResponse_json_throws env flowId r w1 e Hok Hj) as [e' He].
           rewrite He in H. unfold langflowCatch, ret in H. discriminate.
      * unfold try_catch in H.
        rewrite (interpretResponse_not_ok env flowId r w1 Hok) in H.
        unfold langflowCatch, ret in H. discriminate.
    + unfold try_catch, interpretResponse, throw, langflowCatch, ret in H.
      discriminate.
    + unfold langflowCatch, ret in H. discriminate.
  - destruct (triggerLangflow_unconfigured env data flowId w Hc) as [e He].
    rewrite He in H. discriminate.
Qed.

(** ** handleReviewRequest *)

Lemma resolvedPr_events env payload n evs :
  resolvedPr env payload = Some (n, evs) ->
  fetchCalls evs = 0%nat /\ checkUpdates evs = [].
Proof.
  unfold resolvedPr. destruct (p_pull_requests payload) as [|k ks].
  - destruct (pulls_list_outcome env) as [[|k ks]|e]; try discriminate.
    intros [= <- <-]. now split.
  - intros [= <- <-]. now split.
Qed.

Lemma fetchCalls_context env payload n evs w :
  fetchCalls evs = 0%nat ->
  fetchCalls ((w ++ contextEvents env payload n evs) ++ [EvSleep (jitter env)])
  = fetchCalls w.
Proof.
  intros H. unfold contextEvents.
  rewrite !fetchCalls_app, H. cbn. lia.
Qed.

Lemma checkUpdates_context env payload n evs :
  checkUpdates evs = [] ->
  checkUpdates (contextEvents env payload n evs) = [inProgressParams env payload].
Proof.
  intros H. unfold contextEvents.
  rewrite !checkUpdates_app, H. reflexivity.
Qed.

Section Review.

Variable env : Env.
Variable payload : Payload.

Lemma swallowed_update octokit p w :
  try_catch (checks_update env octokit p) (fun _ => ret tt) w
  = (Normal tt, w ++ [EvChecksUpdate p]).
Proof.
  unfold try_catch, checks_update, ret.
  destruct (checks_update_outcome env (updateCalls w)) as [[]|e]; reflexivity.
Qed.

Lemma swallowed_comment octokit n body w :
  try_catch (issues_createComment env octokit n body) (fun _ => ret tt) w
  = (Normal tt, w ++ [EvCreateComment n body]).
Proof.
  unfold try_catch, issues_createComment, ret.
  destruct (issues_createComment_outcome env) as [[]|e]; reflexivity.
Qed.

Lemma findPrNumber_resolved octokit n evs w :
  resolvedPr env payload = Some (n, evs) ->
  findPrNumber env octokit payload w = (Normal n, w ++ evs).
Proof.
  unfold resolvedPr, findPrNumber. destruct (p_pull_requests payload) as [|k ks].
  - unfold try_catch, bind, pulls_list, ret.
    destruct (pulls_list_outcome env) as [[|k ks]|e]; try discriminate.
    intros [= <- <-]. reflexivity.
  - intros [= <- <-]. unfold ret. now rewrite app_nil_r.
Qed.

(** The handler, once the context has been gathered, is determined by the
    result of the workflow client. *)
Lemma handleReviewRequest_run octokit n evs pr files w :
  getOctokit_outcome env = Normal octokit ->
  resolvedPr env payload = Some (n, evs) ->
  pulls_get_outcome env = Normal pr ->
  pulls_listFiles_outcome env = Normal files ->
  handleReviewRequest env payload w
  = match triggerLangflow env (ReviewData (buildPrData env payload n pr files))
            (LANGFLOW_REVIEW_FLOW_ID env) (w ++ contextEvents env payload n evs) with
    | (Normal (Success msg _), w4) =>
        (Normal tt, w4 ++ [EvChecksUpdate (successUpdateParams payload msg);
                           EvCreateComment n (reviewCommentBody msg)])
    | (Normal (Failure error _), w4) =>
        (Normal tt, w4 ++ [EvChecksUpdate
                             (errorUpdateParams payload (newError (friendlyError error)))])
    | (Throw e, w4) =>
        (Normal tt, w4 ++ [EvChecksUpdate (errorUpdateParams payload e)])
    end.
Proof.
  intros Ho Hp Hg Hf.
  unfold handleReviewRequest. unfold try_catch at 1. unfold getOctokit. rewrite Ho.
  unfold try_catch at 1. unfold reviewBody.
  unfold bind at 1. rewrite swallowed_update.
  unfold bind at 1. rewrite (findPrNumber_resolved octokit n evs _ Hp).
  unfold bind at 1. unfold try_catch at 1. unfold bind at 1. unfold pulls_get.
  rewrite Hg.
  unfold bind at 1. unfold pulls_listFiles. rewrite Hf. unfold ret at 1.
  unfold bind at 1. cbn [fst snd].
  replace (((((w ++ [EvGetOctokit]) ++ [EvChecksUpdate (inProgressParams env payload)])
              ++ evs) ++ [EvPullsGet n]) ++ [EvListFiles n])
    with (w ++ contextEvents env payload n evs)
    by (unfold contextEvents; now rewrite <- !app_assoc).
  destruct (triggerLangflow _ _ _ _) as [[[msg d|error orig]|e] w4].
  - unfold bind. rewrite swallowed_update, swallowed_comment.
    now rewrite <- app_assoc.
  - unfold throw, reviewCatch. now rewrite swallowed_update.
  - unfold reviewCatch. now rewrite swallowed_update.
Qed.

End Review.

(** * The retry executor *)

(** C2: when the first [k - 1] calls answer with a 5xx status and call [k],
    with [k <= retries], answers with an ok response, [fetchWithRetry]
    returns that response and has called [fetch] exactly [k] times. *)
Theorem fetchWithRetry_success_after_server_errors
    (env : Env) (url : jsstring) (options : RequestOptions) (retries : Z)
    (k : nat) (w : World) (r : Response) :
  (1 <= k)%nat -> Z.of_nat k <= retries ->
  (forall i, (i < k - 1)%nat ->
     exists ri, fetch_outcome env (fetchCalls w + i) = Normal ri /\
                500 <= status ri <= 599) ->
  fetch_outcome env (fetchCalls w + (k - 1)) = Normal r ->
  ok r = true ->
  exists w',
    fetchWithRetry env url options retries w = (Normal (Some r), w') /\
    fetchCalls w' = (fetchCalls w + k)%nat.
Proof.
  intros Hk Hle H5 Hr Hok.
  eexists. split.
  - apply (fetchWithRetry_returns_at env url options retries (k - 1) w r).
    + intros i Hi. destruct (H5 i Hi) as (ri & -> & Hs). simpl. lia.
    + lia.
    + exact Hr.
    + now left.
  - rewrite !fetchCalls_app, fetchCalls_retryEvents. cbn. lia.
Qed.

Lemma fetchWithRetry_success_after_server_errors_witness :
  exists w',
    fetchWithRetry
      (Sample.env (Sample.script [Normal Sample.unavailable503] (Normal Sample.ok200)))
      Sample.url Sample.options 3 [] = (Normal (Some Sample.ok200), w') /\
    fetchCalls w' = 2%nat.
Proof.
  apply (fetchWithRetry_success_after_server_errors
           (Sample.env (Sample.script [Normal Sample.unavailable503] (Normal Sample.ok200)))
           Sample.url Sample.options 3 2 [] Sample.ok200).
  - lia.
  - lia.
  - intros i Hi. assert (i = 0)%nat as -> by lia.
    exists Sample.unavailable503. split; [reflexivity|simpl; lia].
  - reflexivity.
  - reflexivity.
Defined.

(** C3: a 4xx response is returned after exactly one call of [fetch],
    whatever [retries >= 1] is. *)
Theorem fetchWithRetry_client_error_not_retried
    (env : Env) (url : jsstring) (options : RequestOptions) (retries : Z)
    (w : World) (r : Response) :
  1 <= retries ->
  fetch_outcome env (fetchCalls w) = Normal r ->
  400 <= status r <= 499 ->
  exists w',
    fetchWithRetry env url options retries w = (Normal (Some r), w') /\
    fetchCalls w' = (fetchCalls w + 1)%nat.
Proof.
  intros Hge Hr Hs.
  eexists. split.
  - apply (fetchWithRetry_returns_at env url options retries 0 w r).
    + intros i Hi. lia.
    + lia.
    + now rewrite Nat.add_0_r.
    + right. left. lia.
  - rewrite !fetchCalls_app. reflexivity.
Qed.

Lemma fetchWithRetry_client_error_not_retried_witness :
  exists w',
    fetchWithRetry (Sample.env (Sample.script [] (Normal Sample.badRequest400)))
      Sample.url Sample.options 3 [] = (Normal (Some Sample.badRequest400), w') /\
    fetchCalls w' = 1%nat.
Proof.
  apply (fetchWithRetry_client_error_not_retried
           (Sample.env (Sample.script [] (Normal Sample.badRequest400)))
           Sample.url Sample.options 3 [] Sample.badRequest400).
  - lia.
  - reflexivity.
  - simpl. lia.
Defined.

(** C4: when every call of [fetch] throws, [fetchWithRetry] calls it exactly
    [retries] times and then throws the error of the last call; a delay of
    [retryDelay] was requested after each attempt but the last, so the
    delays requested sum to [(retries - 1) * retryDelay]. *)
Theorem fetchWithRetry_all_attempts_throw
    (env : Env) (url : jsstring) (options : RequestOptions) (retries : Z)
    (w : World) (errs : nat -> Error) :
  1 <= retries ->
  (forall i, (i < Z.to_nat retries)%nat ->
     fetch_outcome env (fetchCalls w + i) = Throw (errs i)) ->
  exists evs,
    fetchWithRetry env url options retries w
    = (Throw (errs (Z.to_nat retries - 1)%nat), w ++ evs) /\
    Z.of_nat (fetchCalls evs) = retries /\
    evs = retryEvents url options (cfg_retryDelay env) (Z.to_nat retries - 1)
          ++ [EvFetch url options] /\
    sleeps evs = repeat (cfg_retryDelay env) (Z.to_nat retries - 1) /\
    fold_right Z.add 0 (sleeps evs) = (retries - 1) * cfg_retryDelay env.
Proof.
  intros Hge Hall.
  assert (Hs : sleeps (retryEvents url options (cfg_retryDelay env)
                         (Z.to_nat retries - 1) ++ [EvFetch url options])
               = repeat (cfg_retryDelay env) (Z.to_nat retries - 1)).
  { rewrite sleeps_app, sleeps_retryEvents. cbn. apply app_nil_r. }
  eexists. split; [|split; [|split; [reflexivity|split]]].
  - apply (fetchWithRetry_throws_at env url options retries w).
    + exact Hge.
    + intros i Hi. rewrite Hall by lia. exact I.
    + apply Hall. lia.
  - rewrite fetchCalls_app, fetchCalls_retryEvents. cbn. lia.
  - exact Hs.
  - rewrite Hs, sum_repeat.
    now replace (Z.of_nat (Z.to_nat retries - 1)) with (retries - 1) by lia.
Qed.

Lemma fetchWithRetry_all_attempts_throw_witness :
  exists evs,
    fetchWithRetry (Sample.env (Sample.script [] (Throw Sample.connectionReset)))
      Sample.url Sample.options 3 []
    = (Throw Sample.connectionReset, [] ++ evs) /\
    Z.of_nat (fetchCalls evs) = 3 /\
    evs = retryEvents Sample.url Sample.options 5000 2
          ++ [EvFetch Sample.url Sample.options] /\
    sleeps evs = [5000; 5000] /\
    fold_right Z.add 0 (sleeps evs) = 10000.
Proof.
  apply (fetchWithRetry_all_attempts_throw
           (Sample.env (Sample.script [] (Throw Sample.connectionReset)))
           Sample.url Sample.options 3 [] (fun _ => Sample.connectionReset)).
  - lia.
  - intros i Hi. unfold Sample.env, Sample.script. simpl.
    destruct i as [|[|[|i]]]; reflexivity.
Defined.

(** C9: when every call of [fetch] answers with a 5xx status,
    [fetchWithRetry] does not throw: after [retries] calls it returns the
    response of the last one. *)
Theorem fetchWithRetry_exhausted_returns_last_response
    (env : Env) (url : jsstring) (options : RequestOptions) (retries : Z)
    (w : World) (rs : nat -> Response) :
  1 <= retries ->
  (forall i, (i < Z.to_nat retries)%nat ->
     fetch_outcome env (fetchCalls w + i) = Normal (rs i) /\
     500 <= status (rs i) <= 599) ->
  exists evs,
    fetchWithRetry env url options retries w
    = (Normal (Some (rs (Z.to_nat retries - 1)%nat)), w ++ evs) /\
    Z.of_nat (fetchCalls evs) = retries.
Proof.
  intros Hge Hall.
  eexists. split.
  - apply (fetchWithRetry_returns_at env url options retries
             (Z.to_nat retries - 1) w).
    + intros i Hi. destruct (Hall i) as [-> Hs]; [lia|]. simpl. lia.
    + lia.
    + apply Hall. lia.
    + right. right. lia.
  - rewrite fetchCalls_app, fetchCalls_retryEvents. cbn. lia.
Qed.

Lemma fetchWithRetry_exhausted_returns_last_response_witness :
  exists evs,
    fetchWithRetry (Sample.env (Sample.script [] (Normal Sample.unavailable503)))
      Sample.url Sample.options 3 []
    = (Normal (Some Sample.unavailable503), [] ++ evs) /\
    Z.of_nat (fetchCalls evs) = 3.
Proof.
  apply (fetchWithRetry_exhausted_returns_last_response
           (Sample.env (Sample.script [] (Normal Sample.unavailable503)))
           Sample.url Sample.options 3 [] (fun _ => Sample.unavailable503)).
  - lia.
  - intros i Hi. split; [|simpl; lia].
    unfold Sample.env, Sample.script. simpl.
    destruct i as [|[|[|i]]]; reflexivity.
Defined.

(** * The workflow invocation client *)

(** C5: [triggerLangflow] never throws: from every world, for every
    environment and input, it returns a result object; and the result is a
    Failure when the configuration is incomplete, when the retry executor
    throws or returns no response, when the final response is not ok, when
    the body of an ok response does not parse, and when the message clamps
    throw. *)
Theorem triggerLangflow_never_throws
    (env : Env) (data : RequestData) (flowId : option jsstring) (w : World) :
  exists result w',
    triggerLangflow env data flowId w = (Normal result, w') /\
    (configured env flowId = false -> isFailure result) /\
    (forall e w1, remoteCall env data flowId w = (Throw e, w1) -> isFailure result) /\
    (forall w1, remoteCall env data flowId w = (Normal None, w1) -> isFailure result) /\
    (forall r w1, remoteCall env data flowId w = (Normal (Some r), w1) ->
       ok r = false -> isFailure result) /\
    (forall r w1 e, remoteCall env data flowId w = (Normal (Some r), w1) ->
       ok r = true -> json r = Throw e -> isFailure result) /\
    (forall r w1 v e, remoteCall env data flowId w = (Normal (Some r), w1) ->
       ok r = true -> json r = Normal v ->
       clamp env (extractMessage env v) = Throw e -> isFailure result).
Proof.
  destruct (triggerLangflow_returns env data flowId w) as (result & w' & H).
  exists result, w'. split; [exact H|].
  destruct result as [m v|error originalError].
  - apply triggerLangflow_success_inv in H as (Hc & r & Hr & Hok & Hj & Hm).
    repeat split; intros; congruence.
  - repeat split; intros; now exists error, originalError.
Qed.

(** The table of status messages, entry by entry. *)
Lemma statusMessage_table (stText flowId : jsstring) :
  statusMessage 400 stText flowId
    = lit "Bad request to Langflow API. Please check the data format." /\
  statusMessage 401 stText flowId
    = lit "Unauthorized. Please check your Langflow API key." /\
  statusMessage 403 stText flowId
    = lit "Forbidden. Your API key may not have access to this flow." /\
  statusMessage 404 stText flowId
    = lit "Flow not found. Please check if flow ID '" ++ flowId ++ lit "' exists." /\
  statusMessage 429 stText flowId
    = lit "Too many requests. Langflow API rate limit exceeded." /\
  statusMessage 500 stText flowId
    = lit "Internal server error in Langflow. Please try again later." /\
  statusMessage 502 stText flowId
    = lit "Bad gateway. Langflow service may be temporarily unavailable." /\
  statusMessage 503 stText flowId
    = lit "Service unavailable. Langflow is temporarily down." /\
  statusMessage 504 stText flowId
    = lit "Gateway timeout. Langflow is taking too long to respond.".
Proof. repeat split. Qed.

(** C6, as stated, fails: when the final response has status 504 the
    user-facing [error] of the Failure is the message of the timeout
    category, which does not even start with the table entry for 504; the
    table entry and the body are in [originalError] only. *)
Lemma triggerLangflow_504_error_is_not_the_table_entry :
  exists error originalError w',
    triggerLangflow (Sample.env (Sample.script [] (Normal Sample.gatewayTimeout504)))
      Sample.data (Some (lit "review-flow")) []
    = (Normal (Failure error originalError), w') /\
    error = timedOutMessage /\
    startsWith error
      (statusMessage 504 (lit "Gateway Timeout") (lit "review-flow")) = false /\
    originalError
    = statusMessage 504 (lit "Gateway Timeout") (lit "review-flow")
      ++ lit " Details: upstream did not answer".
Proof.
  eexists _, _, _. split; [vm_compute; reflexivity|].
  split; [reflexivity|]. split; vm_compute; reflexivity.
Qed.

(** The text thrown for a response that is not ok starts with two
    characters that no category message of the [catch] block starts
    with. *)
Lemma httpErrorMessage_head (st : Z) (stText flowId body : jsstring) :
  exists c1 c2 rest,
    httpErrorMessage st stText flowId body = c1 :: c2 :: rest /\
    In (c1, c2)
       [(66, 97); (85, 110); (70, 111); (70, 108); (84, 111); (73, 110);
        (83, 101); (71, 97); (76, 97)]%N.
Proof.
  unfold httpErrorMessage, statusMessage.
  repeat match goal with
         | |- context [if ?b then _ else _] => destruct b
         end;
    eexists _, _, _; (split; [reflexivity|]); cbn [In]; tauto.
Qed.

Lemma httpErrorMessage_not_category (st : Z) (stText flowId body : jsstring)
    (c1 c2 : N) (rest : jsstring) :
  In (c1, c2) [(84, 104); (67, 97); (67, 111); (65, 117)]%N ->
  httpErrorMessage st stText flowId body <> c1 :: c2 :: rest.
Proof.
  intros Hin Heq.
  destruct (httpErrorMessage_head st stText flowId body)
    as (d1 & d2 & rest' & Hraw & Hhead).
  rewrite Hraw in Heq. injection Heq as -> -> _.
  cbn [In] in Hin, Hhead.
  repeat match goal with
         | H : _ \/ _ |- _ => destruct H
         | H : False |- _ => destruct H
         | H : (_, _) = (_, _) |- _ => injection H as H ?; subst
         end;
    discriminate.
Qed.

(** C6, amended: for every final response that is not ok, the client
    returns a Failure whose [originalError] is the table entry for the
    status (the nine entries below; for any other status, "Langflow API
    error: " with the status and its text), followed, when the body text
    was read and is not empty, by [" Details: "] and the first 200
    characters at most of the body; the user-facing [error] is the fixed
    message of the first category of the [catch] block that this text falls
    in, and is the text itself exactly when it falls in none. *)
Theorem triggerLangflow_http_error_message
    (env : Env) (data : RequestData) (flowId : option jsstring) (w : World)
    (r : Response) (w1 : World) :
  configured env flowId = true ->
  remoteCall env data flowId w = (Normal (Some r), w1) ->
  ok r = false ->
  let st := status r in
  let flow := match flowId with Some s => s | None => lit "undefined" end in
  let entry :=
    if st =? 400 then
      lit "Bad request to Langflow API. Please check the data format."
    else if st =? 401 then lit "Unauthorized. Please check your Langflow API key."
    else if st =? 403 then
      lit "Forbidden. Your API key may not have access to this flow."
    else if st =? 404 then
      lit "Flow not found. Please check if flow ID '" ++ flow ++ lit "' exists."
    else if st =? 429 then lit "Too many requests. Langflow API rate limit exceeded."
    else if st =? 500 then
      lit "Internal server error in Langflow. Please try again later."
    else if st =? 502 then
      lit "Bad gateway. Langflow service may be temporarily unavailable."
    else if st =? 503 then lit "Service unavailable. Langflow is temporarily down."
    else if st =? 504 then
      lit "Gateway timeout. Langflow is taking too long to respond."
    else lit "Langflow API error: " ++ lit (NilZero.string_of_int (Z.to_int st))
         ++ lit " " ++ statusText r in
  let body := match text r with Normal t => t | Throw _ => [] end in
  let details := firstn 200 body in
  let raw := match body with
             | [] => entry
             | _ :: _ => entry ++ lit " Details: " ++ details
             end in
  let error :=
    if includes raw (lit "timeout") then
      lit "The AI analysis timed out. This usually happens when the service is overloaded. Please try again in a few minutes."
    else if includes raw (lit "ENOTFOUND") || includes raw (lit "ECONNREFUSED") then
      lit "Cannot connect to the AI service. Please check if the Langflow endpoint is correct and accessible."
    else if includes raw (lit "ECONNRESET") || includes raw (lit "socket hang up") then
      lit "Connection to the AI service was interrupted. Please try again."
    else if includes raw (lit "401") then
      lit "Authentication failed. Please check the API key configuration."
    else if includes raw (lit "404") then
      lit "The specified AI flow was not found. Please check the flow configuration."
    else raw in
  triggerLangflow env data flowId w = (Normal (Failure error raw), w1) /\
  (length details <= 200)%nat /\
  (exists rest, body = details ++ rest) /\
  (error = raw <->
   includes raw (lit "timeout") = false /\
   includes raw (lit "ENOTFOUND") = false /\
   includes raw (lit "ECONNREFUSED") = false /\
   includes raw (lit "ECONNRESET") = false /\
   includes raw (lit "socket hang up") = false /\
   includes raw (lit "401") = false /\
   includes raw (lit "404") = false).
Proof.
  intros Hc Hr Hok st flow entry body details raw error.
  assert (Hraw : httpErrorMessage (status r) (statusText r) (envStr flowId)
                   (errorTextOf r) = raw) by reflexivity.
  assert (Herror : userFriendlyMessage (newError raw) = error).
  { unfold userFriendlyMessage, error. cbn [name message newError].
    replace (jsstring_eqb (lit "Error") (lit "AbortError")) with false
      by reflexivity.
    reflexivity. }
  split; [|split; [|split]].
  - rewrite <- Herror, <- Hraw.
    exact (triggerLangflow_http_error env data flowId w r w1 Hc Hr Hok).
  - apply firstn_le_length.
  - exists (skipn 200 body). unfold details. now rewrite firstn_skipn.
  - pose proof (httpErrorMessage_not_category (status r) (statusText r)
                  (envStr flowId) (errorTextOf r)) as Hnot.
    rewrite Hraw in Hnot.
    unfold error.
    destruct (includes raw (lit "timeout")).
    { split; [intros H; symmetry in H; apply Hnot in H; [destruct H|]
             |intros (H & _); discriminate].
      cbn [In]. tauto. }
    destruct (includes raw (lit "ENOTFOUND")).
    { split; [intros H; symmetry in H; apply Hnot in H; [destruct H|]
             |intros (_ & H & _); discriminate].
      cbn [In]. tauto. }
    destruct (includes raw (lit "ECONNREFUSED")).
    { split; [intros H; symmetry in H; apply Hnot in H; [destruct H|]
             |intros (_ & _ & H & _); discriminate].
      cbn [In]. tauto. }
    destruct (includes raw (lit "ECONNRESET")).
    { split; [intros H; symmetry in H; apply Hnot in H; [destruct H|]
             |intros (_ & _ & _ & H & _); discriminate].
      cbn [In]. tauto. }
    destruct (includes raw (lit "socket hang up")).
    { split; [intros H; symmetry in H; apply Hnot in H; [destruct H|]
             |intros (_ & _ & _ & _ & H & _); discriminate].
      cbn [In]. tauto. }
    destruct (includes raw (lit "401")).
    { split; [intros H; symmetry in H; apply Hnot in H; [destruct H|]
             |intros (_ & _ & _ & _ & _ & H & _); discriminate].
      cbn [In]. tauto. }
    destruct (includes raw (lit "404")).
    { split; [intros H; symmetry in H; apply Hnot in H; [destruct H|]
             |intros (_ & _ & _ & _ & _ & _ & H); discriminate].
      cbn [In]. tauto. }
    cbn [orb]. split; [intros _; repeat split|reflexivity].
Qed.

Lemma triggerLangflow_http_error_message_witness :
  triggerLangflow (Sample.env (Sample.script [] (Normal Sample.gatewayTimeout504)))
    Sample.data (Some (lit "review-flow")) []
  = (Normal
       (Failure
          (lit "The AI analysis timed out. This usually happens when the service is overloaded. Please try again in a few minutes.")
          (lit "Gateway timeout. Langflow is taking too long to respond. Details: upstream did not answer")),
     [EvSleep 2500] ++
     retryEvents Sample.url
       (requestOptions (Sample.env (Sample.script [] (Normal Sample.gatewayTimeout504)))
          Sample.data) 5000 2 ++
     [EvFetch Sample.url
        (requestOptions (Sample.env (Sample.script [] (Normal Sample.gatewayTimeout504)))
           Sample.data)]).
Proof.
  refine (proj1 (triggerLangflow_http_error_message
                   (Sample.env (Sample.script [] (Normal Sample.gatewayTimeout504)))
                   Sample.data (Some (lit "review-flow")) []
                   Sample.gatewayTimeout504 _ _ _ _)).
  - reflexivity.
  - vm_compute. reflexivity.
  - reflexivity.
Defined.

(** C7: when the body parses and the message extracted from it is a string
    of 70000 characters that does not trigger the substitution, the client
    returns a Success whose message is the first 65000 characters followed
    by the truncation marker: its length is 65000 plus the length of the
    marker, and it ends with the marker. *)
Theorem triggerLangflow_truncates_long_message
    (env : Env) (data : RequestData) (flowId : option jsstring) (w : World)
    (r : Response) (w1 : World) (v : Value) (m : jsstring) :
  configured env flowId = true ->
  remoteCall env data flowId w = (Normal (Some r), w1) ->
  ok r = true ->
  json r = Normal v ->
  extractMessage env v = VStr m ->
  jslength m = 70000 ->
  includes m (lit "PR #") && includes m (lit "not found") = false ->
  exists out,
    triggerLangflow env data flowId w = (Normal (Success (VStr out) v), w1) /\
    out = substring0 65000 m ++ truncationMarker /\
    jslength out = 65000 + jslength truncationMarker /\
    endsWith out truncationMarker = true.
Proof.
  intros Hc Hr Hok Hj Hm Hlen Hsub.
  exists (substring0 65000 m ++ truncationMarker).
  split; [|split; [reflexivity|split]].
  - rewrite (triggerLangflow_parsed env data flowId w r w1 v Hc Hr Hok Hj).
    unfold clamp. rewrite Hm, cleanMessage_string, Hsub, truncateMessage_string.
    rewrite Hlen. reflexivity.
  - unfold jslength, substring0 in *. rewrite length_app, length_firstn. lia.
  - apply endsWith_app.
Qed.

Lemma triggerLangflow_truncates_long_message_witness :
  exists out,
    triggerLangflow (Sample.env (Sample.script [] (Normal Sample.long200)))
      Sample.data (Some (lit "review-flow")) []
    = (Normal (Success (VStr out) (VObj [(lit "result", VStr Sample.longText)])),
       [EvSleep 2500;
        EvFetch Sample.url
          (requestOptions (Sample.env (Sample.script [] (Normal Sample.long200)))
             Sample.data)]) /\
    out = substring0 65000 Sample.longText ++ truncationMarker /\
    jslength out = 65000 + jslength truncationMarker /\
    endsWith out truncationMarker = true.
Proof.
  apply (triggerLangflow_truncates_long_message
           (Sample.env (Sample.script [] (Normal Sample.long200)))
           Sample.data (Some (lit "review-flow")) [] Sample.long200).
  - reflexivity.
  - reflexivity.
  - reflexivity.
  - reflexivity.
  - reflexivity.
  - vm_compute. reflexivity.
  - vm_compute. reflexivity.
Defined.

(** * The review orchestrator *)

(** C8, as stated, fails on the summary: on the sample deployment, with a
    remote workflow that answers 200 with [{result: "All good"}], the
    handler makes two [checks.update] calls and the summary of the second,
    completed, one is the fixed text, not the message. *)
Lemma handleReviewRequest_summary_is_not_the_message :
  exists p1 p2,
    checkUpdates
      (snd (handleReviewRequest (Sample.env (Sample.script [] (Normal Sample.ok200)))
              Sample.payload []))
    = [p1; p2] /\
    cp_status p2 = lit "completed" /\
    summary (output p2) = VStr (lit "Code review completed successfully") /\
    summary (output p2) <> VStr (lit "All good").
Proof.
  eexists _, _. split; [vm_compute; reflexivity|].
  split; [reflexivity|]. split; [reflexivity|].
  vm_compute. discriminate.
Qed.

(** C8, amended: for a review request with a valid pull request reference,
    when the first answer of the remote workflow is a 200 whose body is
    [{result: "All good"}], the handler completes normally after exactly
    two [checks.update] calls: one to status [in_progress], then one to
    status [completed] with conclusion [neutral], whose summary is the fixed
    text "Code review completed successfully" and whose text is
    "All good"; the comment with the message is posted last. *)
Theorem handleReviewRequest_success_updates
    (env : Env) (payload : Payload) (w : World) (octokit : Octokit) (n : Z)
    (evs : World) (pr : PullData) (files : list FileData) (r : Response) :
  getOctokit_outcome env = Normal octokit ->
  resolvedPr env payload = Some (n, evs) ->
  pulls_get_outcome env = Normal pr ->
  pulls_listFiles_outcome env = Normal files ->
  configured env (LANGFLOW_REVIEW_FLOW_ID env) = true ->
  1 <= cfg_retries env ->
  fetch_outcome env (fetchCalls w) = Normal r ->
  status r = 200 ->
  json r = Normal (VObj [(lit "result", VStr (lit "All good"))]) ->
  exists evs' completed,
    handleReviewRequest env payload w = (Normal tt, w ++ evs') /\
    checkUpdates evs' = [inProgressParams env payload; completed] /\
    cp_status (inProgressParams env payload) = lit "in_progress" /\
    completed = successUpdateParams payload (VStr (lit "All good")) /\
    cp_status completed = lit "completed" /\
    conclusion completed = Some (lit "neutral") /\
    summary (output completed) = VStr (lit "Code review completed successfully") /\
    out_text (output completed) = Some [PVal (VStr (lit "All good"))] /\
    evs' = contextEvents env payload n evs ++
           [EvSleep (jitter env);
            EvFetch (apiUrl env (LANGFLOW_REVIEW_FLOW_ID env))
              (requestOptions env (ReviewData (buildPrData env payload n pr files)));
            EvChecksUpdate completed;
            EvCreateComment n (reviewCommentBody (VStr (lit "All good")))].
Proof.
  intros Ho Hp Hg Hf Hc Hret Hr Hst Hj.
  destruct (resolvedPr_events env payload n evs Hp) as [Hfe Hue].
  assert (Hok : ok r = true) by (unfold ok; rewrite Hst; reflexivity).
  set (data := ReviewData (buildPrData env payload n pr files)).
  set (w3 := w ++ contextEvents env payload n evs).
  assert (Hcall : remoteCall env data (LANGFLOW_REVIEW_FLOW_ID env) w3
                  = (Normal (Some r),
                     (w3 ++ [EvSleep (jitter env)]) ++
                     retryEvents (apiUrl env (LANGFLOW_REVIEW_FLOW_ID env))
                       (requestOptions env data) (cfg_retryDelay env) 0 ++
                     [EvFetch (apiUrl env (LANGFLOW_REVIEW_FLOW_ID env))
                        (requestOptions env data)])).
  { unfold remoteCall. apply fetchWithRetry_returns_at.
    - intros i Hi. lia.
    - lia.
    - unfold w3. rewrite fetchCalls_context, Nat.add_0_r by exact Hfe. exact Hr.
    - now left. }
  exists (contextEvents env payload n evs ++
          [EvSleep (jitter env);
           EvFetch (apiUrl env (LANGFLOW_REVIEW_FLOW_ID env)) (requestOptions env data);
           EvChecksUpdate (successUpdateParams payload (VStr (lit "All good")));
           EvCreateComment n (reviewCommentBody (VStr (lit "All good")))]).
  exists (successUpdateParams payload (VStr (lit "All good"))).
  split; [|split; [|repeat split]].
  - rewrite (handleReviewRequest_run env payload octokit n evs pr files w Ho Hp Hg Hf).
    fold data. fold w3.
    rewrite (triggerLangflow_parsed env data _ w3 r _ _ Hc Hcall Hok Hj).
    replace (clamp env (extractMessage env (VObj [(lit "result", VStr (lit "All good"))])))
      with (Normal (VStr (lit "All good"))) by reflexivity.
    unfold w3. cbn [retryEvents app]. now rewrite <- !app_assoc.
  - rewrite checkUpdates_app, (checkUpdates_context env payload n evs Hue).
    reflexivity.
Qed.

Lemma handleReviewRequest_success_updates_witness :
  exists evs' completed,
    handleReviewRequest (Sample.env (Sample.script [] (Normal Sample.ok200)))
      Sample.payload [] = (Normal tt, [] ++ evs') /\
    checkUpdates evs'
    = [inProgressParams (Sample.env (Sample.script [] (Normal Sample.ok200)))
         Sample.payload; completed] /\
    conclusion completed = Some (lit "neutral") /\
    summary (output completed) = VStr (lit "Code review completed successfully") /\
    out_text (output completed) = Some [PVal (VStr (lit "All good"))].
Proof.
  destruct (handleReviewRequest_success_updates
              (Sample.env (Sample.script [] (Normal Sample.ok200)))
              Sample.payload [] InstallationOctokit 7 [] Sample.pull []
              Sample.ok200)
    as (evs' & completed & H1 & H2 & _ & _ & _ & H3 & H4 & H5 & _).
  - reflexivity.
  - reflexivity.
  - reflexivity.
  - reflexivity.
  - reflexivity.
  - simpl. lia.
  - reflexivity.
  - reflexivity.
  - reflexivity.
  - exists evs', completed. repeat split; assumption.
Defined.

(** C1: when the remote workflow answers 504 to every attempt, the handler
    completes the check run with conclusion [failure] and the title of a
    failed review, not with [neutral]: the client reports the 504 with the
    message of its timeout category, which contains none of the words that
    the handler takes for an unavailable service. *)
Theorem handleReviewRequest_504_concludes_failure
    (env : Env) (payload : Payload) (w : World) (octokit : Octokit) (n : Z)
    (evs : World) (pr : PullData) (files : list FileData) (rs : nat -> Response) :
  getOctokit_outcome env = Normal octokit ->
  resolvedPr env payload = Some (n, evs) ->
  pulls_get_outcome env = Normal pr ->
  pulls_listFiles_outcome env = Normal files ->
  configured env (LANGFLOW_REVIEW_FLOW_ID env) = true ->
  1 <= cfg_retries env ->
  (forall i, (i < Z.to_nat (cfg_retries env))%nat ->
     fetch_outcome env (fetchCalls w + i) = Normal (rs i) /\ status (rs i) = 504) ->
  exists evs' completed,
    handleReviewRequest env payload w = (Normal tt, w ++ evs') /\
    checkUpdates evs' = [inProgressParams env payload; completed] /\
    Z.of_nat (fetchCalls evs') = cfg_retries env /\
    completed = errorUpdateParams payload (newError timedOutMessage) /\
    cp_status completed = lit "completed" /\
    conclusion completed = Some (lit "failure") /\
    title (output completed) = crossMark ++ lit " AI Review Failed".
Proof.
  intros Ho Hp Hg Hf Hc Hret Hall.
  destruct (resolvedPr_events env payload n evs Hp) as [Hfe Hue].
  set (data := ReviewData (buildPrData env payload n pr files)).
  set (flow := LANGFLOW_REVIEW_FLOW_ID env) in *.
  set (w3 := w ++ contextEvents env payload n evs).
  set (j := (Z.to_nat (cfg_retries env) - 1)%nat).
  set (tries := retryEvents (apiUrl env flow) (requestOptions env data)
                  (cfg_retryDelay env) j ++
                [EvFetch (apiUrl env flow) (requestOptions env data)]).
  destruct (Hall j) as [Hlast Hst]; [unfold j; lia|].
  assert (Hok : ok (rs j) = false) by (unfold ok; rewrite Hst; reflexivity).
  assert (Hcall : remoteCall env data flow w3
                  = (Normal (Some (rs j)), (w3 ++ [EvSleep (jitter env)]) ++ tries)).
  { unfold remoteCall, tries. apply fetchWithRetry_returns_at.
    - intros i Hi. unfold w3. rewrite fetchCalls_context by exact Hfe.
      destruct (Hall i) as [-> Hs]; [unfold j in Hi; lia|]. simpl. lia.
    - unfold j. lia.
    - unfold w3. rewrite fetchCalls_context by exact Hfe. exact Hlast.
    - right. right. unfold j. lia. }
  exists (contextEvents env payload n evs ++ [EvSleep (jitter env)] ++ tries ++
          [EvChecksUpdate (errorUpdateParams payload (newError timedOutMessage))]).
  exists (errorUpdateParams payload (newError timedOutMessage)).
  split; [|split; [|split; [|repeat split]]].
  - rewrite (handleReviewRequest_run env payload octokit n evs pr files w Ho Hp Hg Hf).
    fold data. fold flow. fold w3.
    rewrite (triggerLangflow_http_error env data flow w3 (rs j) _ Hc Hcall Hok).
    rewrite Hst, userFriendlyMessage_timeout by apply httpErrorMessage_504_timeout.
    replace (friendlyError timedOutMessage) with timedOutMessage
      by (vm_compute; reflexivity).
    unfold w3. now rewrite <- !app_assoc.
  - unfold tries.
    rewrite !checkUpdates_app, (checkUpdates_context env payload n evs Hue),
      checkUpdates_retryEvents.
    reflexivity.
  - unfold tries, contextEvents.
    rewrite !fetchCalls_app, Hfe, fetchCalls_retryEvents. cbn. unfold j. lia.
Qed.

Lemma handleReviewRequest_504_concludes_failure_witness :
  exists evs' completed,
    handleReviewRequest
      (Sample.env (Sample.script [] (Normal Sample.gatewayTimeout504)))
      Sample.payload [] = (Normal tt, [] ++ evs') /\
    checkUpdates evs'
    = [inProgressParams
         (Sample.env (Sample.script [] (Normal Sample.gatewayTimeout504)))
         Sample.payload; completed] /\
    Z.of_nat (fetchCalls evs') = 3 /\
    conclusion completed = Some (lit "failure").
Proof.
  destruct (handleReviewRequest_504_concludes_failure
              (Sample.env (Sample.script [] (Normal Sample.gatewayTimeout504)))
              Sample.payload [] InstallationOctokit 7 [] Sample.pull []
              (fun _ => Sample.gatewayTimeout504))
    as (evs' & completed & H1 & H2 & H3 & _ & _ & H4 & _).
  - reflexivity.
  - reflexivity.
  - reflexivity.
  - reflexivity.
  - reflexivity.
  - simpl. lia.
  - intros i Hi. split; [|reflexivity].
    unfold Sample.env, Sample.script. simpl.
    destruct i as [|[|[|i]]]; reflexivity.
  - exists evs', completed. repeat split; assumption.
Defined.

(** * The merge readiness orchestrator *)


(** On the sample deployment, a workflow that answers "Not ready to merge"
    gets the check run concluded as [success]. *)
Example mergeCheck_not_ready_is_success :
  map (fun p => conclusion p)
    (checkUpdates
       (snd (handleMergeCheck
               (Sample.env
                  (Sample.script []
                     (Normal (Sample.response 200 "OK" ""
                                (Normal (VObj [(lit "result",
                                                VStr (lit "Not ready to merge"))]))))))
               Sample.payload [])))
  = [None; Some (lit "success")].
Proof. vm_compute. reflexivity. Qed.

(** A failure of the merge check leaves [handleMergeCheck] through its
    [catch] block, which throws a ReferenceError. *)
Example mergeCheck_failure_throws :
  fst (handleMergeCheck
         (Sample.env (Sample.script [] (Normal Sample.gatewayTimeout504)))
         Sample.payload [])
  = Throw (referenceError (lit "octokit is not defined")).
Proof. vm_compute. reflexivity. Qed.

(** * Further properties of the retry executor *)

(** Every run of the loop that is allowed at least one attempt ends at some
    attempt, after a number of retried ones; what it hands back is the
    outcome of that last call, and an error is only handed back by the
    attempt numbered [retries]. *)
Lemma fetchLoop_shape env url options retries : forall left attempt w,
  Z.of_nat left = retries + 1 - attempt -> (1 <= left)%nat ->
  exists j c,
    (j < left)%nat /\
    fetchLoop env url options retries left attempt w
    = (c, w ++ retryEvents url options (cfg_retryDelay env) j ++ [EvFetch url options]) /\
    outcomeOfCall env (fetchCalls w + j) c /\
    (forall i, (i < j)%nat -> retriable (fetch_outcome env (fetchCalls w + i))) /\
    (forall e, c = Throw e -> attempt + Z.of_nat j = retries) /\
    (forall r, c = Normal (Some r) ->
       ok r = true \/ status r < 500 \/ attempt + Z.of_nat j = retries).
Proof.
  induction left as [|l IH]; intros attempt w Hleft Hpos; [lia|].
  assert (Hretry : retriable (fetch_outcome env (fetchCalls w)) ->
                   attempt < retries ->
                   exists j c,
                     (j < S l)%nat /\
                     fetchLoop env url options retries (S l) attempt w
                     = (c, w ++ retryEvents url options (cfg_retryDelay env) j
                             ++ [EvFetch url options]) /\
                     outcomeOfCall env (fetchCalls w + j) c /\
                     (forall i, (i < j)%nat ->
                        retriable (fetch_outcome env (fetchCalls w + i))) /\
                     (forall e, c = Throw e -> attempt + Z.of_nat j = retries) /\
                     (forall r, c = Normal (Some r) ->
                        ok r = true \/ status r < 500 \/
                        attempt + Z.of_nat j = retries)).
  { intros Hr Hlt. cbn [fetchLoop]. unfold bind at 1.
    rewrite (fetchAttempt_retry env url options retries w attempt Hr Hlt).
    destruct (IH (attempt + 1)
                (w ++ [EvFetch url options; EvSleep (cfg_retryDelay env)]))
      as (j & c & Hj & Hrun & Hout & Hall & Hthrow & Hret); [lia|lia|].
    assert (Hcalls : fetchCalls (w ++ [EvFetch url options;
                                       EvSleep (cfg_retryDelay env)])
                     = S (fetchCalls w)).
    { rewrite fetchCalls_app. cbn. lia. }
    rewrite Hcalls in Hout, Hall.
    exists (S j), c. split; [lia|]. split; [|split; [|split; [|split]]].
    - rewrite Hrun. cbn [retryEvents]. now rewrite <- app_assoc.
    - now replace (fetchCalls w + S j)%nat with (S (fetchCalls w) + j)%nat by lia.
    - intros i Hi. destruct i as [|i].
      + now rewrite Nat.add_0_r.
      + replace (fetchCalls w + S i)%nat with (S (fetchCalls w) + i)%nat by lia.
        apply Hall. lia.
    - intros e He. specialize (Hthrow e He). lia.
    - intros r Hc. destruct (Hret r Hc) as [H|[H|H]];
        [now left|right; now left|right; right; lia]. }
  destruct (fetch_outcome env (fetchCalls w)) as [r|e] eqn:Hf.
  - destruct (ok r) eqn:Hok.
    + cbn [fetchLoop]. unfold bind at 1.
      rewrite (fetchAttempt_ok env url options retries w attempt r Hf Hok).
      exists O, (Normal (Some r)). split; [lia|]. unfold ret. cbn [retryEvents app].
      rewrite Nat.add_0_r. repeat split; try assumption; try lia; try discriminate.
      intros r' [= <-]. now left.
    + destruct (Z_lt_ge_dec (status r) 500) as [Hs|Hs];
        [|destruct (Z_lt_ge_dec attempt retries) as [Ha|Ha]].
      * cbn [fetchLoop]. unfold bind at 1.
        rewrite (fetchAttempt_return env url options retries w attempt r Hf Hok)
          by now left.
        exists O, (Normal (Some r)). split; [lia|]. unfold ret. cbn [retryEvents app].
        rewrite Nat.add_0_r. repeat split; try assumption; try lia; try discriminate.
        intros r' [= <-]. right. now left.
      * apply Hretry; [simpl; lia|exact Ha].
      * cbn [fetchLoop]. unfold bind at 1.
        rewrite (fetchAttempt_return env url options retries w attempt r Hf Hok)
          by now right.
        exists O, (Normal (Some r)). split; [lia|]. unfold ret. cbn [retryEvents app].
        rewrite Nat.add_0_r. repeat split; try assumption; try lia; try discriminate.
  - destruct (Z.eq_dec attempt retries) as [->|Hne].
    + cbn [fetchLoop]. unfold bind at 1.
      rewrite (fetchAttempt_throw env url options retries w e Hf).
      exists O, (Throw e). split; [lia|]. cbn [retryEvents app].
      rewrite Nat.add_0_r. repeat split; try assumption; try lia; discriminate.
    + apply Hretry; [exact I|lia].
Qed.

(** X1: with [retries >= 1], whatever the remote does, [fetchWithRetry]
    calls [fetch] between 1 and [retries] times, requests a delay of
    [retryDelay] after each call but the last and nothing else, and hands
    back the outcome of its last call, never [undefined]; an error, or a
    response that is neither ok nor below 500, is only handed back once all
    [retries] attempts are used. *)
Theorem fetchWithRetry_bounded
    (env : Env) (url : jsstring) (options : RequestOptions) (retries : Z)
    (w : World) :
  1 <= retries ->
  exists c j,
    fetchWithRetry env url options retries w
    = (c, w ++ retryEvents url options (cfg_retryDelay env) j ++ [EvFetch url options]) /\
    Z.of_nat j + 1 <= retries /\
    fetchCalls (retryEvents url options (cfg_retryDelay env) j ++ [EvFetch url options])
    = S j /\
    sleeps (retryEvents url options (cfg_retryDelay env) j ++ [EvFetch url options])
    = repeat (cfg_retryDelay env) j /\
    outcomeOfCall env (fetchCalls w + j) c /\
    (forall e, c = Throw e -> Z.of_nat j + 1 = retries) /\
    (forall r, c = Normal (Some r) -> ok r = false -> 500 <= status r ->
       Z.of_nat j + 1 = retries).
Proof.
  intros Hge.
  destruct (fetchLoop_shape env url options retries (Z.to_nat retries) 1 w)
    as (j & c & Hj & Hrun & Hout & _ & Hthrow & Hret); [lia|lia|].
  exists c, j. split; [exact Hrun|]. split; [lia|].
  split; [|split; [|split; [exact Hout|split]]].
  - rewrite fetchCalls_app, fetchCalls_retryEvents. cbn. lia.
  - rewrite sleeps_app, sleeps_retryEvents. cbn. apply app_nil_r.
  - intros e He. specialize (Hthrow e He). lia.
  - intros r Hc Hok Hs. destruct (Hret r Hc) as [H|[H|H]]; [congruence|lia|lia].
Qed.

Lemma fetchWithRetry_bounded_witness :
  exists c j,
    fetchWithRetry
      (Sample.env (Sample.script [Normal Sample.unavailable503;
                                  Throw Sample.connectionReset]
                     (Normal Sample.ok200)))
      Sample.url Sample.options 3 []
    = (c, [] ++ retryEvents Sample.url Sample.options 5000 j
              ++ [EvFetch Sample.url Sample.options]) /\
    Z.of_nat j + 1 <= 3.
Proof.
  destruct (fetchWithRetry_bounded
              (Sample.env (Sample.script [Normal Sample.unavailable503;
                                          Throw Sample.connectionReset]
                             (Normal Sample.ok200)))
              Sample.url Sample.options 3 [])
    as (c & j & H1 & H2 & _); [lia|].
  exists c, j. split; assumption.
Defined.

(** X2: an attempt that throws before the last one is retried like a 5xx
    answer: after [j] attempts that threw or answered 500 or more, an ok
    answer is returned, with [j + 1] calls made and [j] delays requested. *)
Theorem fetchWithRetry_retries_thrown_errors
    (env : Env) (url : jsstring) (options : RequestOptions) (retries : Z)
    (j : nat) (w : World) (r : Response) :
  Z.of_nat j < retries ->
  (forall i, (i < j)%nat ->
     (exists e, fetch_outcome env (fetchCalls w + i) = Throw e) \/
     (exists ri, fetch_outcome env (fetchCalls w + i) = Normal ri /\ 500 <= status ri)) ->
  fetch_outcome env (fetchCalls w + j) = Normal r ->
  ok r = true ->
  exists evs,
    fetchWithRetry env url options retries w = (Normal (Some r), w ++ evs) /\
    fetchCalls evs = S j /\
    sleeps evs = repeat (cfg_retryDelay env) j.
Proof.
  intros Hlt Hall Hr Hok.
  exists (retryEvents url options (cfg_retryDelay env) j ++ [EvFetch url options]).
  split; [|split].
  - apply fetchWithRetry_returns_at; try assumption; [|now left].
    intros i Hi. destruct (Hall i Hi) as [[e ->]|(ri & -> & Hs)]; simpl; [exact I|lia].
  - rewrite fetchCalls_app, fetchCalls_retryEvents. cbn. lia.
  - rewrite sleeps_app, sleeps_retryEvents. cbn. apply app_nil_r.
Qed.

Lemma fetchWithRetry_retries_thrown_errors_witness :
  exists evs,
    fetchWithRetry
      (Sample.env (Sample.script [Throw Sample.connectionReset;
                                  Normal Sample.unavailable503]
                     (Normal Sample.ok200)))
      Sample.url Sample.options 3 []
    = (Normal (Some Sample.ok200), [] ++ evs) /\
    fetchCalls evs = 3%nat /\
    sleeps evs = [5000; 5000].
Proof.
  apply (fetchWithRetry_retries_thrown_errors
           (Sample.env (Sample.script [Throw Sample.connectionReset;
                                       Normal Sample.unavailable503]
                          (Normal Sample.ok200)))
           Sample.url Sample.options 3 2 [] Sample.ok200).
  - lia.
  - intros i Hi. destruct i as [|[|i]]; [left|right|lia].
    + exists Sample.connectionReset. reflexivity.
    + exists Sample.unavailable503. split; [reflexivity|simpl; lia].
  - reflexivity.
  - reflexivity.
Defined.

(** X3: when each of the first [retries - 1] attempts threw or answered 500
    or more, the last attempt alone decides: its response is returned
    whatever its status, and its error is thrown; what the earlier attempts
    answered or threw is lost. *)
Theorem fetchWithRetry_last_attempt_decides
    (env : Env) (url : jsstring) (options : RequestOptions) (retries : Z)
    (w : World) :
  1 <= retries ->
  (forall i, (i < Z.to_nat retries - 1)%nat ->
     retriable (fetch_outcome env (fetchCalls w + i))) ->
  fetchWithRetry env url options retries w
  = (match fetch_outcome env (fetchCalls w + (Z.to_nat retries - 1)) with
     | Normal r => Normal (Some r)
     | Throw e => Throw e
     end,
     w ++ retryEvents url options (cfg_retryDelay env) (Z.to_nat retries - 1)
       ++ [EvFetch url options]).
Proof.
  intros Hge Hall.
  destruct (fetch_outcome env (fetchCalls w + (Z.to_nat retries - 1))) as [r|e] eqn:Hf.
  - apply fetchWithRetry_returns_at; try assumption; [lia|].
    right. right. lia.
  - now apply fetchWithRetry_throws_at.
Qed.

Lemma fetchWithRetry_last_attempt_decides_witness :
  fetchWithRetry
    (Sample.env (Sample.script [Throw Sample.connectionReset;
                                Throw Sample.connectionReset]
                   (Normal Sample.unavailable503)))
    Sample.url Sample.options 3 []
  = (Normal (Some Sample.unavailable503),
     [] ++ retryEvents Sample.url Sample.options 5000 2
        ++ [EvFetch Sample.url Sample.options]).
Proof.
  apply (fetchWithRetry_last_attempt_decides
           (Sample.env (Sample.script [Throw Sample.connectionReset;
                                       Throw Sample.connectionReset]
                          (Normal Sample.unavailable503)))
           Sample.url Sample.options 3 []).
  - lia.
  - intros i Hi. destruct i as [|[|i]]; [exact I|exact I|simpl in Hi; lia].
Defined.

(** * Further properties of the workflow invocation client *)

(** Interpreting the response logs nothing. *)
Lemma interpretResponse_world env flowId response w :
  snd (interpretResponse env flowId response w) = w.
Proof.
  destruct response as [r|]; [|reflexivity].
  unfold interpretResponse. destruct (ok r); cbn [negb].
  - unfold bind, try_catch, liftC, throw, ret.
    destruct (json r) as [v|e].
    + destruct (cleanMessage (extractMessage env v)) as [m|e]; [|reflexivity].
      destruct (truncateMessage env m); reflexivity.
    + destruct (textAfterJson r); reflexivity.
  - unfold bind, try_catch, liftC, throw, ret. destruct (text r); reflexivity.
Qed.

(** Once configured, the client logs what its call of [fetchWithRetry]
    logs, and nothing more. *)
Lemma triggerLangflow_world env data flowId w :
  configured env flowId = true ->
  exists result,
    triggerLangflow env data flowId w
    = (Normal result, snd (remoteCall env data flowId w)).
Proof.
  intros Hc. rewrite (triggerLangflow_run env data flowId w Hc).
  destruct (remoteCall env data flowId w) as [[response|e] w1]; cbn [snd].
  - unfold try_catch.
    pose proof (interpretResponse_world env flowId response w1) as Hw.
    destruct (interpretResponse env flowId response w1) as [[result|e] w2];
      cbn [snd] in Hw; subst w2; [eauto|].
    unfold langflowCatch, ret. eauto.
  - unfold langflowCatch, ret. eauto.
Qed.

(** X4: the client fails fast on a missing configuration: it checks the
    endpoint, then the API key, then the flow id, and returns a Failure
    naming the first one that is missing, without requesting a delay or
    calling [fetch]. *)
Theorem triggerLangflow_fails_fast
    (env : Env) (data : RequestData) (flowId : option jsstring) (w : World) :
  (envTruthy (LANGFLOW_ENDPOINT env) = false ->
   triggerLangflow env data flowId w
   = (Normal (Failure (lit "LANGFLOW_ENDPOINT environment variable is not set")
                (lit "LANGFLOW_ENDPOINT environment variable is not set")), w)) /\
  (envTruthy (LANGFLOW_ENDPOINT env) = true ->
   envTruthy (LANGFLOW_API_KEY env) = false ->
   triggerLangflow env data flowId w
   = (Normal (Failure (lit "LANGFLOW_API_KEY environment variable is not set")
                (lit "LANGFLOW_API_KEY environment variable is not set")), w)) /\
  (envTruthy (LANGFLOW_ENDPOINT env) = true ->
   envTruthy (LANGFLOW_API_KEY env) = true ->
   envTruthy flowId = false ->
   triggerLangflow env data flowId w
   = (Normal (Failure (lit "Flow ID is required but not provided")
                (lit "Flow ID is required but not provided")), w)).
Proof.
  unfold triggerLangflow, try_catch, throw, langflowCatch, ret.
  repeat split.
  - intros ->. reflexivity.
  - intros -> ->. reflexivity.
  - intros -> -> ->. reflexivity.
Qed.

(** X5: once configured and allowed at least one attempt, the client
    requests the jitter delay once and then makes between 1 and [retries]
    requests, all of them POST requests to [endpoint/run/flowId] that carry
    the data and the bearer credential, with a delay of [retryDelay]
    between two requests; it logs nothing else. *)
Theorem triggerLangflow_requests
    (env : Env) (data : RequestData) (flowId : option jsstring) (w : World) :
  configured env flowId = true ->
  1 <= cfg_retries env ->
  exists result j,
    triggerLangflow env data flowId w
    = (Normal result,
       w ++ [EvSleep (jitter env)] ++
       retryEvents (apiUrl env flowId) (requestOptions env data) (cfg_retryDelay env) j ++
       [EvFetch (apiUrl env flowId) (requestOptions env data)]) /\
    Z.of_nat j + 1 <= cfg_retries env /\
    apiUrl env flowId
    = envStr (LANGFLOW_ENDPOINT env) ++ lit "/run/" ++ envStr flowId /\
    ro_method (requestOptions env data) = lit "POST" /\
    rb_body (ro_body (requestOptions env data)) = data /\
    In (lit "Authorization", lit "Bearer " ++ envStr (LANGFLOW_API_KEY env))
       (ro_headers (requestOptions env data)).
Proof.
  intros Hc Hge.
  destruct (triggerLangflow_world env data flowId w Hc) as [result Hrun].
  destruct (fetchLoop_shape env (apiUrl env flowId) (requestOptions env data)
              (cfg_retries env) (Z.to_nat (cfg_retries env)) 1
              (w ++ [EvSleep (jitter env)]))
    as (j & c & Hj & Hloop & _); [lia|lia|].
  exists result, j. split; [|split; [lia|repeat split]].
  - rewrite Hrun. unfold remoteCall, fetchWithRetry. rewrite Hloop. cbn [snd].
    now rewrite <- app_assoc.
  - right. left. reflexivity.
Qed.

Lemma triggerLangflow_requests_witness :
  exists result j,
    triggerLangflow (Sample.env (Sample.script [] (Normal Sample.unavailable503)))
      Sample.data (Some (lit "review-flow")) []
    = (Normal result,
       [] ++ [EvSleep 2500] ++
       retryEvents Sample.url
         (requestOptions (Sample.env (Sample.script [] (Normal Sample.unavailable503)))
            Sample.data) 5000 j ++
       [EvFetch Sample.url
          (requestOptions (Sample.env (Sample.script [] (Normal Sample.unavailable503)))
             Sample.data)]) /\
    Z.of_nat j + 1 <= 3.
Proof.
  destruct (triggerLangflow_requests
              (Sample.env (Sample.script [] (Normal Sample.unavailable503)))
              Sample.data (Some (lit "review-flow")) [])
    as (result & j & H1 & H2 & _).
  - reflexivity.
  - simpl. lia.
  - exists result, j. split; assumption.
Defined.

(** X6: with [retries <= 0] the client requests the jitter delay, makes no
    request at all, and returns a Failure whose message is that of the
    TypeError raised by reading [status] of [undefined]. *)
Theorem triggerLangflow_without_attempts
    (env : Env) (data : RequestData) (flowId : option jsstring) (w : World) :
  configured env flowId = true ->
  cfg_retries env <= 0 ->
  triggerLangflow env data flowId w
  = (Normal (Failure (lit "Cannot read properties of undefined (reading 'status')")
               (lit "Cannot read properties of undefined (reading 'status')")),
     w ++ [EvSleep (jitter env)]).
Proof.
  intros Hc Hle. rewrite (triggerLangflow_run env data flowId w Hc).
  unfold remoteCall. rewrite fetchWithRetry_no_attempt by exact Hle.
  reflexivity.
Qed.

Lemma triggerLangflow_without_attempts_witness :
  triggerLangflow (Cases.withRetries 0 (Sample.script [] (Normal Sample.ok200)))
    Sample.data (Some (lit "review-flow")) []
  = (Normal (Failure (lit "Cannot read properties of undefined (reading 'status')")
               (lit "Cannot read properties of undefined (reading 'status')")),
     [] ++ [EvSleep 2500]).
Proof.
  apply (triggerLangflow_without_attempts
           (Cases.withRetries 0 (Sample.script [] (Normal Sample.ok200)))
           Sample.data (Some (lit "review-flow")) []).
  - reflexivity.
  - simpl. lia.
Defined.

(** X7: when every attempt throws, the client returns a Failure after
    [retries] requests: its [originalError] is the message of the last
    error thrown and its [error] is the classification of that error, which
    for an AbortError is the message of the timeout category. *)
Theorem triggerLangflow_network_failure
    (env : Env) (data : RequestData) (flowId : option jsstring) (w : World)
    (errs : nat -> Error) :
  configured env flowId = true ->
  1 <= cfg_retries env ->
  (forall i, (i < Z.to_nat (cfg_retries env))%nat ->
     fetch_outcome env (fetchCalls w + i) = Throw (errs i)) ->
  let last := errs (Z.to_nat (cfg_retries env) - 1)%nat in
  triggerLangflow env data flowId w
  = (Normal (Failure (userFriendlyMessage last) (message last)),
     w ++ [EvSleep (jitter env)] ++
     retryEvents (apiUrl env flowId) (requestOptions env data) (cfg_retryDelay env)
       (Z.to_nat (cfg_retries env) - 1) ++
     [EvFetch (apiUrl env flowId) (requestOptions env data)]) /\
  (name last = lit "AbortError" -> userFriendlyMessage last = timedOutMessage).
Proof.
  intros Hc Hge Hall last. split.
  - rewrite (triggerLangflow_run env data flowId w Hc). unfold remoteCall.
    assert (Hcalls : fetchCalls (w ++ [EvSleep (jitter env)]) = fetchCalls w).
    { rewrite fetchCalls_app. cbn. lia. }
    rewrite (fetchWithRetry_throws_at env _ _ _ _ last Hge).
    + unfold langflowCatch, ret. now rewrite <- app_assoc.
    + intros i Hi. rewrite Hcalls, Hall by lia. exact I.
    + rewrite Hcalls. apply Hall. lia.
  - intros Hn. unfold userFriendlyMessage. rewrite Hn. reflexivity.
Qed.

Lemma triggerLangflow_network_failure_witness :
  triggerLangflow (Sample.env (Sample.script [] (Throw Cases.abortError)))
    Sample.data (Some (lit "review-flow")) []
  = (Normal (Failure timedOutMessage (lit "The user aborted a request.")),
     [] ++ [EvSleep 2500] ++
     retryEvents Sample.url
       (requestOptions (Sample.env (Sample.script [] (Throw Cases.abortError)))
          Sample.data) 5000 2 ++
     [EvFetch Sample.url
        (requestOptions (Sample.env (Sample.script [] (Throw Cases.abortError)))
           Sample.data)]).
Proof.
  refine (proj1 (triggerLangflow_network_failure
                   (Sample.env (Sample.script [] (Throw Cases.abortError)))
                   Sample.data (Some (lit "review-flow")) []
                   (fun _ => Cases.abortError) _ _ _)).
  - reflexivity.
  - simpl. lia.
  - intros i Hi. unfold Sample.env, Sample.script. simpl.
    destruct i as [|[|[|i]]]; reflexivity.
Defined.

(** ** The extraction of the message *)

Lemma jsGt_length env (n : nat) (k : Z) :
  jsGt env (numOfNat n) k = Normal (Z.of_nat n >? k).
Proof.
  unfold jsGt, numOfNat, Qle_bool, inject_Z. cbn [Qnum Qden].
  rewrite !Z.mul_1_r. f_equal.
  destruct (Z.of_nat n >? k) eqn:H; lia.
Qed.

Lemma hasElements_cons env (x : Value) (rest : list Value) (m : Value) :
  hasElements env (VArr (x :: rest)) m = (Normal true, m).
Proof.
  unfold hasElements, prop, bind, liftC. cbn [truthy].
  replace (getProp (VArr (x :: rest)) (lit "length"))
    with (Normal (numOfNat (length (x :: rest)))) by reflexivity.
  rewrite jsGt_length. reflexivity.
Qed.

Lemma hasElements_falsy env (v m : Value) :
  truthy v = false -> hasElements env v m = (Normal false, m).
Proof. intros H. unfold hasElements. now rewrite H. Qed.

(** X8: a body in the nested outputs shape yields the text found at
    [outputs[0].outputs[0].results.message.data.text], or "Analysis
    completed" when that text is missing or falsy; the flat [result] and
    [data.text] fields are then not looked at, unless the text is exactly
    the default message. *)
Theorem extractMessage_nested_outputs
    (env : Env) (fields f2 f3 f4 f5 f6 : list (jsstring * Value))
    (rest rest2 : list Value) :
  lookupField (lit "outputs") fields = VArr (VObj f2 :: rest) ->
  lookupField (lit "outputs") f2 = VArr (VObj f3 :: rest2) ->
  lookupField (lit "results") f3 = VObj f4 ->
  lookupField (lit "message") f4 = VObj f5 ->
  lookupField (lit "data") f5 = VObj f6 ->
  strictEqStr (lookupField (lit "text") f6) defaultMessage = false ->
  extractMessage env (VObj fields)
  = if truthy (lookupField (lit "text") f6) then lookupField (lit "text") f6
    else VStr (lit "Analysis completed").
Proof.
  intros H1 H2 H3 H4 H5 Hd.
  unfold extractMessage, try_catch.
  unfold bind at 1. unfold extractOutputs.
  unfold bind at 1. unfold prop at 1. unfold liftC at 1. cbn [getProp]. rewrite H1.
  unfold bind at 1. rewrite hasElements_cons.
  unfold bind at 1. unfold liftC at 1. cbn [getIndex0].
  unfold bind at 1. unfold prop at 1. unfold liftC at 1. cbn [getProp]. rewrite H2.
  unfold bind at 1. rewrite hasElements_cons.
  unfold bind at 1. unfold liftC at 1. cbn [getIndex0].
  unfold bind at 1. unfold prop at 1. unfold liftC at 1. cbn [getProp]. rewrite H3.
  cbn [truthy].
  unfold bind at 1. unfold prop at 1. unfold liftC at 1. cbn [getProp]. rewrite H4.
  cbn [truthy].
  unfold bind at 1. unfold prop at 1. unfold liftC at 1. cbn [getProp]. rewrite H5.
  cbn [truthy].
  unfold bind at 1. unfold prop at 1. unfold liftC at 1. cbn [getProp].
  unfold setMessage.
  set (t := lookupField (lit "text") f6) in *.
  set (msg := if truthy t then t else VStr (lit "Analysis completed")).
  assert (Hm : strictEqStr msg defaultMessage = false).
  { unfold msg. destruct (truthy t); [exact Hd|reflexivity]. }
  unfold bind at 1. unfold extractResult. unfold bind at 1. unfold getMessage at 1.
  rewrite Hm. unfold ret at 1.
  unfold extractDataText, bind, getMessage. rewrite Hm. reflexivity.
Qed.

Lemma extractMessage_nested_outputs_witness :
  extractMessage (Sample.env (Sample.script [] (Normal Sample.ok200)))
    (Cases.nested (VStr (lit "Looks good")))
  = VStr (lit "Looks good").
Proof.
  unfold Cases.nested.
  eapply (extractMessage_nested_outputs
            (Sample.env (Sample.script [] (Normal Sample.ok200))))
    with (f6 := [(lit "text", VStr (lit "Looks good"))]);
    reflexivity.
Defined.

Lemma extractMessage_not_object env (v : Value) :
  (forall fields, v <> VObj fields) -> extractMessage env v = VStr defaultMessage.
Proof.
  intros H. destruct v; try reflexivity. now destruct (H fields).
Qed.

(** X9: when the body of an ok response parses to anything but an object
    ([null], a number, a string, a boolean, an array), no shape matches,
    the extraction error, if any, is swallowed, and the client returns a
    Success with the default message. *)
Theorem triggerLangflow_non_object_body
    (env : Env) (data : RequestData) (flowId : option jsstring) (w : World)
    (r : Response) (w1 : World) (v : Value) :
  configured env flowId = true ->
  remoteCall env data flowId w = (Normal (Some r), w1) ->
  ok r = true ->
  json r = Normal v ->
  (forall fields, v <> VObj fields) ->
  triggerLangflow env data flowId w
  = (Normal (Success (VStr (lit "Analysis completed successfully")) v), w1).
Proof.
  intros Hc Hr Hok Hj Hv.
  rewrite (triggerLangflow_parsed env data flowId w r w1 v Hc Hr Hok Hj).
  rewrite (extractMessage_not_object env v Hv). reflexivity.
Qed.

Lemma triggerLangflow_non_object_body_witness :
  triggerLangflow (Sample.env (Sample.script [] (Normal (Cases.answer VNull))))
    Sample.data (Some (lit "review-flow")) []
  = (Normal (Success (VStr (lit "Analysis completed successfully")) VNull),
     [EvSleep 2500;
      EvFetch Sample.url
        (requestOptions (Sample.env (Sample.script [] (Normal (Cases.answer VNull))))
           Sample.data)]).
Proof.
  apply (triggerLangflow_non_object_body
           (Sample.env (Sample.script [] (Normal (Cases.answer VNull))))
           Sample.data (Some (lit "review-flow")) [] (Cases.answer VNull)).
  - reflexivity.
  - reflexivity.
  - reflexivity.
  - reflexivity.
  - intros fields. discriminate.
Defined.

Lemma extractOutputs_skip env fields (m : Value) :
  truthy (lookupField (lit "outputs") fields) = false ->
  extractOutputs env (VObj fields) m = (Normal tt, m).
Proof.
  intros H. unfold extractOutputs, prop, liftC. cbn [getProp].
  unfold bind at 1. unfold bind at 1. now rewrite (hasElements_falsy env _ m H).
Qed.

(** What is left of the extraction when the nested shape is absent. *)
Lemma extractMessage_flat env fields :
  truthy (lookupField (lit "outputs") fields) = false ->
  extractMessage env (VObj fields)
  = snd (bind (extractResult (VObj fields))
           (fun _ => extractDataText (VObj fields)) (VStr defaultMessage)).
Proof.
  intros H. unfold extractMessage, try_catch.
  unfold bind at 1. rewrite (extractOutputs_skip env fields _ H).
  destruct (bind _ _ _) as [[[]|e] m]; reflexivity.
Qed.

(** X10: without the nested shape the flat shapes are probed in order: a
    string [result] is the message; else [result.text], else
    [result.message]; else, when [result] is missing, [data.text]; and when
    nothing is found the message is the default one. (A value found under
    [result] that is exactly the default message does not stop the
    probe.) *)
Theorem extractMessage_flat_shapes
    (env : Env) (fields : list (jsstring * Value)) :
  truthy (lookupField (lit "outputs") fields) = false ->
  (forall s, lookupField (lit "result") fields = VStr s -> s <> [] ->
     jsstring_eqb s defaultMessage = false ->
     extractMessage env (VObj fields) = VStr s) /\
  (forall rf, lookupField (lit "result") fields = VObj rf ->
     truthy (lookupField (lit "text") rf) = true ->
     strictEqStr (lookupField (lit "text") rf) defaultMessage = false ->
     extractMessage env (VObj fields) = lookupField (lit "text") rf) /\
  (forall rf, lookupField (lit "result") fields = VObj rf ->
     truthy (lookupField (lit "text") rf) = false ->
     truthy (lookupField (lit "message") rf) = true ->
     strictEqStr (lookupField (lit "message") rf) defaultMessage = false ->
     extractMessage env (VObj fields) = lookupField (lit "message") rf) /\
  (forall df, truthy (lookupField (lit "result") fields) = false ->
     lookupField (lit "data") fields = VObj df ->
     truthy (lookupField (lit "text") df) = true ->
     extractMessage env (VObj fields) = lookupField (lit "text") df) /\
  (truthy (lookupField (lit "result") fields) = false ->
   truthy (lookupField (lit "data") fields) = false ->
   extractMessage env (VObj fields) = VStr defaultMessage).
Proof.
  intros Ho. rewrite (extractMessage_flat env fields Ho).
  assert (Hdflt : strictEqStr (VStr defaultMessage) defaultMessage = true)
    by reflexivity.
  unfold extractResult, extractDataText, prop, liftC, getMessage, setMessage.
  cbn [getProp].
  split; [|split; [|split; [|split]]].
  - intros s Hs Hne Hd.
    assert (Ht : truthy (VStr s) = true) by (destruct s; [congruence|reflexivity]).
    unfold bind, ret. rewrite Hdflt, Hs, Ht. cbn [isString strictEqStr].
    rewrite Hd. reflexivity.
  - intros rf Hr Ht Hd.
    unfold bind, ret. rewrite Hdflt, Hr. cbn [truthy isString getProp].
    rewrite Ht, Hd. reflexivity.
  - intros rf Hr Ht Hm Hd.
    unfold bind, ret. rewrite Hdflt, Hr. cbn [truthy isString getProp].
    rewrite Ht, Hm, Hd. reflexivity.
  - intros df Hr Hdata Ht.
    unfold bind, ret. rewrite Hdflt, Hr, Hdflt, Hdata. cbn [truthy getProp].
    rewrite Ht. reflexivity.
  - intros Hr Hdata.
    unfold bind, ret. rewrite Hdflt, Hr, Hdflt, Hdata. reflexivity.
Qed.

Lemma extractMessage_flat_shapes_witness :
  extractMessage (Sample.env (Sample.script [] (Normal Sample.ok200)))
    (VObj [(lit "data", VObj [(lit "text", VStr (lit "From data"))])])
  = VStr (lit "From data").
Proof.
  refine (proj1 (proj2 (proj2 (proj2
            (extractMessage_flat_shapes
               (Sample.env (Sample.script [] (Normal Sample.ok200)))
               [(lit "data", VObj [(lit "text", VStr (lit "From data"))])] _))))
            [(lit "text", VStr (lit "From data"))] _ _ _);
    reflexivity.
Defined.

(** ** The two clamps *)

Lemma clamp_string env (m : jsstring) :
  clamp env (VStr m)
  = Normal (VStr
      (let cleaned := if includes m (lit "PR #") && includes m (lit "not found")
                      then genericSummary else m in
       if jslength cleaned >? 65000
       then substring0 65000 cleaned ++ truncationMarker else cleaned)).
Proof.
  unfold clamp. now rewrite cleanMessage_string, truncateMessage_string.
Qed.

Lemma truncated_length (m : jsstring) :
  jslength (if jslength m >? 65000
            then substring0 65000 m ++ truncationMarker else m)
  <= 65000 + jslength truncationMarker.
Proof.
  destruct (jslength m >? 65000) eqn:H.
  - unfold jslength, substring0 in *. rewrite length_app.
    pose proof (firstn_le_length (Z.to_nat 65000) m). lia.
  - unfold jslength in *. lia.
Qed.

Lemma truncateMessage_string_bound env (m out : jsstring) :
  truncateMessage env (VStr m) = Normal (VStr out) ->
  jslength out <= 65000 + jslength truncationMarker.
Proof.
  rewrite truncateMessage_string. intros H. injection H as H. subst out.
  apply truncated_length.
Qed.

(** Only a string goes through the clamps as a string. *)
Lemma clamp_to_string env (x : Value) (out : jsstring) :
  clamp env x = Normal (VStr out) ->
  jslength out <= 65000 + jslength truncationMarker.
Proof.
  intros H. destruct x as [| |b|q|m|l|fields]; try discriminate.
  - unfold clamp in H. rewrite cleanMessage_string in H.
    exact (truncateMessage_string_bound env _ out H).
  - unfold clamp, cleanMessage, valueIncludes in H.
    assert (Harr : truncateMessage env (VArr l) <> Normal (VStr out)).
    { unfold truncateMessage.
      replace (getProp (VArr l) (lit "length")) with (Normal (numOfNat (length l)))
        by reflexivity.
      rewrite jsGt_length. destruct (Z.of_nat (length l) >? 65000); discriminate. }
    pose proof (truncateMessage_string_bound env genericSummary out) as Hsum.
    destruct (existsb _ l); [|contradiction].
    destruct (existsb _ l); [auto|contradiction].
Qed.

(** X11: every Success whose message is a string carries at most 65000
    characters plus the truncation marker, 65037 in all, whatever the
    remote workflow answered. *)
Theorem triggerLangflow_message_bounded
    (env : Env) (data : RequestData) (flowId : option jsstring) (w w' : World)
    (out : jsstring) (v : Value) :
  triggerLangflow env data flowId w = (Normal (Success (VStr out) v), w') ->
  jslength out <= 65037.
Proof.
  intros H. apply triggerLangflow_success_inv in H as (_ & r & _ & _ & _ & Hm).
  apply clamp_to_string in Hm.
  replace (jslength truncationMarker) with 37 in Hm by reflexivity. lia.
Qed.

Lemma triggerLangflow_message_bounded_witness :
  jslength (lit "All good") <= 65037.
Proof.
  apply (triggerLangflow_message_bounded
           (Sample.env (Sample.script [] (Normal Sample.ok200)))
           Sample.data (Some (lit "review-flow")) []
           [EvSleep 2500;
            EvFetch Sample.url
              (requestOptions (Sample.env (Sample.script [] (Normal Sample.ok200)))
                 Sample.data)]
           (lit "All good") Sample.allGood).
  reflexivity.
Defined.

(** X12: when the extracted message is a string that contains both "PR #"
    and "not found", the client returns a Success whose message is the
    fixed generic summary, which is short enough not to be truncated. *)
Theorem triggerLangflow_substitutes_not_found
    (env : Env) (data : RequestData) (flowId : option jsstring) (w : World)
    (r : Response) (w1 : World) (v : Value) (m : jsstring) :
  configured env flowId = true ->
  remoteCall env data flowId w = (Normal (Some r), w1) ->
  ok r = true ->
  json r = Normal v ->
  extractMessage env v = VStr m ->
  includes m (lit "PR #") = true ->
  includes m (lit "not found") = true ->
  triggerLangflow env data flowId w = (Normal (Success (VStr genericSummary) v), w1).
Proof.
  intros Hc Hr Hok Hj Hm H1 H2.
  rewrite (triggerLangflow_parsed env data flowId w r w1 v Hc Hr Hok Hj).
  rewrite Hm, clamp_string, H1, H2. reflexivity.
Qed.

Lemma triggerLangflow_substitutes_not_found_witness :
  triggerLangflow
    (Sample.env (Sample.script [] (Normal (Cases.answer Cases.notFoundBody))))
    Sample.data (Some (lit "review-flow")) []
  = (Normal (Success (VStr genericSummary) Cases.notFoundBody),
     [EvSleep 2500;
      EvFetch Sample.url
        (requestOptions
           (Sample.env (Sample.script [] (Normal (Cases.answer Cases.notFoundBody))))
           Sample.data)]).
Proof.
  apply (triggerLangflow_substitutes_not_found
           (Sample.env (Sample.script [] (Normal (Cases.answer Cases.notFoundBody))))
           Sample.data (Some (lit "review-flow")) []
           (Cases.answer Cases.notFoundBody)
           _ _ (lit "Error: PR #7 was not found"));
    reflexivity.
Defined.

(** X13: when the extracted message is a string of at most 65000
    characters that does not contain both "PR #" and "not found", the
    client returns it unchanged. *)
Theorem triggerLangflow_short_message_verbatim
    (env : Env) (data : RequestData) (flowId : option jsstring) (w : World)
    (r : Response) (w1 : World) (v : Value) (m : jsstring) :
  configured env flowId = true ->
  remoteCall env data flowId w = (Normal (Some r), w1) ->
  ok r = true ->
  json r = Normal v ->
  extractMessage env v = VStr m ->
  jslength m <= 65000 ->
  includes m (lit "PR #") && includes m (lit "not found") = false ->
  triggerLangflow env data flowId w = (Normal (Success (VStr m) v), w1).
Proof.
  intros Hc Hr Hok Hj Hm Hlen Hsub.
  rewrite (triggerLangflow_parsed env data flowId w r w1 v Hc Hr Hok Hj).
  rewrite Hm, clamp_string, Hsub. cbv zeta.
  replace (jslength m >? 65000) with false by lia. reflexivity.
Qed.

Lemma triggerLangflow_short_message_verbatim_witness :
  triggerLangflow (Sample.env (Sample.script [] (Normal Sample.ok200)))
    Sample.data (Some (lit "review-flow")) []
  = (Normal (Success (VStr (lit "All good")) Sample.allGood),
     [EvSleep 2500;
      EvFetch Sample.url
        (requestOptions (Sample.env (Sample.script [] (Normal Sample.ok200)))
           Sample.data)]).
Proof.
  apply (triggerLangflow_short_message_verbatim
           (Sample.env (Sample.script [] (Normal Sample.ok200)))
           Sample.data (Some (lit "review-flow")) [] Sample.ok200
           _ _ (lit "All good"));
    try reflexivity.
  vm_compute. discriminate.
Defined.

(** X14: when the body of an ok response does not parse, the client reads
    the body again as text before giving up: if that second read succeeds
    the Failure says "Invalid JSON response from Langflow API"; if it
    throws, as it does when the body was consumed by the first read, the
    Failure reports the error of the second read, and the parse error is
    lost. *)
Theorem triggerLangflow_invalid_json
    (env : Env) (data : RequestData) (flowId : option jsstring) (w : World)
    (r : Response) (w1 : World) (jsonError : Error) :
  configured env flowId = true ->
  remoteCall env data flowId w = (Normal (Some r), w1) ->
  ok r = true ->
  json r = Throw jsonError ->
  triggerLangflow env data flowId w
  = (Normal
       (match textAfterJson r with
        | Normal _ =>
            Failure (lit "Invalid JSON response from Langflow API")
              (lit "Invalid JSON response from Langflow API")
        | Throw e => Failure (userFriendlyMessage e) (message e)
        end), w1).
Proof.
  intros Hc Hr Hok Hj.
  rewrite (triggerLangflow_run env data flowId w Hc), Hr.
  unfold try_catch, interpretResponse. rewrite Hok. cbn [negb].
  unfold bind, try_catch, liftC, throw. rewrite Hj.
  destruct (textAfterJson r); reflexivity.
Qed.

Lemma triggerLangflow_invalid_json_witness :
  triggerLangflow (Sample.env (Sample.script [] (Normal Cases.html200)))
    Sample.data (Some (lit "review-flow")) []
  = (Normal (Failure (message Sample.bodyUsed) (message Sample.bodyUsed)),
     [EvSleep 2500;
      EvFetch Sample.url
        (requestOptions (Sample.env (Sample.script [] (Normal Cases.html200)))
           Sample.data)]).
Proof.
  apply (triggerLangflow_invalid_json
           (Sample.env (Sample.script [] (Normal Cases.html200)))
           Sample.data (Some (lit "review-flow")) [] Cases.html200 _
           (mkError (lit "FetchError") (lit "invalid json response body")));
    reflexivity.
Defined.

(** * Further properties of the review orchestrator *)

(** The client makes no [checks.update] call. *)
Lemma triggerLangflow_log env data flowId w :
  exists result evs,
    triggerLangflow env data flowId w = (Normal result, w ++ evs) /\
    checkUpdates evs = [].
Proof.
  destruct (configured env flowId) eqn:Hc.
  - destruct (triggerLangflow_world env data flowId w Hc) as [result Hrun].
    exists result. rewrite Hrun. unfold remoteCall.
    destruct (Z_le_gt_dec (cfg_retries env) 0) as [Hle|Hgt].
    + rewrite fetchWithRetry_no_attempt by exact Hle. cbn [snd].
      exists [EvSleep (jitter env)]. now split.
    + destruct (fetchLoop_shape env (apiUrl env flowId) (requestOptions env data)
                  (cfg_retries env) (Z.to_nat (cfg_retries env)) 1
                  (w ++ [EvSleep (jitter env)]))
        as (j & c & _ & Hloop & _); [lia|lia|].
      unfold fetchWithRetry. rewrite Hloop. cbn [snd].
      eexists. split; [now rewrite <- app_assoc|].
      rewrite !checkUpdates_app, checkUpdates_retryEvents. reflexivity.
  - destruct (triggerLangflow_unconfigured env data flowId w Hc) as [e He].
    rewrite He. eexists _, []. split; [now rewrite app_nil_r|reflexivity].
Qed.

Lemma findPrNumber_log env octokit payload w :
  exists c evs,
    findPrNumber env octokit payload w = (c, w ++ evs) /\ checkUpdates evs = [].
Proof.
  unfold findPrNumber. destruct (p_pull_requests payload) as [|n ns].
  - unfold try_catch, bind, pulls_list, throw, ret.
    destruct (pulls_list_outcome env) as [[|n ns]|e]; eexists _, [_]; now split.
  - unfold ret. eexists _, []. split; [now rewrite app_nil_r|reflexivity].
Qed.

(** What the [try] block does after the client was obtained: it requests
    the in-progress update and then either completes with the success
    update and the comment, or throws, with no other update requested. *)
Lemma reviewBody_outcome env payload octokit w :
  exists evs,
    checkUpdates evs = [] /\
    ((exists msg n,
        reviewBody env payload octokit w
        = (Normal tt,
           w ++ [EvChecksUpdate (inProgressParams env payload)] ++ evs ++
           [EvChecksUpdate (successUpdateParams payload msg);
            EvCreateComment n (reviewCommentBody msg)])) \/
     (exists e,
        reviewBody env payload octokit w
        = (Throw e, w ++ [EvChecksUpdate (inProgressParams env payload)] ++ evs))).
Proof.
  destruct (reviewBody env payload octokit w) as [c w'] eqn:Hrun.
  unfold reviewBody in Hrun. unfold bind at 1 in Hrun.
  rewrite swallowed_update in Hrun.
  set (w1 := w ++ [EvChecksUpdate (inProgressParams env payload)]) in Hrun.
  unfold bind at 1 in Hrun.
  destruct (findPrNumber_log env octokit payload w1) as (c1 & evs1 & Hfind & Hu1).
  rewrite Hfind in Hrun. destruct c1 as [n|e].
  2:{ injection Hrun as <- <-. exists evs1. split; [exact Hu1|]. right. exists e.
      unfold w1. now rewrite <- app_assoc. }
  unfold bind at 1 in Hrun. unfold try_catch at 1 in Hrun.
  unfold bind at 1 in Hrun. unfold pulls_get in Hrun.
  destruct (pulls_get_outcome env) as [pr|e].
  2:{ unfold throw in Hrun. injection Hrun as <- <-.
      exists (evs1 ++ [EvPullsGet n]). split.
      - rewrite checkUpdates_app, Hu1. reflexivity.
      - right. eexists. unfold w1. now rewrite <- !app_assoc. }
  unfold bind at 1 in Hrun. unfold pulls_listFiles in Hrun.
  destruct (pulls_listFiles_outcome env) as [files|e].
  2:{ unfold throw in Hrun. injection Hrun as <- <-.
      exists (evs1 ++ [EvPullsGet n; EvListFiles n]). split.
      - rewrite checkUpdates_app, Hu1. reflexivity.
      - right. eexists. unfold w1. now rewrite <- !app_assoc. }
  unfold ret at 1 in Hrun. cbn [fst snd] in Hrun. unfold bind at 1 in Hrun.
  match type of Hrun with context [triggerLangflow env ?d ?f ?w0] =>
    destruct (triggerLangflow_log env d f w0) as (result & evs2 & Htrig & Hu2);
    rewrite Htrig in Hrun
  end.
  exists (evs1 ++ [EvPullsGet n; EvListFiles n] ++ evs2). split.
  { rewrite !checkUpdates_app, Hu1, Hu2. reflexivity. }
  destruct result as [msg d|error orig].
  - left. exists msg, n. unfold bind in Hrun.
    rewrite swallowed_update, swallowed_comment in Hrun.
    injection Hrun as <- <-. unfold w1. now rewrite <- !app_assoc.
  - right. eexists. unfold throw in Hrun. injection Hrun as <- <-.
    unfold w1. now rewrite <- !app_assoc.
Qed.


(** Once the client is obtained the handler completes normally after the
    in-progress update and one terminal update, which is the success update
    or the error update. *)
Lemma handleReviewRequest_terminal env payload w octokit :
  getOctokit_outcome env = Normal octokit ->
  exists evs terminal,
    handleReviewRequest env payload w = (Normal tt, w ++ evs) /\
    checkUpdates evs = [inProgressParams env payload; terminal] /\
    ((exists msg, terminal = successUpdateParams payload msg) \/
     (exists e, terminal = errorUpdateParams payload e)).
Proof.
  intros Ho. unfold handleReviewRequest. unfold try_catch at 1. unfold getOctokit.
  rewrite Ho. unfold try_catch.
  destruct (reviewBody_outcome env payload octokit (w ++ [EvGetOctokit]))
    as (evs & Hu & [(msg & n & Hrun)|(e & Hrun)]); rewrite Hrun.
  - eexists. exists (successUpdateParams payload msg).
    split; [now rewrite <- app_assoc|]. split; [|left; now exists msg].
    cbn [app checkUpdates]. rewrite !checkUpdates_app, Hu. reflexivity.
  - unfold reviewCatch. rewrite swallowed_update.
    eexists. exists (errorUpdateParams payload e).
    split; [now rewrite <- !app_assoc|]. split; [|right; now exists e].
    cbn [app checkUpdates]. rewrite !checkUpdates_app, Hu. reflexivity.
Qed.

(** X15: once the GitHub client is obtained, a review request always ends
    by requesting a terminal update: whatever the pull request lookup, the
    data provider and the workflow do, and whatever GitHub answers to the
    updates (an update that throws is swallowed), the handler completes
    normally after requesting exactly two [checks.update] calls for the
    check run of the payload, the in-progress one and then a [completed]
    one whose conclusion is [neutral] or [failure]; and every action that
    the completed update offers is one that the button handler routes to
    [handleReviewRequest] or [handleMergeCheck]. Whether the check run
    leaves the in-progress state depends on GitHub accepting the second
    call, which the handler does not check. *)
Theorem handleReviewRequest_always_requests_conclusion
    (env : Env) (payload : Payload) (w : World) (octokit : Octokit) :
  getOctokit_outcome env = Normal octokit ->
  exists evs terminal,
    handleReviewRequest env payload w = (Normal tt, w ++ evs) /\
    checkUpdates evs = [inProgressParams env payload; terminal] /\
    owner terminal = p_owner payload /\
    repo terminal = p_repo payload /\
    check_run_id terminal = p_check_run_id payload /\
    cp_status terminal = lit "completed" /\
    (conclusion terminal = Some (lit "neutral") \/
     conclusion terminal = Some (lit "failure")) /\
    (forall a, In a (actions terminal) ->
       onRequestedAction env (identifier a) payload = handleReviewRequest env payload \/
       onRequestedAction env (identifier a) payload = handleMergeCheck env payload).
Proof.
  intros Ho.
  destruct (handleReviewRequest_terminal env payload w octokit Ho)
    as (evs & terminal & Hrun & Hu & [[msg ->]|[e ->]]);
    exists evs; eexists; (split; [exact Hrun|]); (split; [exact Hu|]);
    repeat split.
  - now left.
  - intros a [<-|[]]. right. reflexivity.
  - unfold errorUpdateParams. cbn [conclusion].
    destruct (isUnavailable (message e)); [now left|now right].
  - intros a [<-|[]]. left. reflexivity.
Qed.

Lemma handleReviewRequest_always_requests_conclusion_witness :
  exists evs terminal,
    handleReviewRequest (Sample.env (Sample.script [] (Throw Sample.connectionReset)))
      Sample.payload [] = (Normal tt, [] ++ evs) /\
    checkUpdates evs
    = [inProgressParams (Sample.env (Sample.script [] (Throw Sample.connectionReset)))
         Sample.payload; terminal] /\
    cp_status terminal = lit "completed".
Proof.
  destruct (handleReviewRequest_always_requests_conclusion
              (Sample.env (Sample.script [] (Throw Sample.connectionReset)))
              Sample.payload [] InstallationOctokit)
    as (evs & terminal & H1 & H2 & _ & _ & _ & H3 & _).
  - reflexivity.
  - exists evs, terminal. repeat split; assumption.
Defined.

(** X16: [handleReviewRequest] never throws; and when the GitHub client
    cannot be obtained it does nothing at all: no check run update, no
    request to the workflow, no comment. *)
Theorem handleReviewRequest_never_throws
    (env : Env) (payload : Payload) (w : World) :
  exists w',
    handleReviewRequest env payload w = (Normal tt, w') /\
    (forall e, getOctokit_outcome env = Throw e -> w' = w ++ [EvGetOctokit]).
Proof.
  destruct (getOctokit_outcome env) as [octokit|e] eqn:Ho.
  - destruct (handleReviewRequest_terminal env payload w octokit Ho)
      as (evs & terminal & H & _).
    exists (w ++ evs). split; [exact H|discriminate].
  - exists (w ++ [EvGetOctokit]). split; [|reflexivity].
    unfold handleReviewRequest, try_catch, getOctokit. rewrite Ho. reflexivity.
Qed.

(** X17: when the payload names no pull request and [pulls.list] finds none
    (or throws), the workflow is never invoked: after the in-progress
    update and the lookup the handler requests one error update whose text
    starts with "Cannot find PR for this check run: "; when the list was
    empty its conclusion is [failure]. *)
Theorem handleReviewRequest_pr_not_found
    (env : Env) (payload : Payload) (w : World) (octokit : Octokit) :
  getOctokit_outcome env = Normal octokit ->
  p_pull_requests payload = [] ->
  (forall n ns, pulls_list_outcome env <> Normal (n :: ns)) ->
  let reason := match pulls_list_outcome env with
                | Throw e => message e
                | Normal _ => lit "No open pull request found for this check run"
                end in
  let terminal :=
    errorUpdateParams payload
      (newError (lit "Cannot find PR for this check run: " ++ reason)) in
  handleReviewRequest env payload w
  = (Normal tt,
     w ++ [EvGetOctokit;
           EvChecksUpdate (inProgressParams env payload);
           EvPullsList (p_owner payload ++ lit ":" ++ p_head_sha payload);
           EvChecksUpdate terminal]) /\
  (pulls_list_outcome env = Normal [] -> conclusion terminal = Some (lit "failure")).
Proof.
  intros Ho Hp Hl reason terminal. split.
  - unfold handleReviewRequest. unfold try_catch at 1. unfold getOctokit.
    rewrite Ho. unfold try_catch at 1. unfold reviewBody.
    unfold bind at 1. rewrite swallowed_update.
    unfold bind at 1. unfold findPrNumber. rewrite Hp.
    unfold try_catch at 1. unfold bind at 1. unfold pulls_list.
    unfold terminal, reason.
    destruct (pulls_list_outcome env) as [[|n ns]|e].
    + unfold throw, reviewCatch. rewrite swallowed_update.
      now rewrite <- !app_assoc.
    + now destruct (Hl n ns).
    + unfold throw, reviewCatch. rewrite swallowed_update.
      now rewrite <- !app_assoc.
  - intros Hempty. unfold terminal, reason. rewrite Hempty. reflexivity.
Qed.

Lemma handleReviewRequest_pr_not_found_witness :
  checkUpdates
    (snd (handleReviewRequest
            (Cases.deployment (Some (lit "https://langflow.example"))
               (Some (lit "secret")) (Some (lit "review-flow")) 3
               (Sample.script [] (Normal Sample.ok200)) (Normal InstallationOctokit)
               (fun _ => Normal tt) (Normal []) (Normal []))
            Cases.orphanPayload []))
  = [inProgressParams
       (Cases.deployment (Some (lit "https://langflow.example"))
          (Some (lit "secret")) (Some (lit "review-flow")) 3
          (Sample.script [] (Normal Sample.ok200)) (Normal InstallationOctokit)
          (fun _ => Normal tt) (Normal []) (Normal []))
       Cases.orphanPayload;
     errorUpdateParams Cases.orphanPayload
       (newError (lit "Cannot find PR for this check run: No open pull request found for this check run"))].
Proof.
  destruct (handleReviewRequest_pr_not_found
              (Cases.deployment (Some (lit "https://langflow.example"))
                 (Some (lit "secret")) (Some (lit "review-flow")) 3
                 (Sample.script [] (Normal Sample.ok200))
                 (Normal InstallationOctokit)
                 (fun _ => Normal tt) (Normal []) (Normal []))
              Cases.orphanPayload [] InstallationOctokit) as [H _].
  - reflexivity.
  - reflexivity.
  - intros n ns. discriminate.
  - rewrite H. reflexivity.
Defined.

(** X18: the data sent to the workflow is bounded: at most the first 10
    files of the pull request, in order, each with a patch of at most 1000
    characters (an empty or missing patch becomes [null]); a description of
    at most 500 characters, "No description provided" when the pull request
    has none; and [total_files] still counts all the files. *)
Theorem buildPrData_bounds
    (env : Env) (payload : Payload) (n : Z) (pr : PullData) (files : list FileData) :
  let d := buildPrData env payload n pr files in
  (length (pr_files d) <= 10)%nat /\
  map filename (pr_files d) = map filename (firstn 10 files) /\
  pr_total_files d = Z.of_nat (length files) /\
  jslength (pr_description d) <= 500 /\
  Forall (fun f => match patch f with
                   | Some p => 1 <= jslength p <= 1000
                   | None => True
                   end) (pr_files d) /\
  (pd_body pr = None \/ pd_body pr = Some [] ->
   pr_description d = lit "No description provided").
Proof.
  cbv zeta. unfold buildPrData. cbn [pr_files pr_total_files pr_description].
  split; [|split; [|split; [|split; [|split]]]].
  - rewrite length_map. apply firstn_le_length.
  - rewrite map_map. reflexivity.
  - reflexivity.
  - unfold describe. apply substring0_length. lia.
  - apply Forall_forall. intros f Hf. apply in_map_iff in Hf as (f0 & <- & _).
    cbn [patch]. destruct (patch f0) as [[|c p]|]; try exact I.
    unfold jslength, substring0. rewrite length_firstn. cbn [length]. lia.
  - unfold describe. intros [->| ->]; reflexivity.
Qed.

(** ** How a Failure of the client is concluded *)

Lemma isUnavailable_friendlyError (error : jsstring) :
  isUnavailable (friendlyError error) = concludedNeutral error.
Proof.
  unfold friendlyError, concludedNeutral. cbv zeta.
  set (m := strOr error (lit "Langflow request failed")).
  destruct (includes m (lit "504")) eqn:H504;
    [reflexivity|].
  destruct (includes m (lit "GATEWAY_TIMEOUT")) eqn:Hgw; [reflexivity|].
  destruct (includes m (lit "timeout")) eqn:Hto; [reflexivity|].
  destruct (includes m (lit "ETIMEDOUT")) eqn:Het; [reflexivity|].
  destruct (includes m (lit "500")) eqn:H500; [reflexivity|].
  destruct (includes m (lit "503")) eqn:H503; [reflexivity|].
  cbn [orb negb andb]. unfold isUnavailable. now rewrite Hto, H504.
Qed.

(** X19: when the client returns a Failure, the handler requests one error
    update that offers to retry the review, and concludes [neutral] exactly
    when the failure message mentions "504" or "GATEWAY_TIMEOUT", or
    mentions neither "timeout" nor "ETIMEDOUT" but one of "500", "503",
    "temporarily unavailable", "high load"; in every other case, a failure
    message that mentions a timeout included, the conclusion is
    [failure]. *)
Theorem handleReviewRequest_failure_conclusion
    (env : Env) (payload : Payload) (w : World) (octokit : Octokit) (n : Z)
    (evs : World) (pr : PullData) (files : list FileData)
    (error originalError : jsstring) (w4 : World) :
  getOctokit_outcome env = Normal octokit ->
  resolvedPr env payload = Some (n, evs) ->
  pulls_get_outcome env = Normal pr ->
  pulls_listFiles_outcome env = Normal files ->
  triggerLangflow env (ReviewData (buildPrData env payload n pr files))
    (LANGFLOW_REVIEW_FLOW_ID env) (w ++ contextEvents env payload n evs)
  = (Normal (Failure error originalError), w4) ->
  exists terminal,
    handleReviewRequest env payload w = (Normal tt, w4 ++ [EvChecksUpdate terminal]) /\
    cp_status terminal = lit "completed" /\
    conclusion terminal
    = Some (if concludedNeutral error then lit "neutral" else lit "failure") /\
    map identifier (actions terminal) = [lit "review_pr"].
Proof.
  intros Ho Hp Hg Hf Hrun.
  exists (errorUpdateParams payload (newError (friendlyError error))).
  split; [|split; [reflexivity|split; [|reflexivity]]].
  - rewrite (handleReviewRequest_run env payload octokit n evs pr files w Ho Hp Hg Hf).
    now rewrite Hrun.
  - unfold errorUpdateParams. cbn [conclusion message newError].
    now rewrite isUnavailable_friendlyError.
Qed.

Lemma handleReviewRequest_failure_conclusion_witness :
  exists terminal,
    handleReviewRequest (Sample.env (Sample.script [] (Throw Cases.abortError)))
      Sample.payload []
    = (Normal tt,
       snd (triggerLangflow (Sample.env (Sample.script [] (Throw Cases.abortError)))
              (ReviewData
                 (buildPrData (Sample.env (Sample.script [] (Throw Cases.abortError)))
                    Sample.payload 7 Sample.pull []))
              (Some (lit "review-flow"))
              ([] ++ contextEvents
                       (Sample.env (Sample.script [] (Throw Cases.abortError)))
                       Sample.payload 7 []))
       ++ [EvChecksUpdate terminal]) /\
    conclusion terminal = Some (lit "failure").
Proof.
  destruct (handleReviewRequest_failure_conclusion
              (Sample.env (Sample.script [] (Throw Cases.abortError)))
              Sample.payload [] InstallationOctokit 7 [] Sample.pull []
              timedOutMessage (lit "The user aborted a request.")
              (snd (triggerLangflow
                      (Sample.env (Sample.script [] (Throw Cases.abortError)))
                      (ReviewData
                         (buildPrData
                            (Sample.env (Sample.script [] (Throw Cases.abortError)))
                            Sample.payload 7 Sample.pull []))
                      (Some (lit "review-flow"))
                      ([] ++ contextEvents
                               (Sample.env (Sample.script [] (Throw Cases.abortError)))
                               Sample.payload 7 []))))
    as (terminal & H1 & _ & H2 & _).
  - reflexivity.
  - reflexivity.
  - reflexivity.
  - reflexivity.
  - vm_compute. reflexivity.
  - exists terminal. split; [exact H1|exact H2].
Defined.

(** * Further properties of the merge readiness orchestrator *)

Lemma updateCalls_app (w v : World) :
  updateCalls (w ++ v) = (updateCalls w + updateCalls v)%nat.
Proof. unfold updateCalls. now rewrite filter_app, length_app. Qed.

Lemma resolvedPr_no_update env payload n evs :
  resolvedPr env payload = Some (n, evs) -> updateCalls evs = 0%nat.
Proof.
  unfold resolvedPr. destruct (p_pull_requests payload) as [|k ks].
  - destruct (pulls_list_outcome env) as [[|k ks]|e]; try discriminate.
    now intros [= <- <-].
  - now intros [= <- <-].
Qed.

Lemma findPrNumberMerge_resolved env octokit payload n evs w :
  resolvedPr env payload = Some (n, evs) ->
  findPrNumberMerge env octokit payload w = (Normal n, w ++ evs).
Proof.
  unfold resolvedPr, findPrNumberMerge.
  destruct (p_pull_requests payload) as [|k ks].
  - unfold bind, pulls_list, ret.
    destruct (pulls_list_outcome env) as [[|k ks]|e]; try discriminate.
    intros [= <- <-]. reflexivity.
  - intros [= <- <-]. unfold ret. now rewrite app_nil_r.
Qed.

(** The handler, once the context has been gathered, is determined by the
    result of the workflow client. *)
Lemma handleMergeCheck_run env payload octokit n evs pr comments w :
  getOctokit_outcome env = Normal octokit ->
  resolvedPr env payload = Some (n, evs) ->
  checks_update_outcome env (updateCalls w) = Normal tt ->
  pulls_get_outcome env = Normal pr ->
  issues_listComments_outcome env = Normal comments ->
  handleMergeCheck env payload w
  = match triggerLangflow env (MergeData (buildMergeData env payload n pr comments))
            (LANGFLOW_MERGE_CHECK_FLOW_ID env)
            (w ++ mergeContextEvents payload n evs) with
    | (Normal result, w4) =>
        try_catch (mergeCheckFinish env payload octokit n result)
          (fun _ => throw (referenceError (lit "octokit is not defined"))) w4
    | (Throw e, w4) => (Throw (referenceError (lit "octokit is not defined")), w4)
    end.
Proof.
  intros Ho Hp Hu Hg Hc.
  unfold handleMergeCheck, try_catch, mergeBody.
  unfold bind at 1. unfold getOctokit. rewrite Ho.
  unfold bind at 1. rewrite (findPrNumberMerge_resolved env octokit payload n evs _ Hp).
  unfold bind at 1. unfold checks_update at 1.
  replace (updateCalls ((w ++ [EvGetOctokit]) ++ evs)) with (updateCalls w)
    by (rewrite !updateCalls_app, (resolvedPr_no_update env payload n evs Hp);
        cbn; lia).
  rewrite Hu.
  unfold bind at 1. unfold pulls_get. rewrite Hg.
  unfold bind at 1. unfold issues_listComments. rewrite Hc.
  unfold bind at 1.
  replace (((((w ++ [EvGetOctokit]) ++ evs) ++
             [EvChecksUpdate (mergeInProgressParams payload)]) ++ [EvPullsGet n])
           ++ [EvListComments n])
    with (w ++ mergeContextEvents payload n evs)
    by (unfold mergeContextEvents; now rewrite <- !app_assoc).
  destruct (triggerLangflow _ _ _ _) as [[result|e] w4]; [|reflexivity].
  destruct (mergeCheckFinish env payload octokit n result w4) as [[[]|e] w5];
    reflexivity.
Qed.

(** X20: when the context is gathered, the client returns a Success whose
    message is the string [m], and GitHub accepts the updates and the
    comment, the merge check completes normally with exactly two
    [checks.update] calls, in progress and then completed with the
    conclusion decided by "ready", followed by one comment that carries
    the message. *)
Theorem handleMergeCheck_success
    (env : Env) (payload : Payload) (w : World) (octokit : Octokit) (n : Z)
    (evs : World) (pr : PullData) (comments : list jsstring)
    (m : jsstring) (d : Value) (w4 : World) :
  getOctokit_outcome env = Normal octokit ->
  resolvedPr env payload = Some (n, evs) ->
  checks_update_outcome env (updateCalls w) = Normal tt ->
  pulls_get_outcome env = Normal pr ->
  issues_listComments_outcome env = Normal comments ->
  triggerLangflow env (MergeData (buildMergeData env payload n pr comments))
    (LANGFLOW_MERGE_CHECK_FLOW_ID env) (w ++ mergeContextEvents payload n evs)
  = (Normal (Success (VStr m) d), w4) ->
  checks_update_outcome env (updateCalls w4) = Normal tt ->
  issues_createComment_outcome env = Normal tt ->
  let terminal :=
    mergeCompletedParams payload (VStr m)
      (includes (toLowerCase env m) (lit "ready")) in
  handleMergeCheck env payload w
  = (Normal tt,
     w4 ++ [EvChecksUpdate terminal; EvCreateComment n (mergeCommentBody (VStr m))]) /\
  exists evs', w4 = w ++ evs' /\
    checkUpdates (evs' ++ [EvChecksUpdate terminal;
                           EvCreateComment n (mergeCommentBody (VStr m))])
    = [mergeInProgressParams payload; terminal].
Proof.
  intros Ho Hp Hu Hg Hc Hrun Hu4 Hcm terminal. split.
  - rewrite (handleMergeCheck_run env payload octokit n evs pr comments w
               Ho Hp Hu Hg Hc), Hrun.
    unfold try_catch, mergeCheckFinish, lowerOf, bind, liftC, checks_update,
      issues_createComment.
    rewrite Hu4, Hcm. fold terminal. now rewrite <- app_assoc.
  - destruct (triggerLangflow_log env
                (MergeData (buildMergeData env payload n pr comments))
                (LANGFLOW_MERGE_CHECK_FLOW_ID env)
                (w ++ mergeContextEvents payload n evs))
      as (result & evs2 & Hlog & Hu2).
    rewrite Hrun in Hlog. injection Hlog as _ Hw4.
    exists (mergeContextEvents payload n evs ++ evs2).
    split; [now rewrite Hw4, <- app_assoc|].
    destruct (resolvedPr_events env payload n evs Hp) as [_ Hue].
    unfold mergeContextEvents. rewrite !checkUpdates_app, Hue, Hu2. reflexivity.
Qed.

Lemma handleMergeCheck_success_witness :
  map conclusion
    (checkUpdates
       (snd (handleMergeCheck
               (Sample.env (Sample.script []
                  (Normal (Cases.answer (VObj [(lit "result",
                                                VStr (lit "Ready to merge"))])))))
               Sample.payload [])))
  = [None; Some (lit "success")].
Proof.
  destruct (handleMergeCheck_success
              (Sample.env (Sample.script []
                 (Normal (Cases.answer (VObj [(lit "result",
                                               VStr (lit "Ready to merge"))])))))
              Sample.payload [] InstallationOctokit 7 [] Sample.pull []
              (lit "Ready to merge")
              (VObj [(lit "result", VStr (lit "Ready to merge"))])
              (snd (triggerLangflow
                      (Sample.env (Sample.script []
                         (Normal (Cases.answer (VObj [(lit "result",
                                                       VStr (lit "Ready to merge"))])))))
                      (MergeData
                         (buildMergeData
                            (Sample.env (Sample.script []
                               (Normal (Cases.answer (VObj [(lit "result",
                                                             VStr (lit "Ready to merge"))])))))
                            Sample.payload 7 Sample.pull []))
                      (Some (lit "merge-flow"))
                      ([] ++ mergeContextEvents Sample.payload 7 []))))
    as [H _].
  - reflexivity.
  - reflexivity.
  - reflexivity.
  - reflexivity.
  - reflexivity.
  - vm_compute. reflexivity.
  - reflexivity.
  - reflexivity.
  - rewrite H. vm_compute. reflexivity.
Defined.

(** X21: when the context is gathered and the client returns a Failure, the
    merge check reports nothing: its [catch] block reads [octokit] outside
    the block that declares it, so the handler throws the ReferenceError
    "octokit is not defined" and the only [checks.update] call made is the
    in-progress one, which leaves the check run in progress. *)
Theorem handleMergeCheck_failure_unreported
    (env : Env) (payload : Payload) (w : World) (octokit : Octokit) (n : Z)
    (evs : World) (pr : PullData) (comments : list jsstring)
    (error originalError : jsstring) (w4 : World) :
  getOctokit_outcome env = Normal octokit ->
  resolvedPr env payload = Some (n, evs) ->
  checks_update_outcome env (updateCalls w) = Normal tt ->
  pulls_get_outcome env = Normal pr ->
  issues_listComments_outcome env = Normal comments ->
  triggerLangflow env (MergeData (buildMergeData env payload n pr comments))
    (LANGFLOW_MERGE_CHECK_FLOW_ID env) (w ++ mergeContextEvents payload n evs)
  = (Normal (Failure error originalError), w4) ->
  handleMergeCheck env payload w
  = (Throw (referenceError (lit "octokit is not defined")), w4) /\
  exists evs', w4 = w ++ evs' /\ checkUpdates evs' = [mergeInProgressParams payload].
Proof.
  intros Ho Hp Hu Hg Hc Hrun. split.
  - rewrite (handleMergeCheck_run env payload octokit n evs pr comments w
               Ho Hp Hu Hg Hc), Hrun.
    reflexivity.
  - destruct (triggerLangflow_log env
                (MergeData (buildMergeData env payload n pr comments))
                (LANGFLOW_MERGE_CHECK_FLOW_ID env)
                (w ++ mergeContextEvents payload n evs))
      as (result & evs2 & Hlog & Hu2).
    rewrite Hrun in Hlog. injection Hlog as _ Hw4.
    exists (mergeContextEvents payload n evs ++ evs2).
    split; [now rewrite Hw4, <- app_assoc|].
    destruct (resolvedPr_events env payload n evs Hp) as [_ Hue].
    unfold mergeContextEvents. rewrite !checkUpdates_app, Hue, Hu2. reflexivity.
Qed.

Lemma handleMergeCheck_failure_unreported_witness :
  fst (handleMergeCheck
         (Sample.env (Sample.script [] (Normal Sample.badRequest400)))
         Sample.payload [])
  = Throw (referenceError (lit "octokit is not defined")).
Proof.
  destruct (handleMergeCheck_failure_unreported
              (Sample.env (Sample.script [] (Normal Sample.badRequest400)))
              Sample.payload [] InstallationOctokit 7 [] Sample.pull []
              (lit "Bad request to Langflow API. Please check the data format. Details: missing field")
              (lit "Bad request to Langflow API. Please check the data format. Details: missing field")
              (snd (triggerLangflow
                      (Sample.env (Sample.script [] (Normal Sample.badRequest400)))
                      (MergeData
                         (buildMergeData
                            (Sample.env (Sample.script [] (Normal Sample.badRequest400)))
                            Sample.payload 7 Sample.pull []))
                      (Some (lit "merge-flow"))
                      ([] ++ mergeContextEvents Sample.payload 7 []))))
    as [H _].
  - reflexivity.
  - reflexivity.
  - reflexivity.
  - reflexivity.
  - reflexivity.
  - vm_compute. reflexivity.
  - rewrite H. reflexivity.
Defined.

Lemma findPrNumberMerge_log env octokit payload w :
  exists c evs,
    findPrNumberMerge env octokit payload w = (c, w ++ evs) /\ checkUpdates evs = [].
Proof.
  unfold findPrNumberMerge. destruct (p_pull_requests payload) as [|n ns].
  - unfold bind, pulls_list, throw, ret.
    destruct (pulls_list_outcome env) as [[|n ns]|e]; eexists _, [_]; now split.
  - unfold ret. eexists _, []. split; [now rewrite app_nil_r|reflexivity].
Qed.

Lemma mergeCheckFinish_log env payload octokit n result w :
  exists c evs,
    mergeCheckFinish env payload octokit n result w = (c, w ++ evs) /\
    (checkUpdates evs = [] \/
     exists m ready, checkUpdates evs = [mergeCompletedParams payload (VStr m) ready]).
Proof.
  unfold mergeCheckFinish. destruct result as [msg d|error orig].
  - unfold bind, liftC, lowerOf, checks_update, issues_createComment.
    destruct msg as [| |b|q|m|l|fields];
      try (eexists _, []; split; [now rewrite app_nil_r|now left]).
    destruct (checks_update_outcome env (updateCalls w)) as [[]|e].
    + eexists _, [_; _]. split; [now rewrite <- app_assoc|].
      right. eexists _, _. reflexivity.
    + eexists _, [_]. split; [reflexivity|]. right. eexists _, _. reflexivity.
  - unfold throw. eexists _, []. split; [now rewrite app_nil_r|now left].
Qed.

(** The [checks.update] calls of the [try] block are the in-progress one
    and then the completed one, or a prefix of these. *)
Lemma mergeBody_updates env payload w :
  exists c evs,
    mergeBody env payload w = (c, w ++ evs) /\
    (checkUpdates evs = [] \/
     checkUpdates evs = [mergeInProgressParams payload] \/
     exists m ready,
       checkUpdates evs
       = [mergeInProgressParams payload; mergeCompletedParams payload (VStr m) ready]).
Proof.
  destruct (mergeBody env payload w) as [c w'] eqn:Hrun.
  unfold mergeBody in Hrun. unfold bind at 1 in Hrun. unfold getOctokit in Hrun.
  destruct (getOctokit_outcome env) as [octokit|e].
  2:{ injection Hrun as <- <-. eexists _, [_]. split; [reflexivity|now left]. }
  unfold bind at 1 in Hrun.
  destruct (findPrNumberMerge_log env octokit payload (w ++ [EvGetOctokit]))
    as (c1 & evs1 & Hfind & Hu1).
  rewrite Hfind in Hrun. destruct c1 as [n|e].
  2:{ injection Hrun as <- <-. exists (Throw e), ([EvGetOctokit] ++ evs1).
      split; [now rewrite <- app_assoc|]. left.
      now rewrite checkUpdates_app, Hu1. }
  unfold bind at 1 in Hrun. unfold checks_update at 1 in Hrun.
  destruct (checks_update_outcome env _) as [[]|e].
  2:{ injection Hrun as <- <-.
      exists (Throw e),
        ([EvGetOctokit] ++ evs1 ++ [EvChecksUpdate (mergeInProgressParams payload)]).
      split; [now rewrite <- !app_assoc|]. right. left.
      now rewrite !checkUpdates_app, Hu1. }
  unfold bind at 1 in Hrun. unfold pulls_get in Hrun.
  destruct (pulls_get_outcome env) as [pr|e].
  2:{ injection Hrun as <- <-.
      exists (Throw e),
        ([EvGetOctokit] ++ evs1 ++
         [EvChecksUpdate (mergeInProgressParams payload); EvPullsGet n]).
      split; [now rewrite <- !app_assoc|]. right. left.
      now rewrite !checkUpdates_app, Hu1. }
  unfold bind at 1 in Hrun. unfold issues_listComments in Hrun.
  destruct (issues_listComments_outcome env) as [comments|e].
  2:{ injection Hrun as <- <-.
      exists (Throw e),
        ([EvGetOctokit] ++ evs1 ++
         [EvChecksUpdate (mergeInProgressParams payload); EvPullsGet n;
          EvListComments n]).
      split; [now rewrite <- !app_assoc|]. right. left.
      now rewrite !checkUpdates_app, Hu1. }
  unfold bind at 1 in Hrun.
  match type of Hrun with context [triggerLangflow env ?d ?f ?w0] =>
    destruct (triggerLangflow_log env d f w0) as (result & evs2 & Htrig & Hu2);
    rewrite Htrig in Hrun
  end.
  match type of Hrun with mergeCheckFinish env payload octokit n result ?w0 = _ =>
    destruct (mergeCheckFinish_log env payload octokit n result w0)
      as (c3 & evs3 & Hfin & Hu3);
    rewrite Hfin in Hrun
  end.
  injection Hrun as <- <-.
  exists c3,
    ([EvGetOctokit] ++ evs1 ++
     [EvChecksUpdate (mergeInProgressParams payload); EvPullsGet n; EvListComments n]
     ++ evs2 ++ evs3).
  split; [now rewrite <- !app_assoc|].
  right. rewrite !checkUpdates_app, Hu1, Hu2. cbn [checkUpdates app].
  destruct Hu3 as [->|(m & ready & ->)]; [now left|right; now exists m, ready].
Qed.

(** X22: whatever fails inside it, [handleMergeCheck] either completes or
    throws the ReferenceError "octokit is not defined", never the error
    that occurred; and the "Merge Check Unavailable" update of its [catch]
    block is never requested: the [checks.update] calls it makes are the
    in-progress one and the completed one of the success path, or a prefix
    of these. When the GitHub client cannot be obtained it throws after
    that single call. *)
Theorem handleMergeCheck_errors_are_masked
    (env : Env) (payload : Payload) (w : World) :
  (exists c evs,
     handleMergeCheck env payload w = (c, w ++ evs) /\
     (c = Normal tt \/ c = Throw (referenceError (lit "octokit is not defined"))) /\
     (checkUpdates evs = [] \/
      checkUpdates evs = [mergeInProgressParams payload] \/
      exists m ready,
        checkUpdates evs
        = [mergeInProgressParams payload;
           mergeCompletedParams payload (VStr m) ready])) /\
  (forall e, getOctokit_outcome env = Throw e ->
     handleMergeCheck env payload w
     = (Throw (referenceError (lit "octokit is not defined")), w ++ [EvGetOctokit])).
Proof.
  split.
  - destruct (mergeBody_updates env payload w) as (c & evs & Hrun & Hu).
    unfold handleMergeCheck, try_catch, throw. rewrite Hrun.
    destruct c as [[]|e]; eexists _, evs; (split; [reflexivity|]);
      (split; [|exact Hu]); [now left|now right].
  - intros e He. unfold handleMergeCheck, try_catch, mergeBody, getOctokit, throw.
    unfold bind at 1. rewrite He. reflexivity.
Qed.

Lemma find_skip {A} (f : A -> bool) (earlier : list A) (x : A) (later : list A) :
  (forall c, In c earlier -> f c = false) -> f x = true ->
  find f (earlier ++ x :: later) = Some x.
Proof.
  intros He Hx. induction earlier as [|c earlier IH]; cbn [app find].
  - now rewrite Hx.
  - rewrite (He c) by now left. apply IH. intros c' Hc'. apply He. now right.
Qed.

Lemma find_none {A} (f : A -> bool) (l : list A) :
  (forall c, In c l -> f c = false) -> find f l = None.
Proof.
  intros H. induction l as [|c l IH]; [reflexivity|]. cbn [find].
  rewrite (H c) by now left. apply IH. intros c' Hc'. apply H. now right.
Qed.

(** X23: the comment that [handleReviewRequest] posts is the one that
    [handleMergeCheck] takes for the previous review: whatever the message,
    the posted body contains "AI Code Review Results", so when no earlier
    comment contains it the [previous_review] sent to the workflow is the
    first 1000 characters of that body; without any such comment it is
    "No previous review found". *)
Theorem review_comment_is_previous_review
    (env : Env) (payload : Payload) (n : Z) (pr : PullData)
    (toStr : Value -> jsstring) (numStr : Q -> jsstring) (msg : Value)
    (earlier later : list jsstring) :
  (forall c, In c earlier -> includes c (lit "AI Code Review Results") = false) ->
  let posted := flatten toStr numStr (reviewCommentBody msg) in
  mc_previous_review (buildMergeData env payload n pr (earlier ++ posted :: later))
  = substring0 1000 posted /\
  jslength (substring0 1000 posted) <= 1000 /\
  mc_previous_review (buildMergeData env payload n pr earlier)
  = lit "No previous review found".
Proof.
  intros He posted.
  assert (Hp : includes posted (lit "AI Code Review Results") = true).
  { unfold posted, flatten, reviewCommentBody. cbn [map concat].
    apply includes_app_l. reflexivity. }
  unfold buildMergeData. cbn [mc_previous_review].
  split; [|split].
  - now rewrite (find_skip _ earlier posted later He Hp).
  - apply substring0_length. lia.
  - now rewrite (find_none _ earlier He).
Qed.

Lemma review_comment_is_previous_review_witness :
  mc_previous_review
    (buildMergeData (Sample.env (Sample.script [] (Normal Sample.ok200)))
       Sample.payload 7 Sample.pull
       ([lit "Thanks for the change"] ++
        flatten (fun _ => lit "All good") (fun _ => lit "0")
          (reviewCommentBody (VStr (lit "All good"))) :: []))
  = substring0 1000
      (flatten (fun _ => lit "All good") (fun _ => lit "0")
         (reviewCommentBody (VStr (lit "All good")))).
Proof.
  refine (proj1 (review_comment_is_previous_review
                   (Sample.env (Sample.script [] (Normal Sample.ok200)))
                   Sample.payload 7 Sample.pull
                   (fun _ => lit "All good") (fun _ => lit "0")
                   (VStr (lit "All good")) [lit "Thanks for the change"] [] _)).
  intros c [<-|[]]. reflexivity.
Defined.

(** * Properties of the other entry points *)

(** X24: [addReviewButton] never throws. When the GitHub client is obtained
    it makes exactly one [checks.create] call, whatever that call answers,
    for a check named "AI Code Review" on the head commit of the pull
    request, already completed with conclusion [neutral], whose only action
    is one that the button handler routes to [handleReviewRequest]; when
    the client is not obtained it creates nothing. *)
Theorem addReviewButton_outcome
    (env : Env) (create : Completion unit) (payload : PullRequestPayload)
    (w : list ButtonEvent) :
  addReviewButton env create payload w
  = (Normal tt,
     match getOctokit_outcome env with
     | Normal _ => w ++ [BtnGetOctokit; BtnChecksCreate (checkParams payload)]
     | Throw _ => w ++ [BtnGetOctokit]
     end) /\
  cr_name (checkParams payload) = lit "AI Code Review" /\
  cr_head_sha (checkParams payload) = prp_head_sha payload /\
  cr_status (checkParams payload) = lit "completed" /\
  cr_conclusion (checkParams payload) = lit "neutral" /\
  length (cr_actions (checkParams payload)) = 1%nat /\
  (forall a clicked, In a (cr_actions (checkParams payload)) ->
     onRequestedAction env (identifier a) clicked = handleReviewRequest env clicked).
Proof.
  split; [|repeat split].
  - unfold addReviewButton, try_catch, bind, ret.
    destruct (getOctokit_outcome env) as [octokit|e]; [|reflexivity].
    destruct create as [[]|e]; now rewrite <- app_assoc.
  - intros a clicked [<-|[]]. reflexivity.
Qed.

(** X25: the health check always answers. Without an endpoint it makes no
    probe and reports "not configured" and "unknown"; with one it makes a
    single GET probe of [endpoint/health] with the bearer credential, and
    reports "healthy" exactly when the probe answered with an ok status,
    "error: " followed by the status when it answered otherwise, and
    "error: " followed by the error message when it threw. *)
Theorem healthCheck_connectivity
    (env : Env) (healthCheckTimeout : Z) (now : jsstring)
    (probe : Completion Response) (w : list HealthEvent) :
  exists health w',
    healthCheck env healthCheckTimeout now probe w = (Normal health, w') /\
    h_status health = lit "AI PR Review Bot is running!" /\
    h_timestamp health = now /\
    (envTruthy (LANGFLOW_ENDPOINT env) = false ->
     w' = w /\ h_endpoint health = lit "not configured" /\
     h_connectivity health = lit "unknown") /\
    (envTruthy (LANGFLOW_ENDPOINT env) = true ->
     w' = w ++ [HvFetch (envStr (LANGFLOW_ENDPOINT env) ++ lit "/health")
                  healthCheckTimeout
                  (lit "Bearer " ++ envStr (LANGFLOW_API_KEY env))] /\
     h_endpoint health = lit "configured" /\
     h_connectivity health
     = match probe with
       | Normal r => if ok r then lit "healthy"
                     else lit "error: " ++ decimal (status r)
       | Throw e => lit "error: " ++ message e
       end) /\
    (h_connectivity health = lit "healthy" <->
     envTruthy (LANGFLOW_ENDPOINT env) = true /\
     exists r, probe = Normal r /\ ok r = true).
Proof.
  assert (Herr : forall x, lit "error: " ++ x <> lit "healthy").
  { intros x H. vm_compute in H. discriminate. }
  unfold healthCheck.
  destruct (envTruthy (LANGFLOW_ENDPOINT env)) eqn:He.
  - unfold try_catch, bind, ret.
    destruct probe as [r|e].
    + eexists _, _. split; [reflexivity|].
      cbn [h_status h_timestamp h_endpoint h_connectivity].
      split; [reflexivity|]. split; [reflexivity|].
      split; [discriminate|]. split; [intros _; repeat split|].
      split.
      * intros H. split; [reflexivity|]. exists r. split; [reflexivity|].
        destruct (ok r); [reflexivity|]. now apply Herr in H.
      * intros (_ & r' & [= <-] & ->). reflexivity.
    + eexists _, _. split; [reflexivity|].
      cbn [h_status h_timestamp h_endpoint h_connectivity].
      split; [reflexivity|]. split; [reflexivity|].
      split; [discriminate|]. split; [intros _; repeat split|].
      split.
      * intros H. now apply Herr in H.
      * intros (_ & r' & Hr & _). discriminate.
  - unfold ret. eexists _, _. split; [reflexivity|].
    cbn [h_status h_timestamp h_endpoint h_connectivity].
    split; [reflexivity|]. split; [reflexivity|].
    split; [intros _; repeat split|]. split; [discriminate|].
    split.
    + intros H. vm_compute in H. discriminate.
    + intros (H & _). discriminate.
Qed.
